(** * amWiki, build/manageFolder.js: the folder manager

    A shallow embedding of [manageFolder] (directory walker, library scan,
    folder cleaning and creation, path helpers) and the properties of it
    that the specification states.

    Strings are byte strings (the UTF-8 form of the JavaScript strings);
    every character the code inspects is ASCII, so a test or a replacement
    on bytes is the one the code does on UTF-16 units. Lengths count
    bytes: they are the lengths of the code on ASCII paths. An object used
    as a dictionary is a finite map from names to values: its own
    properties and, under the name [__proto__], its prototype when one
    was assigned. *)

From Stdlib Require Import Ascii String List Bool Arith Lia.
From stdpp Require Import base option list gmap strings.

Local Open Scope stdpp_scope.

(** ** JavaScript strings and the regular expressions of the module *)

Module Js.

(** Errors that the code can meet: a failed [fs] call (with its code) and
    the [TypeError] of a property read or a method call on a value that
    has none. *)
Inductive exn : Type :=
| FsError (code : string)
| TypeError (what : string).

(** How a call ends: with a value, or with a raised error. *)
Inductive completion (A : Type) : Type :=
| Return (a : A)
| Throw (e : exn).
Arguments Return {A} a.
Arguments Throw {A} e.

(** What [console.error] and [console.warn] have printed. *)
Inductive message : Type :=
| ConsoleError (e : exn)
| ConsoleWarn (text : string).

Definition is_char (c d : ascii) : bool := Ascii.eqb c d.

(** A pattern is given by what it does at one position: [None] when it
    does not match there, otherwise the rest of the subject after the
    match the engine takes. *)
Definition matcher := string -> option string.

(** [subject.replace(pattern, by)] for a pattern without the [g] flag:
    the leftmost match is replaced, the end of the subject included among
    the positions tried. *)
Fixpoint replace (m : matcher) (by_ : string) (s : string) : string :=
  match m s with
  | Some rest => by_ +:+ rest
  | None =>
      match s with
      | EmptyString => EmptyString
      | String c r => String c (replace m by_ r)
      end
  end.

(** [pattern.test(subject)] for a pattern that is not anchored at the
    start. *)
Fixpoint test (m : matcher) (s : string) : bool :=
  match m s with
  | Some _ => true
  | None =>
      match s with
      | EmptyString => false
      | String _ r => test m r
      end
  end.

(** [subject.replace(/\\/g, '/')] *)
Fixpoint replace_backslashes (s : string) : string :=
  match s with
  | EmptyString => EmptyString
  | String c r =>
      String (if is_char c "\" then "/" else c) (replace_backslashes r)
  end.

(** [subject.indexOf(c) < 0] for a one-character needle. *)
Fixpoint lacks (c : ascii) (s : string) : bool :=
  match s with
  | EmptyString => true
  | String d r => negb (is_char d c) && lacks c r
  end.

(** The literal pattern of [subject.replace('/', '')] and of
    [subject.indexOf(needle)]: the needle itself. *)
Fixpoint literal (needle : string) : matcher := fun s =>
  match needle with
  | EmptyString => Some s
  | String c n =>
      match s with
      | String d r => if is_char d c then literal n r else None
      | EmptyString => None
      end
  end.

(** [subject.indexOf(needle) < 0] *)
Definition index_negative (needle s : string) : bool :=
  negb (test (literal needle) s).

(** [/^[a-zA-Z]:/.test(subject)] *)
Definition is_letter (c : ascii) : bool :=
  let n := nat_of_ascii c in
  ((65 <=? n) && (n <=? 90)) || ((97 <=? n) && (n <=? 122)).

Definition drive_prefix (s : string) : bool :=
  match s with
  | String c (String d _) => is_letter c && is_char d ":"
  | _ => false
  end.

(** [/\/$/] *)
Definition trailing_slash : matcher := fun s =>
  match s with
  | String c EmptyString => if is_char c "/" then Some EmptyString else None
  | _ => None
  end.

(** [/\/[^\/]+$/] *)
Definition last_segment : matcher := fun s =>
  match s with
  | String c (String d r) =>
      if is_char c "/" && lacks "/" (String d r) then Some EmptyString
      else None
  | _ => None
  end.

(** [/\/?$/] *)
Definition optional_trailing_slash : matcher := fun s =>
  match s with
  | EmptyString => Some EmptyString
  | String c EmptyString => if is_char c "/" then Some EmptyString else None
  | _ => None
  end.

(** [/^\./.test(subject)] *)
Definition starts_with_dot (s : string) : bool :=
  match s with
  | String c _ => is_char c "."
  | EmptyString => false
  end.

Definition is_separator (c : ascii) : bool := is_char c "\" || is_char c "/".

(** [/library[\\\/]$/] *)
Definition library_separator_end : matcher := fun s =>
  match literal "library" s with
  | Some (String c EmptyString) =>
      if is_separator c then Some EmptyString else None
  | _ => None
  end.

(** [/library\/?$/] *)
Definition library_end : matcher := fun s =>
  match literal "library" s with
  | Some r => optional_trailing_slash r
  | None => None
  end.

(** [/[\\\/]?&/] *)
Definition separator_ampersand : matcher := fun s =>
  match s with
  | String c (String d r) =>
      if is_separator c && is_char d "&" then Some r
      else if is_char c "&" then Some (String d r)
      else None
  | String c EmptyString => if is_char c "&" then Some EmptyString else None
  | EmptyString => None
  end.

(** A line terminator starts here: [.] does not match LF, CR, U+2028 or
    U+2029 (the last two are E2 80 A8 and E2 80 A9 in UTF-8). *)
Definition line_terminator_at (s : string) : bool :=
  match s with
  | String c r =>
      is_char c "010" || is_char c "013" ||
      match r with
      | String d (String e _) =>
          is_char c "226" && is_char d "128" &&
          (is_char e "168" || is_char e "169")
      | _ => false
      end
  | EmptyString => false
  end.

(** [.*?\.md$] at one position: the lazy star first tries what follows
    it, then gives one more character to [.]. *)
Fixpoint any_then_md_end (s : string) : bool :=
  if String.eqb s ".md" then true
  else
    match s with
    | String _ r => if line_terminator_at s then false else any_then_md_end r
    | EmptyString => false
    end.

(** [/^home[-_].*?\.md$/.test(subject)] *)
Definition home_pattern (s : string) : bool :=
  match literal "home" s with
  | Some (String c r) =>
      (is_char c "-" || is_char c "_") && any_then_md_end r
  | _ => false
  end.

(** [subject.substr(n)] for [n >= 0]. *)
Fixpoint substr (n : nat) (s : string) : string :=
  match n, s with
  | 0, _ => s
  | S k, String _ r => substr k r
  | S _, EmptyString => EmptyString
  end.

(** [subject.split(/[-_]/)[0]] *)
Fixpoint first_field (s : string) : string :=
  match s with
  | EmptyString => EmptyString
  | String c r =>
      if is_char c "-" || is_char c "_" then EmptyString
      else String c (first_field r)
  end.

(** The number of ['/'] in a string. *)
Fixpoint count_slashes (s : string) : nat :=
  match s with
  | EmptyString => 0
  | String c r => (if is_char c "/" then 1 else 0) + count_slashes r
  end.

(** [subject.match(pattern)[1]] for a pattern with one group and without
    the [g] flag: the group of the leftmost match, [None] when [match]
    gives [null]. A pattern is given here by the group it captures at one
    position. *)
Fixpoint exec (m : string -> option string) (s : string) : option string :=
  match m s with
  | Some group => Some group
  | None =>
      match s with
      | EmptyString => None
      | String _ r => exec m r
      end
  end.

(** [/\/([^\/]*?)$/]: a ['/'] and, in the group, what follows it up to the
    end, free of ['/']. *)
Definition slash_then_name (s : string) : option string :=
  match s with
  | String c r => if is_char c "/" && lacks "/" r then Some r else None
  | EmptyString => None
  end.

(** [/library(\\|\/)?$/] *)
Definition library_any_separator_end : matcher := fun s =>
  match literal "library" s with
  | Some EmptyString => Some EmptyString
  | Some (String c EmptyString) =>
      if is_separator c then Some EmptyString else None
  | _ => None
  end.

(** [subject.split(needle)[0]]: what stands before the first occurrence of
    the needle, the whole subject when there is none. *)
Fixpoint before_first (needle : string) (s : string) : string :=
  match literal needle s with
  | Some _ => EmptyString
  | None =>
      match s with
      | EmptyString => EmptyString
      | String c r => String c (before_first needle r)
      end
  end.

End Js.

Import Js.

(** ** Path helpers *)

(** [getParentFolder(path)] for a string [path]; [None] is the value
    [false]. *)
Definition getParentFolder (path : string) : option string :=
  let path := replace_backslashes path in
  if drive_prefix path && (String.length path <? 3) then None
  else if index_negative "/" (replace (literal "/") "" path) then None
  else Some (replace last_segment "/" (replace trailing_slash "" path)).


(** [getParentFolder(path)] where [path] may be the value [false] ([None]):
    [false] has no [replace] method. *)
Definition getParentFolder_of (path : option string) : completion (option string) :=
  match path with
  | Some p => Return (getParentFolder p)
  | None => Throw (TypeError "path.replace is not a function")
  end.

(** [getBaseName(path)]: [match] gives [null] when nothing matches, and
    reading [[1]] of [null] raises. *)
Definition getBaseName (path : string) : completion string :=
  match exec slash_then_name (replace trailing_slash "" (replace_backslashes path)) with
  | Some name => Return name
  | None => Throw (TypeError "Cannot read property '1' of null")
  end.

(** ** The file system, as the module sees it through [fs] *)

Class FileSystem (Disk : Type) : Type := {
  (** [fs.readdirSync(path)] *)
  readdirSync : Disk -> string -> completion (list string);
  (** [fs.statSync(path).isDirectory()] *)
  statSync_isDirectory : Disk -> string -> completion bool;
  (** [fs.existsSync(path)] for a string *)
  existsSync : Disk -> string -> bool;
  (** [fs.unlinkSync(path)], [fs.rmdirSync(path)], [fs.mkdirSync(path, 0o777)]:
      the file system after the call, or the error raised. *)
  unlinkSync : Disk -> string -> completion Disk;
  rmdirSync : Disk -> string -> completion Disk;
  mkdirSync : Disk -> string -> completion Disk
}.

(** [fs.existsSync(path)] where [path] may be [false]: the answer is
    [false] for anything that is not a path. *)
Definition existsSync_of `{FileSystem Disk} (fs : Disk) (path : option string) : bool :=
  match path with
  | Some p => existsSync fs p
  | None => false
  end.

(** ** The data the walker builds *)

(** A value of the tree: [false] for a file, an object for a folder. The
    map of an object holds its own properties and, under the name
    [__proto__], the prototype that was given to it, when one was: an
    object made by [{}] has no own property of that name. *)
#[local] Unset Elimination Schemes.
Inductive node : Type :=
| JFalse
| JObject (props : gmap string node).
#[local] Set Elimination Schemes.

(** [object[name] = value] for an object made by [{}]. The name
    [__proto__] is an accessor of [Object.prototype]: assigning an object
    to it sets the prototype, and assigning [false] to it does nothing. Any
    other name becomes, or stays, an own property. *)
Definition assign (name : string) (value : node) (object : gmap string node)
    : gmap string node :=
  match value with
  | JObject _ => <[name := value]> object
  | JFalse => if String.eqb name "__proto__" then object else <[name := value]> object
  end.
Arguments assign : simpl never.

Inductive kind : Type := file | folder.

Module Entry.
(** [{depth, type, name, path}] *)
Record t : Type := make { depth : nat; type : kind; name : string; path : string }.
End Entry.

(** The array [[tree, list, files]]. *)
Definition triple : Type := gmap string node * list Entry.t * list string.

Definition console : Type := list message.

(** How the [for ... of] loop inside the [try] ended. *)
Inductive signal : Type :=
| Done
| Raised (e : exn).

Section ManageFolder.

Context {Disk : Type} `{FileSystem Disk}.

(** [filePath = dirPath + (depth > 0 ? '/' : '') + fileName] *)
Definition filePath_of (dirPath : string) (depth : nat) (fileName : string) : string :=
  (dirPath +:+ (if 0 <? depth then "/" else "")) +:+ fileName.

Section Loop.

(** [this._listSubFolder(filePath, depth + 1)], with fresh accumulators. *)
Variable recurse : string -> nat -> console -> option (completion triple * console).
Variable fs : Disk.
Variable dirPath : string.
Variable depth : nat.

(** The body of the [for ... of] loop, over the names still to visit.
    The accumulators are objects updated in place, so what was written
    before an error is still there after it. [None]: the recursion did
    not come back. *)
Fixpoint for_of (names : list string)
    (tree : gmap string node) (list_ : list Entry.t) (files : list string)
    (out : console) : option (triple * console * signal) :=
  match names with
  | [] => Some ((tree, list_, files), out, Done)
  | fileName :: rest =>
      let filePath := filePath_of dirPath depth fileName in
      if starts_with_dot fileName then for_of rest tree list_ files out
      else
        match statSync_isDirectory fs filePath with
        | Throw e => Some ((tree, list_, files), out, Raised e)
        | Return true =>
            match recurse filePath (depth + 1) out with
            | None => None
            | Some (Throw e, out1) => Some ((tree, list_, files), out1, Raised e)
            | Some (Return (tempTree, tempList, tempFiles), out1) =>
                for_of rest
                  (assign fileName (JObject tempTree) tree)
                  (list_ ++ Entry.make depth folder fileName dirPath :: tempList)
                  (files ++ tempFiles)
                  out1
            end
        | Return false =>
            if 0 <? depth then
              for_of rest
                (assign fileName JFalse tree)
                (list_ ++ [Entry.make depth file fileName dirPath])
                (files ++ [filePath])
                out
            else for_of rest tree list_ files out
        end
  end.

End Loop.

(** [_listSubFolder(dirPath, depth, tree, list, files)]; the defaults of the
    last four arguments are [0], [{}], [[]] and [[]]. [fuel] bounds the
    nesting of the calls. *)
Fixpoint _listSubFolder (fuel : nat) (fs : Disk) (dirPath : string) (depth : nat)
    (tree : gmap string node) (list_ : list Entry.t) (files : list string)
    (out : console) : option (completion triple * console) :=
  match fuel with
  | 0 => None
  | S fuel' =>
      let attempt :=
        match readdirSync fs dirPath with
        | Throw e => Some ((tree, list_, files), out, Raised e)
        | Return names =>
            for_of (fun p d o => _listSubFolder fuel' fs p d ∅ [] [] o)
              fs dirPath depth names tree list_ files out
        end in
      match attempt with
      | None => None
      | Some (acc, out1, Done) => Some (Return acc, out1)
      | Some (acc, out1, Raised err) => Some (Return acc, out1 ++ [ConsoleError err])
      end
  end.

(** The call [this._listSubFolder(filePath, depth + 1)] of the loop. *)
Definition descend (fuel : nat) (fs : Disk) : string -> nat -> console -> option (completion triple * console) :=
  fun p d o => _listSubFolder fuel fs p d ∅ [] [] o.

(** The [try] block of [_listSubFolder]. *)
Definition attempt (fuel : nat) (fs : Disk) (dirPath : string) (depth : nat)
    (tree : gmap string node) (list_ : list Entry.t) (files : list string)
    (out : console) : option (triple * console * signal) :=
  match readdirSync fs dirPath with
  | Throw e => Some ((tree, list_, files), out, Raised e)
  | Return names => for_of (descend fuel fs) fs dirPath depth names tree list_ files out
  end.

(** The loop of [readLibraryTree] that looks for the home page; it stops
    at the first name it accepts. *)
Fixpoint seed_home (names : list string) (tree : gmap string node) : gmap string node :=
  match names with
  | [] => tree
  | fileName :: rest =>
      if home_pattern fileName || String.eqb fileName "首页.md"
      then assign fileName JFalse tree
      else seed_home rest tree
  end.

(** What [readLibraryTree] gives back: the empty array, or the array of
    the walker. *)
Inductive library_tree : Type :=
| EmptyArray
| Scanned (result : triple).

(** [readLibraryTree(path)] *)
Definition readLibraryTree (fuel : nat) (fs : Disk) (path : string) (out : console)
    : option (completion library_tree * console) :=
  if negb (test library_separator_end path) then
    Some (Return EmptyArray, out ++ [ConsoleWarn "The path is not a library."])
  else
    match readdirSync fs path with
    | Throw e => Some (Throw e, out)
    | Return names =>
        let tree := seed_home names ∅ in
        match _listSubFolder fuel fs path 0 tree [] [] out with
        | None => None
        | Some (Return r, out1) => Some (Return (Scanned r), out1)
        | Some (Throw e, out1) => Some (Throw e, out1)
        end
    end.

Section CleanLoop.

(** [this.cleanFolder(path2)] *)
Variable recurse : Disk -> string -> option (Disk * completion unit).
Variable path : string.

(** The loop of [cleanFolder] over the names read at its start. *)
Fixpoint clean_items (items : list string) (fs : Disk) : option (Disk * completion unit) :=
  match items with
  | [] => Some (fs, Return tt)
  | item :: rest =>
      let path2 := replace separator_ampersand "/" path +:+ item in
      match statSync_isDirectory fs path2 with
      | Throw e => Some (fs, Throw e)
      | Return true =>
          if negb (starts_with_dot item) then
            match recurse fs path2 with
            | None => None
            | Some (fs1, Throw e) => Some (fs1, Throw e)
            | Some (fs1, Return _) =>
                match rmdirSync fs1 path2 with
                | Throw e => Some (fs1, Throw e)
                | Return fs2 => clean_items rest fs2
                end
            end
          else clean_items rest fs
      | Return false =>
          match unlinkSync fs path2 with
          | Throw e => Some (fs, Throw e)
          | Return fs1 => clean_items rest fs1
          end
      end
  end.

End CleanLoop.

(** [cleanFolder(path)] *)
Fixpoint cleanFolder (fuel : nat) (fs : Disk) (path : string) : option (Disk * completion unit) :=
  match fuel with
  | 0 => None
  | S fuel' =>
      match readdirSync fs path with
      | Throw e => Some (fs, Throw e)
      | Return items => clean_items (cleanFolder fuel') path items fs
      end
  end.

(** [createFolder(path)]; [path] is [None] when the value [false] comes
    back from [getParentFolder]. *)
Fixpoint createFolder (fuel : nat) (fs : Disk) (path : option string) : option (Disk * completion unit) :=
  match fuel with
  | 0 => None
  | S fuel' =>
      match getParentFolder_of path with
      | Throw e => Some (fs, Throw e)
      | Return parentPath =>
          if negb (existsSync_of fs parentPath) then
            match createFolder fuel' fs parentPath with
            | None => None
            | Some (fs1, Throw e) => Some (fs1, Throw e)
            | Some (fs1, Return _) => createFolder fuel' fs1 path
            end
          else if negb (existsSync_of fs path) then
            match path with
            | Some p =>
                match mkdirSync fs p with
                | Throw e => Some (fs, Throw e)
                | Return fs1 => Some (fs1, Return tt)
                end
            | None => Some (fs, Throw (TypeError "path must be a string"))
            end
          else Some (fs, Return tt)
      end
  end.

(** [!path]: [false] and the empty string. *)
Definition falsy (path : option string) : bool :=
  match path with
  | Some p => String.eqb p ""
  | None => true
  end.

(** [getLibraryFolder(path)], with a bound on the number of steps up;
    [None] is the value [false]. *)
Fixpoint getLibraryFolder_up (steps : nat) (fs : Disk) (path : option string) : option string :=
  match path with
  | None => None
  | Some p =>
      if String.eqb p "" then None
      else
        match steps with
        | 0 => None
        | S steps' =>
            if index_negative "library" p then
              if existsSync fs (p +:+ "/library/")
              then Some (replace trailing_slash "" p +:+ "/library/")
              else getLibraryFolder_up steps' fs (getParentFolder p)
            else
              if test library_end p
              then Some (replace optional_trailing_slash "/" p)
              else getLibraryFolder_up steps' fs (getParentFolder p)
        end
  end.

(** Each step up shortens the path, so its length bounds the steps. *)
Definition getLibraryFolder (fs : Disk) (path : option string) : option string :=
  getLibraryFolder_up (match path with Some p => S (String.length p) | None => 0 end) fs path.

(** [getProjectFolder(path)]; [None] is the value [false]. *)
Definition getProjectFolder (fs : Disk) (path : option string) : option string :=
  let path := getLibraryFolder fs path in
  if negb (falsy path) then
    match path with
    | Some p => Some (replace library_any_separator_end "" p)
    | None => None
    end
  else None.

(** [isAmWiki(path)]; [path] is [None] for a value that is not a string
    and counts as false, and the result [None] is the value [false]. *)
Definition isAmWiki (fs : Disk) (path : option string) : option string :=
  match path with
  | None => None
  | Some path =>
      let path := replace_backslashes path in
      let path :=
        if index_negative "config.json" path then path
        else before_first "config.json" path in
      let path :=
        if index_negative "index.html" path then path
        else before_first "index.html" path in
      let path := getProjectFolder fs (Some path) in
      if falsy path then None
      else
        match path with
        | Some path =>
            let states :=
              [ existsSync fs (path +:+ "library/");
                existsSync fs (path +:+ "amWiki/");
                existsSync fs (path +:+ "config.json");
                existsSync fs (path +:+ "index.html") ] in
            if forallb (fun state => state) states then Some path else None
        | None => None
        end
  end.

(** For a string [libPath], the comparison [libPath < 8] converts it to a
    number; the conversion is left open. *)
Variable string_below_8 : string -> bool.

(** [getLevel1Id(path, libPath)]; [libPath] is [None] when the argument is
    left out. The [let libPath] inside the block is a variable of the
    block: the last line reads the parameter. The library folder that is
    looked up ends with [library/], so it has 8 bytes or more exactly when
    it has 8 UTF-16 units or more. [path.substr(libPath.length)] is taken
    in bytes: that is the rest the code takes when the two strings are
    ASCII, and when [path] starts with [libPath]. *)
Definition getLevel1Id (fs : Disk) (path : string) (libPath : option string) : completion string :=
  if index_negative "library" path then Return ""
  else
    let last_line :=
      match libPath with
      | Some l => Return (first_field (substr (String.length l) path))
      | None => Throw (TypeError "Cannot read property 'length' of undefined")
      end in
    if match libPath with None => true | Some l => string_below_8 l end then
      let libPath' := getLibraryFolder fs (Some path) in
      if falsy libPath' || (match libPath' with Some l => String.length l <? 8 | None => false end)
      then Return ""
      else last_line
    else last_line.

End ManageFolder.

(** ** A file system to run the code on

    A snapshot of a disk on a medium that cannot be written: a table from
    the paths the code asks about to what is there. A name that a folder
    lists but that the table lacks is an entry whose [stat] fails (a link
    that points nowhere). *)

Module Snapshot.

Inductive inode : Type :=
| Folder (names : list string)
| Sealed          (* a folder that may not be listed *)
| Plain.          (* a file *)

Definition t : Type := gmap string inode.

Definition readdir (d : t) (p : string) : completion (list string) :=
  match d !! p with
  | Some (Folder names) => Return names
  | Some Sealed => Throw (FsError "EACCES")
  | Some Plain => Throw (FsError "ENOTDIR")
  | None => Throw (FsError "ENOENT")
  end.

Definition is_directory (d : t) (p : string) : completion bool :=
  match d !! p with
  | Some (Folder _) | Some Sealed => Return true
  | Some Plain => Return false
  | None => Throw (FsError "ENOENT")
  end.

Definition exists_ (d : t) (p : string) : bool :=
  match d !! p with Some _ => true | None => false end.

Definition refuse (d : t) (p : string) : completion t := Throw (FsError "EROFS").

#[global] Instance file_system : FileSystem t := {|
  readdirSync := readdir;
  statSync_isDirectory := is_directory;
  existsSync := exists_;
  unlinkSync := refuse;
  rmdirSync := refuse;
  mkdirSync := refuse
|}.

(** A small library: one file and one folder at the top, a file and a
    hidden folder inside the folder. *)
Definition wiki : t :=
  list_to_map [
    ("/w/library/", Folder ["home-wiki.md"; ".git"; "01-intro"]);
    ("/w/library/home-wiki.md", Plain);
    ("/w/library/.git", Folder ["config"]);
    ("/w/library/.git/config", Plain);
    ("/w/library/01-intro", Folder ["001-start.md"; ".draft"; "img"]);
    ("/w/library/01-intro/001-start.md", Plain);
    ("/w/library/01-intro/.draft", Folder []);
    ("/w/library/01-intro/img", Folder ["logo.png"]);
    ("/w/library/01-intro/img/logo.png", Plain)
  ].

(** The same library where [.git] is a file. *)
Definition wiki_git_file : t :=
  <["/w/library/.git" := Plain]> (delete "/w/library/.git/config" wiki).

(** A folder with hidden entries only. *)
Definition hidden_only : t :=
  list_to_map [
    ("/h/", Folder [".git"; ".DS_Store"]);
    ("/h/.git", Folder ["config"]);
    ("/h/.git/config", Plain);
    ("/h/.DS_Store", Plain)
  ].

(** A folder that lists a name whose [stat] fails, after a file. *)
Definition dangling : t :=
  list_to_map [
    ("/d", Folder ["a.md"; "ghost"; "b.md"]);
    ("/d/a.md", Plain);
    ("/d/b.md", Plain);
    ("/d/sub", Sealed);
    ("/d/", Folder ["ghost"]);
    ("/mylibrary/", Folder [])
  ].

(** A library with entries named [__proto__]: a folder of that name at
    the top, and a file of that name inside the folder [01-a]. *)
Definition quirk : t :=
  list_to_map [
    ("/q/library/", Folder ["home-q.md"; "__proto__"; "01-a"]);
    ("/q/library/home-q.md", Plain);
    ("/q/library/__proto__", Folder ["y.md"]);
    ("/q/library/__proto__/y.md", Plain);
    ("/q/library/01-a", Folder ["__proto__"; "x.md"]);
    ("/q/library/01-a/__proto__", Plain);
    ("/q/library/01-a/x.md", Plain)
  ].

(** An empty folder inside ["/e/"]; inside ["/n/"] a folder that lists a
    name. *)
Definition shelves : t :=
  list_to_map [
    ("/e/", Folder ["sub"]);
    ("/e/sub", Folder []);
    ("/n/", Folder ["sub"]);
    ("/n/sub", Folder ["x"])
  ].

(** A project: the library and the three things beside it. *)
Definition project : t :=
  list_to_map [
    ("/p/library/", Folder ["01-a"]);
    ("/p/library/01-a", Folder ["x.md"]);
    ("/p/library/01-a/x.md", Plain);
    ("/p/amWiki/", Folder []);
    ("/p/config.json", Plain);
    ("/p/index.html", Plain)
  ].

End Snapshot.


(** ** A disk that can be written

    Folders only: the disk is the list of the folders that exist, each one
    as the list of the names from the root down to it. A path stands for
    the names between its separators. *)

Module Memory.

Definition t : Type := list (list string).

Fixpoint names_from (current : string) (s : string) : list string :=
  match s with
  | EmptyString => if String.eqb current "" then [] else [current]
  | String c r =>
      if is_char c "/" then
        (if String.eqb current "" then [] else [current]) ++ names_from "" r
      else names_from (current +:+ String c "") r
  end.

Definition key (p : string) : list string := names_from "" p.

Definition has (d : t) (k : list string) : bool := bool_decide (k ∈ d).

Definition children (d : t) (k : list string) : list string :=
  omap (fun k' => match reverse k' with
                  | name :: up => if bool_decide (reverse up = k) then Some name else None
                  | [] => None
                  end) d.

Definition readdir (d : t) (p : string) : completion (list string) :=
  if has d (key p) then Return (children d (key p)) else Throw (FsError "ENOENT").

Definition is_directory (d : t) (p : string) : completion bool :=
  if has d (key p) then Return true else Throw (FsError "ENOENT").

Definition exists_ (d : t) (p : string) : bool := has d (key p).

Definition unlink (d : t) (p : string) : completion t :=
  if has d (key p) then Throw (FsError "EISDIR") else Throw (FsError "ENOENT").

Definition rmdir (d : t) (p : string) : completion t :=
  if has d (key p) then
    match children d (key p) with
    | [] => Return (List.filter (fun k => negb (bool_decide (k = key p))) d)
    | _ :: _ => Throw (FsError "ENOTEMPTY")
    end
  else Throw (FsError "ENOENT").

Definition mkdir (d : t) (p : string) : completion t :=
  if has d (key p) then Throw (FsError "EEXIST")
  else if has d (removelast (key p)) then Return (d ++ [key p])
  else Throw (FsError "ENOENT").

#[global] Instance file_system : FileSystem t := {|
  readdirSync := readdir;
  statSync_isDirectory := is_directory;
  existsSync := exists_;
  unlinkSync := unlink;
  rmdirSync := rmdir;
  mkdirSync := mkdir
|}.

(** Nothing but the root. *)
Definition bare : t := [[]].

End Memory.

(** ** A table that can be written

    The table of a snapshot, where [unlink] and [rmdir] take the path out
    and [mkdir] puts an empty folder in. *)

Module Table.

Record t : Type := Disk { table : gmap string Snapshot.inode }.

Definition unlink (d : t) (p : string) : completion t :=
  match table d !! p with
  | Some Snapshot.Plain => Return (Disk (delete p (table d)))
  | Some _ => Throw (FsError "EISDIR")
  | None => Throw (FsError "ENOENT")
  end.

Definition rmdir (d : t) (p : string) : completion t :=
  match table d !! p with
  | Some Snapshot.Plain => Throw (FsError "ENOTDIR")
  | Some _ => Return (Disk (delete p (table d)))
  | None => Throw (FsError "ENOENT")
  end.

Definition mkdir (d : t) (p : string) : completion t :=
  match table d !! p with
  | Some _ => Throw (FsError "EEXIST")
  | None => Return (Disk (<[p := Snapshot.Folder []]> (table d)))
  end.

#[global] Instance file_system : FileSystem t := {|
  readdirSync d := Snapshot.readdir (table d);
  statSync_isDirectory d := Snapshot.is_directory (table d);
  existsSync d := Snapshot.exists_ (table d);
  unlinkSync := unlink;
  rmdirSync := rmdir;
  mkdirSync := mkdir
|}.

(** A folder with an ['&'] in its name, and a file in another folder. *)
Definition ampersand : t :=
  Disk (list_to_map [
    ("/tmp/a&b/", Snapshot.Folder ["f"]);
    ("/tmp/a/b/f", Snapshot.Plain)
  ]).

(** A folder with a hidden folder, a hidden file and a file. *)
Definition repository : t :=
  Disk (list_to_map [
    ("/r/", Snapshot.Folder [".git"; ".gitignore"; "a.md"]);
    ("/r/.git", Snapshot.Folder ["config"]);
    ("/r/.git/config", Snapshot.Plain);
    ("/r/.gitignore", Snapshot.Plain);
    ("/r/a.md", Snapshot.Plain)
  ]).

End Table.

(** ** A disk that keeps the paths made

    The folders of this disk are the paths that were made, as they were
    written; [mkdir] asks for nothing but a path that is not there yet. *)

Module Flat.

Definition t : Type := list string.

Definition has (d : t) (p : string) : bool := bool_decide (p ∈ d).

Definition readdir (d : t) (p : string) : completion (list string) :=
  if has d p then Return [] else Throw (FsError "ENOENT").

Definition is_directory (d : t) (p : string) : completion bool :=
  if has d p then Return true else Throw (FsError "ENOENT").

Definition unlink (d : t) (p : string) : completion t :=
  if has d p then Throw (FsError "EISDIR") else Throw (FsError "ENOENT").

Definition rmdir (d : t) (p : string) : completion t :=
  if has d p then Return (List.filter (fun q => negb (bool_decide (q = p))) d)
  else Throw (FsError "ENOENT").

Definition mkdir (d : t) (p : string) : completion t :=
  if has d p then Throw (FsError "EEXIST") else Return (p :: d).

#[global] Instance file_system : FileSystem t := {|
  readdirSync := readdir;
  statSync_isDirectory := is_directory;
  existsSync := has;
  unlinkSync := unlink;
  rmdirSync := rmdir;
  mkdirSync := mkdir
|}.

End Flat.

(** ** What the specification calls things *)

Module Spec.

(** The path ends with a separator. *)
Fixpoint ends_with_separator (s : string) : bool :=
  match s with
  | EmptyString => false
  | String c EmptyString => is_separator c
  | String _ r => ends_with_separator r
  end.

(** The path ends with ['/']. *)
Fixpoint ends_with_slash (s : string) : bool :=
  match s with
  | EmptyString => false
  | String c EmptyString => is_char c "/"
  | String _ r => ends_with_slash r
  end.

(** The segments of a path: what stands between its separators. *)
Fixpoint segments_from (current : string) (s : string) : list string :=
  match s with
  | EmptyString => [current]
  | String c r =>
      if is_separator c then current :: segments_from "" r
      else segments_from (current +:+ String c "") r
  end.

Definition segments (s : string) : list string := segments_from "" s.

(** "The path ends in a segment literally named [library] followed by a
    trailing separator": its last two segments are [library] and the
    empty one after the separator. *)
Definition ends_in_library_segment (s : string) : bool :=
  match rev (segments s) with
  | last :: before :: _ => String.eqb last "" && String.eqb before "library"
  | _ => false
  end.

(** A path that names the entry [name] of the folder [dir]: the two
    joined by a separator, the one [dir] ends with or one put between. *)
Definition names_child (dir name p : string) : Prop :=
  (ends_with_separator dir = true /\ p = dir +:+ name) \/
  (exists c, is_separator c = true /\ p = dir +:+ String c name).

(** [steps] times [getParentFolder], as long as it gives a path. *)
Fixpoint ascend (steps : nat) (path : option string) : option string :=
  match steps, path with
  | S n, Some p => ascend n (getParentFolder p)
  | _, _ => path
  end.

(** The path [below] written under a folder path, name after name, each
    one after a ['/']. *)
Definition under (folder : string) (names : list string) : string :=
  fold_left (fun p name => p +:+ String "/" name) names folder.

End Spec.

Section Nesting.

Context {Disk : Type} `{FileSystem Disk}.

(** [nested_within fs n dirPath depth]: below [dirPath], scanned at
    [depth], folders that the walker enters nest fewer than [n] deep. *)
Inductive nested_within (fs : Disk) : nat -> string -> nat -> Prop :=
| nested_unreadable n dirPath depth e :
    readdirSync fs dirPath = Throw e ->
    nested_within fs (S n) dirPath depth
| nested_listing n dirPath depth names :
    readdirSync fs dirPath = Return names ->
    (forall fileName,
        In fileName names ->
        starts_with_dot fileName = false ->
        statSync_isDirectory fs (filePath_of dirPath depth fileName) = Return true ->
        nested_within fs n (filePath_of dirPath depth fileName) (depth + 1)) ->
    nested_within fs (S n) dirPath depth.

(** [stat] answers for every name of [names] that does not start with a
    dot: no error of [stat] cuts the loop over [names] short. *)
Definition stats_ok (fs : Disk) (dirPath : string) (depth : nat) (names : list string) : Prop :=
  forall fileName,
    In fileName names -> starts_with_dot fileName = false ->
    exists isDir, statSync_isDirectory fs (filePath_of dirPath depth fileName) = Return isDir.

(** [missing fs n path]: the parent of [path] exists when [n] is 0;
    otherwise it does not, and [n - 1] more folders are missing above it. *)
Inductive missing (fs : Disk) : nat -> string -> Prop :=
| missing_none path :
    existsSync_of fs (getParentFolder path) = true ->
    missing fs 0 path
| missing_parent n path parent :
    getParentFolder path = Some parent ->
    existsSync fs parent = false ->
    missing fs n parent ->
    missing fs (S n) path.


(** An entry record at depth [k] or below, and a folder if at depth 0. *)
Definition below (k : nat) (r : Entry.t) : Prop :=
  k <= Entry.depth r /\ (Entry.depth r = 0 -> Entry.type r = folder).

(** The path [p] starts with the path the walker builds for a name of
    [names] that does not start with a dot; in a scan at depth 0 that name
    is a folder and [p] goes on below it. *)
Definition comes_from (fs : Disk) (dirPath : string) (depth : nat)
    (names : list string) (p : string) : Prop :=
  exists fileName rest,
    In fileName names /\ starts_with_dot fileName = false /\
    p = filePath_of dirPath depth fileName +:+ rest /\
    (depth = 0 ->
     statSync_isDirectory fs (filePath_of dirPath 0 fileName) = Return true /\
     exists rest', rest = String "/" rest').

Definition found_below (fs : Disk) (dirPath : string) (depth : nat) (p : string) : Prop :=
  exists names, readdirSync fs dirPath = Return names /\ comes_from fs dirPath depth names p.

(** What a run of the walker, or of its loop, gave. *)
Definition tree_of (r : option (completion triple * console)) : gmap string node :=
  match r with Some (Return (t, _, _), _) => t | _ => ∅ end.

Definition list_of (r : option (completion triple * console)) : list Entry.t :=
  match r with Some (Return (_, l, _), _) => l | _ => [] end.

Definition files_of (r : option (completion triple * console)) : list string :=
  match r with Some (Return (_, _, f), _) => f | _ => [] end.

Definition console_of (r : option (completion triple * console)) : console :=
  match r with Some (_, o) => o | None => [] end.

Definition loop_tree (r : option (triple * console * signal)) : gmap string node :=
  match r with Some ((t, _, _), _, _) => t | None => ∅ end.

Definition loop_list (r : option (triple * console * signal)) : list Entry.t :=
  match r with Some ((_, l, _), _, _) => l | None => [] end.

Definition loop_files (r : option (triple * console * signal)) : list string :=
  match r with Some ((_, _, f), _, _) => f | None => [] end.

Definition loop_console (r : option (triple * console * signal)) : console :=
  match r with Some (_, o, _) => o | None => [] end.

(** What a run that started from empty accumulators gave, put onto given
    accumulators: the keys it wrote over the given tree, the entries and
    the paths after the given ones. *)
Definition given_to (tree : gmap string node) (list_ : list Entry.t) (files : list string)
    (r : option (completion triple * console)) : option (completion triple * console) :=
  match r with
  | Some (Return (t, l, f), out) => Some (Return (t ∪ tree, list_ ++ l, files ++ f), out)
  | Some (Throw e, out) => Some (Throw e, out)
  | None => None
  end.

Definition loop_given_to (tree : gmap string node) (list_ : list Entry.t) (files : list string)
    (r : option (triple * console * signal)) : option (triple * console * signal) :=
  match r with
  | Some ((t, l, f), out, sig) => Some ((t ∪ tree, list_ ++ l, files ++ f), out, sig)
  | None => None
  end.

(** The path of the file an entry record stands for. *)
Definition entry_file_path (r : Entry.t) : string :=
  Entry.path r +:+ String "/" (Entry.name r).

Definition is_file_entry (r : Entry.t) : bool :=
  match Entry.type r with file => true | folder => false end.

Definition file_paths (l : list Entry.t) : list string :=
  map entry_file_path (List.filter is_file_entry l).

(** An entry record as a scan of [dirPath] at depth [k] appends them. *)
Definition recorded (dirPath : string) (k : nat) (r : Entry.t) : Prop :=
  k <= Entry.depth r
  /\ starts_with_dot (Entry.name r) = false
  /\ (exists rest, Entry.path r = dirPath +:+ rest)
  /\ (Entry.depth r = k -> Entry.path r = dirPath)
  /\ (Entry.type r = file -> 1 <= Entry.depth r).

(** What the tree [tree] of a scan that started from the tree [given]
    holds for the entry record [r]: an object under the name of a folder
    record (for the name [__proto__], as the prototype), [false] under the
    name of a file record, and for a file record named [__proto__] what
    [given] had there. *)
Definition in_tree (given tree : gmap string node) (r : Entry.t) : Prop :=
  match Entry.type r with
  | file =>
      if String.eqb (Entry.name r) "__proto__"
      then tree !! Entry.name r = given !! Entry.name r
      else tree !! Entry.name r = Some JFalse
  | folder => exists sub, tree !! Entry.name r = Some (JObject sub)
  end.

(** The console after a run that started on an empty console, when
    [before] had been printed earlier. *)
Definition logged (before : console) (r : option (completion triple * console))
    : option (completion triple * console) :=
  match r with
  | Some (c, out) => Some (c, before ++ out)
  | None => None
  end.

Definition loop_logged (before : console) (r : option (triple * console * signal))
    : option (triple * console * signal) :=
  match r with
  | Some (acc, out, sig) => Some (acc, before ++ out, sig)
  | None => None
  end.

(** The names [readLibraryTree] takes for the home page. *)
Definition is_home_name (fileName : string) : bool :=
  home_pattern fileName || String.eqb fileName "首页.md".

(** [readLibraryTree] hands the array of the walker on as it is. *)
Definition handed_on (r : option (completion triple * console))
    : option (completion library_tree * console) :=
  match r with
  | None => None
  | Some (Return t, out) => Some (Return (Scanned t), out)
  | Some (Throw e, out) => Some (Throw e, out)
  end.

End Nesting.

(** * Properties *)

(** ** Strings *)

Section StringFacts.

Lemma append_cons c s t : String c s +:+ t = String c (s +:+ t).
Proof. reflexivity. Qed.

Lemma append_empty_l s : "" +:+ s = s.
Proof. reflexivity. Qed.

Lemma append_empty_r s : s +:+ "" = s.
Proof. induction s as [|c s IH]; [reflexivity|]. rewrite append_cons, IH. reflexivity. Qed.

Lemma append_assoc s t u : (s +:+ t) +:+ u = s +:+ (t +:+ u).
Proof.
  induction s as [|c s IH]; [reflexivity|].
  rewrite !append_cons, IH. reflexivity.
Qed.

Lemma length_append s t : String.length (s +:+ t) = String.length s + String.length t.
Proof.
  induction s as [|c s IH]; [reflexivity|].
  rewrite append_cons. simpl. rewrite IH. reflexivity.
Qed.

Lemma append_inj_l s a b : s +:+ a = s +:+ b -> a = b.
Proof.
  induction s as [|c s IH]; [auto|].
  rewrite !append_cons. intros Hs. injection Hs as Hs. exact (IH Hs).
Qed.

Lemma is_char_true c d : is_char c d = true <-> c = d.
Proof. unfold is_char. apply Ascii.eqb_eq. Qed.

Lemma is_char_false c d : is_char c d = false <-> c <> d.
Proof. unfold is_char. apply Ascii.eqb_neq. Qed.

Lemma length_replace_backslashes s :
  String.length (replace_backslashes s) = String.length s.
Proof. induction s as [|c s IH]; simpl; congruence. Qed.

Lemma replace_backslashes_append s t :
  replace_backslashes (s +:+ t) = replace_backslashes s +:+ replace_backslashes t.
Proof.
  induction s as [|c s IH]; [reflexivity|].
  rewrite append_cons. simpl. rewrite IH. reflexivity.
Qed.

Lemma count_slashes_append s t :
  count_slashes (s +:+ t) = count_slashes s + count_slashes t.
Proof.
  induction s as [|c s IH]; [reflexivity|].
  rewrite append_cons. simpl. rewrite IH. lia.
Qed.

Lemma lacks_count s : lacks "/" s = true <-> count_slashes s = 0.
Proof.
  induction s as [|c s IH]; simpl; [tauto|].
  destruct (is_char c "/"); simpl; [split; [discriminate|lia]|exact IH].
Qed.

Lemma lacks_count_false s : lacks "/" s = false <-> 1 <= count_slashes s.
Proof.
  pose proof (lacks_count s) as [Hs1 Hs2].
  destruct (lacks "/" s).
  - specialize (Hs1 eq_refl). split; [discriminate|lia].
  - split; [|reflexivity]. intros _.
    destruct (count_slashes s); [discriminate (Hs2 eq_refl)|lia].
Qed.

(** [indexOf('/') < 0] says that there is no ['/']. *)
Lemma index_negative_slash s : index_negative "/" s = lacks "/" s.
Proof.
  unfold index_negative.
  induction s as [|c s IH]; [reflexivity|].
  simpl. destruct (is_char c "/"); simpl; [reflexivity|exact IH].
Qed.

(** [replace('/', '')] takes the first ['/'] out. *)
Lemma count_slashes_remove_first s :
  count_slashes (replace (literal "/") "" s) = pred (count_slashes s).
Proof.
  induction s as [|c s IH]; [reflexivity|].
  simpl. destruct (is_char c "/") eqn:Hc; simpl.
  - reflexivity.
  - rewrite Hc. simpl. exact IH.
Qed.

Lemma drive_short_no_slash s :
  drive_prefix s && (String.length s <? 3) = true -> count_slashes s = 0.
Proof.
  destruct s as [|c [|d [|e r]]]; simpl; try discriminate.
  - rewrite andb_true_r. intros Hd. apply andb_true_iff in Hd as [Hc Hd].
    apply is_char_true in Hd. subst d.
    destruct (is_char c "/") eqn:Hs; [|reflexivity].
    apply is_char_true in Hs. subst c. discriminate Hc.
  - rewrite andb_false_r. discriminate.
Qed.

(** [/\/$/]: a final ['/'] goes, anything else stays. *)
Lemma strip_trailing_slash s : replace trailing_slash "" (s +:+ "/") = s.
Proof.
  induction s as [|c s IH]; [reflexivity|].
  rewrite append_cons. simpl replace.
  destruct (s +:+ "/") eqn:Hs.
  - destruct s; discriminate.
  - rewrite IH. reflexivity.
Qed.

Lemma strip_no_trailing_slash s :
  Spec.ends_with_slash s = false -> replace trailing_slash "" s = s.
Proof.
  induction s as [|c s IH]; [reflexivity|].
  intros Hs. simpl in *. destruct s as [|d r].
  - rewrite Hs. reflexivity.
  - rewrite IH by exact Hs. reflexivity.
Qed.

Lemma ends_with_slash_append s c t :
  Spec.ends_with_slash (s +:+ String c t) = Spec.ends_with_slash (String c t).
Proof.
  induction s as [|d s IH]; [reflexivity|].
  rewrite append_cons. simpl Spec.ends_with_slash at 1.
  destruct (s +:+ String c t) eqn:Hs; [destruct s; discriminate|].
  exact IH.
Qed.

Lemma ends_with_slash_lacks s : s <> "" -> lacks "/" s = true -> Spec.ends_with_slash s = false.
Proof.
  induction s as [|c s IH]; [congruence|].
  intros _ Hl. simpl in Hl. apply andb_true_iff in Hl as [Hc Hl].
  apply negb_true_iff in Hc. simpl.
  destruct s as [|d r]; [exact Hc|].
  apply IH; [discriminate|exact Hl].
Qed.

(** [/\/[^\/]+$/]: the last segment goes when it is not empty. *)
Lemma strip_last_segment pre seg :
  seg <> "" -> lacks "/" seg = true ->
  replace last_segment "/" (pre +:+ String "/" seg) = pre +:+ "/".
Proof.
  intros Hne Hl.
  induction pre as [|c pre IH].
  - rewrite !append_empty_l. destruct seg as [|d r]; [congruence|].
    simpl replace. simpl in Hl. rewrite Hl. reflexivity.
  - rewrite !append_cons. simpl replace.
    destruct (pre +:+ String "/" seg) as [|d r] eqn:Hp.
    + destruct pre; discriminate.
    + assert (lacks "/" (String d r) = false) as Hr.
      { apply lacks_count_false. rewrite <- Hp, count_slashes_append. simpl. lia. }
      simpl in Hr. rewrite Hr, andb_false_r, IH. reflexivity.
Qed.

Lemma count_slashes_strip s :
  count_slashes s <= S (count_slashes (replace trailing_slash "" s)).
Proof.
  induction s as [|c s IH]; [simpl; lia|].
  simpl replace. destruct s as [|d r].
  - destruct (is_char c "/") eqn:Hc; simpl; rewrite ?Hc; lia.
  - change (count_slashes (String c (String d r)))
      with ((if is_char c "/" then 1 else 0) + count_slashes (String d r)).
    change (count_slashes (String c (replace trailing_slash "" (String d r))))
      with ((if is_char c "/" then 1 else 0) + count_slashes (replace trailing_slash "" (String d r))).
    lia.
Qed.

Lemma replace_step m by_ s :
  replace m by_ s =
  match m s with
  | Some rest => by_ +:+ rest
  | None =>
      match s with
      | EmptyString => EmptyString
      | String c r => String c (replace m by_ r)
      end
  end.
Proof. destruct s; reflexivity. Qed.

Lemma last_segment_cons c d r :
  last_segment (String c (String d r)) =
  if is_char c "/" && lacks "/" (String d r) then Some "" else None.
Proof. reflexivity. Qed.

Lemma count_slashes_cons c s :
  count_slashes (String c s) = (if is_char c "/" then 1 else 0) + count_slashes s.
Proof. reflexivity. Qed.

Lemma ends_with_slash_cons c d r :
  Spec.ends_with_slash (String c (String d r)) = Spec.ends_with_slash (String d r).
Proof. reflexivity. Qed.

Lemma ends_with_slash_strip_last s :
  1 <= count_slashes s -> Spec.ends_with_slash (replace last_segment "/" s) = true.
Proof.
  induction s as [|c s IH]; [simpl; lia|].
  intros Hc. rewrite replace_step.
  destruct s as [|d r].
  - simpl in Hc. simpl. destruct (is_char c "/"); [reflexivity|lia].
  - rewrite last_segment_cons.
    destruct (is_char c "/" && lacks "/" (String d r)) eqn:Hm; [reflexivity|].
    assert (1 <= count_slashes (String d r)) as Hr.
    { apply andb_false_iff in Hm as [Hm|Hm].
      - rewrite count_slashes_cons, Hm in Hc. lia.
      - apply lacks_count_false. exact Hm. }
    specialize (IH Hr).
    destruct (replace last_segment "/" (String d r)) as [|x y]; [discriminate IH|].
    rewrite ends_with_slash_cons. exact IH.
Qed.

End StringFacts.

(** ** [getParentFolder] *)

Section ParentFolder.

Lemma replace_backslashes_id s : lacks "\" s = true -> replace_backslashes s = s.
Proof.
  induction s as [|c s IH]; [reflexivity|].
  simpl. intros Hl. apply andb_true_iff in Hl as [Hc Hl].
  apply negb_true_iff in Hc. rewrite Hc, IH by exact Hl. reflexivity.
Qed.

Lemma getParentFolder_false path :
  getParentFolder path = None <->
  (drive_prefix (replace_backslashes path)
     && (String.length (replace_backslashes path) <? 3) = true
   \/ count_slashes (replace_backslashes path) <= 1).
Proof.
  unfold getParentFolder.
  set (p := replace_backslashes path).
  destruct (drive_prefix p && (String.length p <? 3)) eqn:Hd.
  - split; [intros _; left; reflexivity | reflexivity].
  - rewrite index_negative_slash.
    destruct (lacks "/" (replace (literal "/") "" p)) eqn:Hl.
    + apply lacks_count in Hl. rewrite count_slashes_remove_first in Hl.
      split; [intros _; right; lia | reflexivity].
    + apply lacks_count_false in Hl. rewrite count_slashes_remove_first in Hl.
      split; [discriminate | intros [Hx|Hx]; [discriminate | lia]].
Qed.

Lemma getParentFolder_some path :
  2 <= count_slashes (replace_backslashes path) ->
  getParentFolder path =
  Some (replace last_segment "/" (replace trailing_slash "" (replace_backslashes path))).
Proof.
  intros Hc.
  destruct (getParentFolder path) as [q|] eqn:Hq.
  - unfold getParentFolder in Hq.
    destruct (drive_prefix _ && _); [discriminate|].
    destruct (index_negative _ _); [discriminate|]. symmetry. exact Hq.
  - apply getParentFolder_false in Hq as [Hq|Hq]; [|lia].
    apply drive_short_no_slash in Hq. lia.
Qed.

Lemma getParentFolder_some_inv path parent :
  getParentFolder path = Some parent ->
  2 <= count_slashes (replace_backslashes path).
Proof.
  intros Hq.
  destruct (le_lt_dec 2 (count_slashes (replace_backslashes path))) as [Hc|Hc]; [exact Hc|].
  assert (getParentFolder path = None) as Hn.
  { apply getParentFolder_false. right. lia. }
  congruence.
Qed.

End ParentFolder.

(** C7, as the code has it. [getParentFolder] gives [false] exactly when
    the path, with its backslashes turned into slashes, is a drive letter
    path of fewer than 3 characters or has at most one ['/']. Otherwise it
    takes one final ['/'] off, then replaces the last ['/'] and the segment
    after it by ['/'], and what it gives ends with ['/']: the parent of
    [pre/seg] and of [pre/seg/] is [pre/]. So [getParentFolder("/a/b/c/")] is
    ["/a/b/"]; [getParentFolder("/a/")], a path with two ['/'], is ["/"]; and
    [getParentFolder("/a")] is [false]. *)
Theorem getParentFolder_spec :
  (forall path,
      getParentFolder path = None <->
      (drive_prefix (replace_backslashes path)
         && (String.length (replace_backslashes path) <? 3) = true
       \/ count_slashes (replace_backslashes path) <= 1))
  /\ (forall path parent,
        getParentFolder path = Some parent ->
        parent = replace last_segment "/"
                   (replace trailing_slash "" (replace_backslashes path))
        /\ Spec.ends_with_slash parent = true)
  /\ (forall pre seg,
        seg <> "" -> lacks "/" seg = true -> lacks "\" seg = true ->
        (1 <= count_slashes (replace_backslashes pre) ->
         getParentFolder (pre +:+ String "/" seg)
         = Some (replace_backslashes pre +:+ "/"))
        /\ getParentFolder (pre +:+ String "/" seg +:+ "/")
           = Some (replace_backslashes pre +:+ "/"))
  /\ getParentFolder "/a/b/c/" = Some "/a/b/"
  /\ getParentFolder "/a/" = Some "/"
  /\ getParentFolder "/a" = None.
Proof.
  split; [exact getParentFolder_false|].
  split.
  { intros path parent Hq.
    pose proof (getParentFolder_some_inv _ _ Hq) as Hc.
    rewrite (getParentFolder_some _ Hc) in Hq. injection Hq as <-.
    split; [reflexivity|].
    apply ends_with_slash_strip_last.
    pose proof (count_slashes_strip (replace_backslashes path)). lia. }
  split; [|repeat split; reflexivity].
  intros pre seg Hne Hl Hb. split.
  - intros Hc.
    rewrite getParentFolder_some.
    + rewrite replace_backslashes_append. simpl replace_backslashes.
      rewrite (replace_backslashes_id seg Hb).
      rewrite strip_no_trailing_slash.
      * rewrite strip_last_segment by assumption. reflexivity.
      * rewrite ends_with_slash_append.
        destruct seg as [|d r]; [congruence|].
        rewrite ends_with_slash_cons. apply ends_with_slash_lacks; [discriminate|exact Hl].
    + rewrite replace_backslashes_append, count_slashes_append. simpl. lia.
  - rewrite getParentFolder_some.
    + rewrite replace_backslashes_append. simpl replace_backslashes.
      rewrite replace_backslashes_append. rewrite (replace_backslashes_id seg Hb).
      change (String "/" (seg +:+ replace_backslashes "/")) with (String "/" seg +:+ "/").
      rewrite <- append_assoc, strip_trailing_slash.
      rewrite strip_last_segment by assumption. reflexivity.
    + rewrite replace_backslashes_append, count_slashes_append. simpl.
      rewrite replace_backslashes_append, count_slashes_append. simpl. lia.
Qed.

(** The parent of ["/w/library/01-intro/"] is ["/w/library/"], by the
    general rule. *)
Lemma getParentFolder_spec_witness :
  getParentFolder ("/w/library" +:+ String "/" "01-intro" +:+ "/") = Some "/w/library/"
  /\ getParentFolder ("/w/library" +:+ String "/" "01-intro") = Some "/w/library/"
  /\ Spec.ends_with_slash "/w/library/" = true.
Proof.
  destruct getParentFolder_spec as (_ & Hsome & Hseg & _).
  destruct (Hseg "/w/library" "01-intro") as [H1 H2];
    [discriminate | reflexivity | reflexivity |].
  split; [exact H2|]. split; [apply H1; simpl; lia|].
  apply (Hsome "/w/library/01-intro/" "/w/library/"). reflexivity.
Defined.

(** C7, as the specification states it, fails: ["/a/"] has a parent. *)
Lemma getParentFolder_of_single_folder :
  getParentFolder "/a/" <> None /\ getParentFolder "/a/" = Some "/".
Proof. split; [discriminate | reflexivity]. Qed.

(** ** The walker *)

Section WalkerFacts.

Context {Disk : Type} `{FileSystem Disk}.

Lemma _listSubFolder_step fuel fs dirPath depth tree list_ files out :
  _listSubFolder (S fuel) fs dirPath depth tree list_ files out =
  match attempt fuel fs dirPath depth tree list_ files out with
  | None => None
  | Some (acc, out1, Done) => Some (Return acc, out1)
  | Some (acc, out1, Raised err) => Some (Return acc, out1 ++ [ConsoleError err])
  end.
Proof. reflexivity. Qed.

(** A call that ends has gone through its [try] block, and gives back the
    accumulators as the block left them. *)
Lemma _listSubFolder_inv fuel fs dirPath depth tree list_ files out r out' :
  _listSubFolder fuel fs dirPath depth tree list_ files out = Some (r, out') ->
  exists fuel' acc out1 sig,
    fuel = S fuel' /\ r = Return acc /\
    attempt fuel' fs dirPath depth tree list_ files out = Some (acc, out1, sig) /\
    out' = match sig with Done => out1 | Raised err => out1 ++ [ConsoleError err] end.
Proof.
  destruct fuel as [|fuel']; [discriminate|].
  rewrite _listSubFolder_step.
  destruct (attempt fuel' fs dirPath depth tree list_ files out)
    as [[[acc out1] [|err]]|] eqn:Ha; intros Hr; inversion Hr; subst.
  - exists fuel', acc, out', Done. auto.
  - exists fuel', acc, out1, (Raised err). auto.
Qed.

Lemma assign_object name sub (object : gmap string node) :
  assign name (JObject sub) object = <[name := JObject sub]> object.
Proof. reflexivity. Qed.

Lemma assign_false name (object : gmap string node) :
  name <> "__proto__" -> assign name JFalse object = <[name := JFalse]> object.
Proof. intros Hn. unfold assign. apply String.eqb_neq in Hn. rewrite Hn. reflexivity. Qed.

Lemma assign_false_proto (object : gmap string node) :
  assign "__proto__" JFalse object = object.
Proof. reflexivity. Qed.

(** An assignment leaves the other names as they are. *)
Lemma lookup_assign_ne name value (object : gmap string node) other :
  name <> other -> assign name value object !! other = object !! other.
Proof.
  intros Hne. destruct value as [|sub]; unfold assign.
  - destruct (String.eqb name "__proto__"); [reflexivity|apply lookup_insert_ne, Hne].
  - apply lookup_insert_ne, Hne.
Qed.

(** After [object[name] = false] the name holds [false] if it held it
    before, and whenever the name is not [__proto__]. *)
Lemma lookup_assign_false name (object : gmap string node) :
  name <> "__proto__" \/ object !! name = Some JFalse ->
  assign name JFalse object !! name = Some JFalse.
Proof.
  intros Hn. unfold assign. destruct (String.eqb name "__proto__") eqn:He.
  - destruct Hn as [Hn|Hn]; [|exact Hn]. apply String.eqb_eq in He. contradiction.
  - apply lookup_insert_eq.
Qed.

Lemma assign_union name value (object given : gmap string node) :
  assign name value (object ∪ given) = assign name value object ∪ given.
Proof.
  destruct value as [|sub]; unfold assign.
  - destruct (String.eqb name "__proto__"); [reflexivity|apply insert_union_l].
  - apply insert_union_l.
Qed.

Section LoopFacts.

Variable recurse : string -> nat -> console -> option (completion triple * console).
Variable fs : Disk.
Variable dirPath : string.
Variable depth : nat.

Abbreviation loop := (for_of recurse fs dirPath depth).

(** The loop over a listing is the loop over its first part, then, when
    that part ended without an error, the loop over the rest. *)
Lemma for_of_app pre rest tree list_ files out :
  loop (pre ++ rest) tree list_ files out =
  match loop pre tree list_ files out with
  | Some ((tree1, list1, files1), out1, Done) => loop rest tree1 list1 files1 out1
  | other => other
  end.
Proof.
  revert tree list_ files out.
  induction pre as [|fileName pre IH]; intros tree list_ files out; [reflexivity|].
  simpl.
  destruct (starts_with_dot fileName); [apply IH|].
  destruct (statSync_isDirectory fs (filePath_of dirPath depth fileName)) as [[|]|e];
    [| |reflexivity].
  - destruct (recurse _ _ out) as [[[[[tt tl] tf]|e] out1]|]; [apply IH|reflexivity|reflexivity].
  - destruct (0 <? depth); apply IH.
Qed.

(** A name that starts with a dot is passed over: nothing is asked of
    the file system, nothing is written. *)
Lemma for_of_hidden fileName rest tree list_ files out :
  starts_with_dot fileName = true ->
  loop (fileName :: rest) tree list_ files out = loop rest tree list_ files out.
Proof. intros Hd. simpl. rewrite Hd. reflexivity. Qed.

Lemma for_of_filter names tree list_ files out :
  loop names tree list_ files out =
  loop (List.filter (fun n => negb (starts_with_dot n)) names) tree list_ files out.
Proof.
  revert tree list_ files out.
  induction names as [|fileName names IH]; intros tree list_ files out; [reflexivity|].
  simpl List.filter. destruct (starts_with_dot fileName) eqn:Hd; simpl negb; cbv iota.
  - rewrite for_of_hidden by exact Hd. apply IH.
  - simpl. rewrite Hd.
    destruct (statSync_isDirectory fs (filePath_of dirPath depth fileName)) as [[|]|e];
      [| |reflexivity].
    + destruct (recurse _ _ out) as [[[[[tt tl] tf]|e] out1]|]; [apply IH|reflexivity|reflexivity].
    + destruct (0 <? depth); apply IH.
Qed.

Lemma for_of_all_hidden names tree list_ files out :
  forallb starts_with_dot names = true ->
  loop names tree list_ files out = Some ((tree, list_, files), out, Done).
Proof.
  induction names as [|fileName names IH]; [reflexivity|].
  simpl forallb. intros Ha. apply andb_true_iff in Ha as [Hd Ha].
  rewrite for_of_hidden by exact Hd. apply IH, Ha.
Qed.

(** One step of the loop at a name that does not start with a dot. *)
Lemma for_of_stat_fails fileName rest tree list_ files out e :
  starts_with_dot fileName = false ->
  statSync_isDirectory fs (filePath_of dirPath depth fileName) = Throw e ->
  loop (fileName :: rest) tree list_ files out = Some ((tree, list_, files), out, Raised e).
Proof. intros Hd Hs. simpl. rewrite Hd, Hs. reflexivity. Qed.

Lemma for_of_folder fileName rest tree list_ files out :
  starts_with_dot fileName = false ->
  statSync_isDirectory fs (filePath_of dirPath depth fileName) = Return true ->
  loop (fileName :: rest) tree list_ files out =
  match recurse (filePath_of dirPath depth fileName) (depth + 1) out with
  | None => None
  | Some (Throw e, out1) => Some ((tree, list_, files), out1, Raised e)
  | Some (Return (tempTree, tempList, tempFiles), out1) =>
      loop rest (<[fileName := JObject tempTree]> tree)
        (list_ ++ Entry.make depth folder fileName dirPath :: tempList)
        (files ++ tempFiles) out1
  end.
Proof. intros Hd Hs. simpl. rewrite Hd, Hs. reflexivity. Qed.

Lemma for_of_file fileName rest tree list_ files out :
  starts_with_dot fileName = false ->
  statSync_isDirectory fs (filePath_of dirPath depth fileName) = Return false ->
  loop (fileName :: rest) tree list_ files out =
  if 0 <? depth then
    loop rest (assign fileName JFalse tree)
      (list_ ++ [Entry.make depth file fileName dirPath])
      (files ++ [filePath_of dirPath depth fileName]) out
  else loop rest tree list_ files out.
Proof. intros Hd Hs. simpl. rewrite Hd, Hs. reflexivity. Qed.

(** The loop only appends to the entry list and to the file list. *)
Lemma for_of_appends names tree list_ files out tree' list' files' out' sig :
  loop names tree list_ files out = Some ((tree', list', files'), out', sig) ->
  exists added addedFiles, list' = list_ ++ added /\ files' = files ++ addedFiles.
Proof.
  revert tree list_ files out.
  induction names as [|fileName names IH]; intros tree list_ files out Hl.
  - inversion Hl; subst. exists [], []. rewrite !app_nil_r. auto.
  - simpl in Hl.
    destruct (starts_with_dot fileName); [exact (IH _ _ _ _ Hl)|].
    destruct (statSync_isDirectory fs (filePath_of dirPath depth fileName)) as [[|]|e].
    + destruct (recurse _ _ out) as [[[[[tt tl] tf]|e] out1]|]; [| |discriminate].
      * destruct (IH _ _ _ _ Hl) as (a & b & -> & ->).
        eexists _, _. rewrite <- !app_assoc. split; reflexivity.
      * inversion Hl; subst. exists [], []. rewrite !app_nil_r. auto.
    + destruct (0 <? depth).
      * destruct (IH _ _ _ _ Hl) as (a & b & -> & ->).
        eexists _, _. rewrite <- !app_assoc. split; reflexivity.
      * exact (IH _ _ _ _ Hl).
    + inversion Hl; subst. exists [], []. rewrite !app_nil_r. auto.
Qed.

(** A name recorded as a file stays one: a later entry of the same name
    is the same path, and a file again. *)
Lemma for_of_keeps_file fileName names tree list_ files out tree' list' files' out' sig :
  statSync_isDirectory fs (filePath_of dirPath depth fileName) = Return false ->
  tree !! fileName = Some JFalse ->
  loop names tree list_ files out = Some ((tree', list', files'), out', sig) ->
  tree' !! fileName = Some JFalse.
Proof.
  intros Hs. revert tree list_ files out.
  induction names as [|other names IH]; intros tree list_ files out Ht Hl.
  - inversion Hl; subst. exact Ht.
  - simpl in Hl.
    destruct (starts_with_dot other); [exact (IH _ _ _ _ Ht Hl)|].
    destruct (statSync_isDirectory fs (filePath_of dirPath depth other)) as [[|]|e] eqn:Ho.
    + destruct (recurse _ _ out) as [[[[[tt tl] tf]|e] out1]|]; [| |discriminate].
      * refine (IH _ _ _ _ _ Hl).
        rewrite lookup_assign_ne; [exact Ht|].
        intros ->. congruence.
      * inversion Hl; subst. exact Ht.
    + destruct (0 <? depth); [|exact (IH _ _ _ _ Ht Hl)].
      refine (IH _ _ _ _ _ Hl).
      destruct (decide (other = fileName)) as [->|Hne].
      * apply lookup_assign_false. right. exact Ht.
      * rewrite lookup_assign_ne; [exact Ht|exact Hne].
    + inversion Hl; subst. exact Ht.
Qed.

(** At depth 0 the loop writes no [false] into the tree. *)
Lemma for_of_top_no_file names tree list_ files out tree' list' files' out' sig fileName :
  depth = 0 ->
  loop names tree list_ files out = Some ((tree', list', files'), out', sig) ->
  tree' !! fileName = Some JFalse -> tree !! fileName = Some JFalse.
Proof.
  intros Hk. revert tree list_ files out.
  induction names as [|other names IH]; intros tree list_ files out Hl Ht.
  - inversion Hl; subst. exact Ht.
  - simpl in Hl.
    destruct (starts_with_dot other); [exact (IH _ _ _ _ Hl Ht)|].
    destruct (statSync_isDirectory fs (filePath_of dirPath depth other)) as [[|]|e].
    + destruct (recurse _ _ out) as [[[[[tt tl] tf]|e] out1]|]; [| |discriminate].
      * specialize (IH _ _ _ _ Hl Ht). rewrite assign_object in IH.
        destruct (decide (other = fileName)) as [->|Hne].
        -- rewrite lookup_insert_eq in IH. discriminate.
        -- rewrite lookup_insert_ne in IH; [exact IH|exact Hne].
      * inversion Hl; subst. exact Ht.
    + replace (0 <? depth) with false in Hl by (rewrite Hk; reflexivity).
      exact (IH _ _ _ _ Hl Ht).
    + inversion Hl; subst. exact Ht.
Qed.

(** What the loop appends, given what the calls it makes append. *)
Lemma for_of_records names tree list_ files out tree' list' files' out' sig :
  (forall p o tt tl tf o1,
      recurse p (depth + 1) o = Some (Return (tt, tl, tf), o1) ->
      Forall (below (depth + 1)) tl) ->
  loop names tree list_ files out = Some ((tree', list', files'), out', sig) ->
  exists added, list' = list_ ++ added /\ Forall (below depth) added.
Proof.
  intros Hrec. revert tree list_ files out.
  induction names as [|fileName names IH]; intros tree list_ files out Hl.
  - inversion Hl; subst. exists []. rewrite app_nil_r. auto.
  - simpl in Hl.
    destruct (starts_with_dot fileName); [exact (IH _ _ _ _ Hl)|].
    destruct (statSync_isDirectory fs (filePath_of dirPath depth fileName)) as [[|]|e].
    + destruct (recurse _ _ out) as [[[[[tt tl] tf]|e] out1]|] eqn:Hr; [| |discriminate].
      * destruct (IH _ _ _ _ Hl) as (a & -> & Ha).
        eexists. rewrite <- app_assoc. split; [reflexivity|].
        apply Forall_app. split; [|exact Ha].
        constructor; [split; simpl; [lia|reflexivity]|].
        specialize (Hrec _ _ _ _ _ _ Hr).
        eapply Forall_impl; [exact Hrec|].
        intros r [Hr1 Hr2]. split; [lia|exact Hr2].
      * inversion Hl; subst. exists []. rewrite app_nil_r. auto.
    + destruct (0 <? depth) eqn:Hk.
      * destruct (IH _ _ _ _ Hl) as (a & -> & Ha).
        eexists. rewrite <- app_assoc. split; [reflexivity|].
        apply Forall_app. split; [|exact Ha].
        constructor; [|constructor].
        apply Nat.ltb_lt in Hk. split; simpl; lia.
      * exact (IH _ _ _ _ Hl).
    + inversion Hl; subst. exists []. rewrite app_nil_r. auto.
Qed.

Lemma comes_from_cons fileName names p :
  comes_from fs dirPath depth names p ->
  comes_from fs dirPath depth (fileName :: names) p.
Proof.
  intros (n & rest & Hin & Hrest). exists n, rest. split; [right; exact Hin|exact Hrest].
Qed.

Lemma for_of_paths names tree list_ files out tree' list' files' out' sig :
  (forall p o tt tl tf o1,
      recurse p (depth + 1) o = Some (Return (tt, tl, tf), o1) ->
      Forall (found_below fs p (depth + 1)) tf) ->
  loop names tree list_ files out = Some ((tree', list', files'), out', sig) ->
  exists addedFiles,
    files' = files ++ addedFiles /\ Forall (comes_from fs dirPath depth names) addedFiles.
Proof.
  intros Hrec. revert tree list_ files out.
  induction names as [|fileName names IH]; intros tree list_ files out Hl.
  - inversion Hl; subst. exists []. rewrite app_nil_r. auto.
  - simpl in Hl.
    destruct (starts_with_dot fileName) eqn:Hd.
    { destruct (IH _ _ _ _ Hl) as (a & -> & Ha). exists a. split; [reflexivity|].
      eapply Forall_impl; [exact Ha|]. intros q. apply comes_from_cons. }
    destruct (statSync_isDirectory fs (filePath_of dirPath depth fileName)) as [[|]|e] eqn:Hs.
    + destruct (recurse _ _ out) as [[[[[tt tl] tf]|e] out1]|] eqn:Hr; [| |discriminate].
      * destruct (IH _ _ _ _ Hl) as (a & -> & Ha).
        eexists. rewrite <- app_assoc. split; [reflexivity|].
        apply Forall_app. split.
        -- specialize (Hrec _ _ _ _ _ _ Hr).
           eapply Forall_impl; [exact Hrec|].
           intros q (names' & _ & n & rest & _ & _ & -> & _).
           exists fileName, (String "/" (n +:+ rest)).
           split; [left; reflexivity|]. split; [exact Hd|]. split.
           ++ unfold filePath_of at 1.
              replace (0 <? depth + 1) with true by (symmetry; apply Nat.ltb_lt; lia).
              rewrite !append_assoc. reflexivity.
           ++ intros ->. split; [exact Hs|]. eexists. reflexivity.
        -- eapply Forall_impl; [exact Ha|]. intros q. apply comes_from_cons.
      * inversion Hl; subst. exists []. rewrite app_nil_r. auto.
    + destruct (0 <? depth) eqn:Hk.
      * destruct (IH _ _ _ _ Hl) as (a & -> & Ha).
        eexists. rewrite <- app_assoc. split; [reflexivity|].
        apply Forall_app. split.
        -- constructor; [|constructor].
           exists fileName, "". split; [left; reflexivity|]. split; [exact Hd|].
           split; [rewrite append_empty_r; reflexivity|].
           intros ->. discriminate Hk.
        -- eapply Forall_impl; [exact Ha|]. intros q. apply comes_from_cons.
      * destruct (IH _ _ _ _ Hl) as (a & -> & Ha). exists a. split; [reflexivity|].
        eapply Forall_impl; [exact Ha|]. intros q. apply comes_from_cons.
    + inversion Hl; subst. exists []. rewrite app_nil_r. auto.
Qed.

(** The loop comes to an end when the calls it makes do. *)
Lemma for_of_ends names tree list_ files out :
  (forall fileName o,
      In fileName names -> starts_with_dot fileName = false ->
      statSync_isDirectory fs (filePath_of dirPath depth fileName) = Return true ->
      exists r o1, recurse (filePath_of dirPath depth fileName) (depth + 1) o = Some (r, o1)) ->
  exists acc out' sig, loop names tree list_ files out = Some (acc, out', sig).
Proof.
  revert tree list_ files out.
  induction names as [|fileName names IH]; intros tree list_ files out Hrec.
  - eexists _, _, _. reflexivity.
  - assert (forall n o, In n names -> starts_with_dot n = false ->
              statSync_isDirectory fs (filePath_of dirPath depth n) = Return true ->
              exists r o1, recurse (filePath_of dirPath depth n) (depth + 1) o = Some (r, o1))
      as Hrec' by (intros n o Hin; apply Hrec; right; exact Hin).
    simpl.
    destruct (starts_with_dot fileName) eqn:Hd; [apply IH, Hrec'|].
    destruct (statSync_isDirectory fs (filePath_of dirPath depth fileName)) as [[|]|e] eqn:Hs.
    + destruct (Hrec fileName out (or_introl eq_refl) Hd Hs) as ([[[tt tl] tf]|e] & o1 & ->).
      * apply IH, Hrec'.
      * eexists _, _, _. reflexivity.
    + destruct (0 <? depth); apply IH, Hrec'.
    + eexists _, _, _. reflexivity.
Qed.

End LoopFacts.

(** A scan at depth [k] appends records of depth [k] or more, files among
    them only below depth 0. *)
Lemma _listSubFolder_records fuel fs : forall dirPath depth tree list_ files out tree' list' files' out',
  _listSubFolder fuel fs dirPath depth tree list_ files out
    = Some (Return (tree', list', files'), out') ->
  exists added, list' = list_ ++ added /\ Forall (below depth) added.
Proof.
  induction fuel as [|fuel IH]; intros dirPath depth tree list_ files out tree' list' files' out' Hr;
    [discriminate|].
  apply _listSubFolder_inv in Hr as (fuel' & acc & out1 & sig & Hf & Hacc & Ha & _).
  injection Hf as <-. injection Hacc as <-.
  unfold attempt in Ha. destruct (readdirSync fs dirPath) as [names|e].
  - eapply for_of_records; [|exact Ha].
    intros p o tt tl tf o1 Hsub. unfold descend in Hsub.
    destruct (IH _ _ _ _ _ _ _ _ _ _ Hsub) as (a & -> & Hall). exact Hall.
  - inversion Ha; subst. exists []. rewrite app_nil_r. auto.
Qed.

(** A scan appends paths that lie below the folder it scans. *)
Lemma _listSubFolder_paths fuel fs : forall dirPath depth tree list_ files out tree' list' files' out',
  _listSubFolder fuel fs dirPath depth tree list_ files out
    = Some (Return (tree', list', files'), out') ->
  exists addedFiles,
    files' = files ++ addedFiles /\ Forall (found_below fs dirPath depth) addedFiles.
Proof.
  induction fuel as [|fuel IH]; intros dirPath depth tree list_ files out tree' list' files' out' Hr;
    [discriminate|].
  apply _listSubFolder_inv in Hr as (fuel' & acc & out1 & sig & Hf & Hacc & Ha & _).
  injection Hf as <-. injection Hacc as <-.
  unfold attempt in Ha. destruct (readdirSync fs dirPath) as [names|e] eqn:Hn.
  - destruct (for_of_paths (descend fuel fs) fs dirPath depth names
                tree list_ files out tree' list' files' out1 sig) as (a & -> & Hall).
    + intros p o tt tl tf o1 Hsub. unfold descend in Hsub.
      destruct (IH _ _ _ _ _ _ _ _ _ _ Hsub) as (a & Hnil & Hall).
      rewrite app_nil_l in Hnil. subst a. exact Hall.
    + exact Ha.
    + exists a. split; [reflexivity|].
      eapply Forall_impl; [exact Hall|]. intros q Hq. exists names. split; [exact Hn|exact Hq].
  - inversion Ha; subst. exists []. rewrite app_nil_r. auto.
Qed.

(** The walker never raises, whatever it is given. *)
Lemma _listSubFolder_no_throw fuel fs dirPath depth tree list_ files out e out' :
  _listSubFolder fuel fs dirPath depth tree list_ files out <> Some (Throw e, out').
Proof.
  intros Hr. apply _listSubFolder_inv in Hr as (? & ? & ? & ? & _ & Hacc & _). discriminate.
Qed.

(** The walker comes back when folders nest finitely deep. *)
Lemma _listSubFolder_returns fs n dirPath depth :
  nested_within fs n dirPath depth ->
  forall tree list_ files out,
  exists acc out', _listSubFolder n fs dirPath depth tree list_ files out = Some (Return acc, out').
Proof.
  induction 1 as [n dirPath depth e He | n dirPath depth names Hn Hsub IH];
    intros tree list_ files out; rewrite _listSubFolder_step; unfold attempt.
  - rewrite He. eexists _, _. reflexivity.
  - rewrite Hn.
    destruct (for_of_ends (descend n fs) fs dirPath depth names tree list_ files out)
      as (acc & out1 & [|err] & ->).
    + intros fileName o Hin Hd Hs.
      destruct (IH fileName Hin Hd Hs ∅ [] [] o) as (acc & o1 & Hacc).
      eexists _, _. exact Hacc.
    + eexists _, _. reflexivity.
    + eexists _, _. reflexivity.
Qed.

(** A folder that can be listed and nests finitely deep: so do the
    folders of its listing, one level less. *)
Lemma nested_within_listing fs n dirPath depth names :
  nested_within fs n dirPath depth ->
  readdirSync fs dirPath = Return names ->
  exists fuel,
    n = S fuel
    /\ forall fileName,
         In fileName names -> starts_with_dot fileName = false ->
         statSync_isDirectory fs (filePath_of dirPath depth fileName) = Return true ->
         nested_within fs fuel (filePath_of dirPath depth fileName) (depth + 1).
Proof.
  intros Hnest Hn.
  destruct Hnest as [n dirPath depth e He|n dirPath depth names' Hn' Hsub]; [congruence|].
  exists n. split; [reflexivity|].
  assert (names' = names) as <- by congruence. exact Hsub.
Qed.

(** The loop goes through a listing to its end when [stat] answers for
    its names and the folders among them nest finitely deep. *)
Lemma for_of_reaches fs fuel dirPath depth names :
  (forall fileName,
      In fileName names -> starts_with_dot fileName = false ->
      statSync_isDirectory fs (filePath_of dirPath depth fileName) = Return true ->
      nested_within fs fuel (filePath_of dirPath depth fileName) (depth + 1)) ->
  stats_ok fs dirPath depth names ->
  forall tree list_ files out,
  exists acc out1,
    for_of (descend fuel fs) fs dirPath depth names tree list_ files out = Some (acc, out1, Done).
Proof.
  induction names as [|fileName names IH]; intros Hnest Hok tree list_ files out.
  - eexists _, _. reflexivity.
  - assert (forall n, In n names -> starts_with_dot n = false ->
              statSync_isDirectory fs (filePath_of dirPath depth n) = Return true ->
              nested_within fs fuel (filePath_of dirPath depth n) (depth + 1))
      as Hnest' by (intros n Hin; apply Hnest; right; exact Hin).
    assert (stats_ok fs dirPath depth names) as Hok'
      by (intros n Hin; apply Hok; right; exact Hin).
    simpl. destruct (starts_with_dot fileName) eqn:Hd; [apply IH; assumption|].
    destruct (Hok fileName (or_introl eq_refl) Hd) as ([|] & Hs); rewrite Hs.
    + unfold descend at 1.
      destruct (_listSubFolder_returns _ _ _ _ (Hnest fileName (or_introl eq_refl) Hd Hs)
                  ∅ [] [] out) as ([[tt tl] tf] & o1 & ->).
      apply IH; assumption.
    + destruct (0 <? depth); apply IH; assumption.
Qed.

(** A scan whose loop comes to the entry [fileName]: the names before it
    have been gone through, and the loop goes on from there. *)
Lemma _listSubFolder_reaches fs n dirPath depth pre fileName post tree list_ files out :
  nested_within fs n dirPath depth ->
  readdirSync fs dirPath = Return (pre ++ fileName :: post) ->
  stats_ok fs dirPath depth pre ->
  exists fuel tree1 list1 files1 out1,
    n = S fuel
    /\ (forall name,
          In name (fileName :: post) -> starts_with_dot name = false ->
          statSync_isDirectory fs (filePath_of dirPath depth name) = Return true ->
          nested_within fs fuel (filePath_of dirPath depth name) (depth + 1))
    /\ for_of (descend fuel fs) fs dirPath depth pre tree list_ files out
       = Some ((tree1, list1, files1), out1, Done)
    /\ attempt fuel fs dirPath depth tree list_ files out
       = for_of (descend fuel fs) fs dirPath depth (fileName :: post) tree1 list1 files1 out1.
Proof.
  intros Hnest Hn Hok.
  destruct (nested_within_listing _ _ _ _ _ Hnest Hn) as (fuel & -> & Hsub).
  destruct (for_of_reaches fs fuel dirPath depth pre) with (tree := tree) (list_ := list_)
    (files := files) (out := out) as ([[tree1 list1] files1] & out1 & Hpre).
  - intros name Hin. apply Hsub, in_or_app. left. exact Hin.
  - exact Hok.
  - exists fuel, tree1, list1, files1, out1.
    split; [reflexivity|]. split; [|split; [exact Hpre|]].
    + intros name Hin. apply Hsub, in_or_app. right. exact Hin.
    + unfold attempt. rewrite Hn, for_of_app, Hpre. reflexivity.
Qed.

(** The loop over the names that are left comes to an end. *)
Lemma for_of_rest_ends fs fuel dirPath depth names :
  (forall name,
      In name names -> starts_with_dot name = false ->
      statSync_isDirectory fs (filePath_of dirPath depth name) = Return true ->
      nested_within fs fuel (filePath_of dirPath depth name) (depth + 1)) ->
  forall tree list_ files out,
  exists tree' list' files' out' sig,
    for_of (descend fuel fs) fs dirPath depth names tree list_ files out
    = Some ((tree', list', files'), out', sig).
Proof.
  intros Hnest tree list_ files out.
  destruct (for_of_ends (descend fuel fs) fs dirPath depth names tree list_ files out)
    as ([[tree' list'] files'] & out' & sig & Hl).
  - intros name o Hin Hd Hs. unfold descend.
    destruct (_listSubFolder_returns _ _ _ _ (Hnest name Hin Hd Hs) ∅ [] [] o)
      as (acc & o1 & Hacc).
    eexists _, _. exact Hacc.
  - eexists _, _, _, _, _. exact Hl.
Qed.

(** What is on the console before a run is on it after the run, and has
    no part in what the run gives. *)
Lemma for_of_logged recurse (fs : Disk) dirPath depth names :
  (forall p d o, recurse p d o = logged o (recurse p d [])) ->
  forall tree list_ files out,
    for_of recurse fs dirPath depth names tree list_ files out
    = loop_logged out (for_of recurse fs dirPath depth names tree list_ files []).
Proof.
  intros Hrec.
  induction names as [|fileName names IH]; intros tree list_ files out.
  - simpl. rewrite app_nil_r. reflexivity.
  - simpl. destruct (starts_with_dot fileName); [apply IH|].
    destruct (statSync_isDirectory fs (filePath_of dirPath depth fileName)) as [[|]|e].
    + rewrite (Hrec _ _ out).
      destruct (recurse (filePath_of dirPath depth fileName) (depth + 1) [])
        as [[[[[tt tl] tf]|e] o1]|]; simpl; [|reflexivity|reflexivity].
      rewrite (IH _ _ _ (out ++ o1)), (IH _ _ _ o1).
      destruct (for_of recurse fs dirPath depth names _ _ _ []) as [[[acc o2] sig]|];
        [|reflexivity].
      simpl. rewrite app_assoc. reflexivity.
    + destruct (0 <? depth); apply IH.
    + simpl. rewrite app_nil_r. reflexivity.
Qed.

Lemma _listSubFolder_logged fuel fs :
  forall dirPath depth tree list_ files out,
    _listSubFolder fuel fs dirPath depth tree list_ files out
    = logged out (_listSubFolder fuel fs dirPath depth tree list_ files []).
Proof.
  induction fuel as [|fuel IH]; intros dirPath depth tree list_ files out; [reflexivity|].
  rewrite !_listSubFolder_step. unfold attempt.
  destruct (readdirSync fs dirPath) as [names|e].
  - rewrite (for_of_logged (descend fuel fs) fs dirPath depth names)
      by (intros p d o; apply IH).
    destruct (for_of (descend fuel fs) fs dirPath depth names tree list_ files [])
      as [[[acc o1] [|err]]|]; simpl; [reflexivity| |reflexivity].
    rewrite app_assoc. reflexivity.
  - reflexivity.
Qed.

(** A scan gives the same tree whatever is on the console. *)
Lemma _listSubFolder_same_tree fuel fs dirPath depth o o' tt tl tf o1 tt' tl' tf' o1' :
  _listSubFolder fuel fs dirPath depth ∅ [] [] o = Some (Return (tt, tl, tf), o1) ->
  _listSubFolder fuel fs dirPath depth ∅ [] [] o' = Some (Return (tt', tl', tf'), o1') ->
  tt = tt'.
Proof.
  rewrite (_listSubFolder_logged fuel fs dirPath depth ∅ [] [] o).
  rewrite (_listSubFolder_logged fuel fs dirPath depth ∅ [] [] o').
  destruct (_listSubFolder fuel fs dirPath depth ∅ [] [] []) as [[c o2]|]; [|discriminate].
  simpl. intros H1 H2. congruence.
Qed.

(** What the loop does to the tree, name by name: a name keeps what it
    had, or it is a folder of the listing and holds an object, or it is a
    file of the listing, not named [__proto__], and holds [false]. *)
Lemma for_of_changes recurse (fs : Disk) dirPath depth names :
  forall tree list_ files out tree' list' files' out' sig,
    for_of recurse fs dirPath depth names tree list_ files out
      = Some ((tree', list', files'), out', sig) ->
    forall name,
      tree' !! name = tree !! name
      \/ (In name names /\ starts_with_dot name = false
          /\ ((statSync_isDirectory fs (filePath_of dirPath depth name) = Return true
               /\ exists sub, tree' !! name = Some (JObject sub))
              \/ (statSync_isDirectory fs (filePath_of dirPath depth name) = Return false
                  /\ 0 < depth /\ name <> "__proto__" /\ tree' !! name = Some JFalse))).
Proof.
  induction names as [|fileName names IH];
    intros tree list_ files out tree' list' files' out' sig Hl name.
  - inversion Hl; subst. left. reflexivity.
  - simpl in Hl.
    destruct (starts_with_dot fileName) eqn:Hd.
    { destruct (IH _ _ _ _ _ _ _ _ _ Hl name) as [Hsame|(Hin & Hrest)]; [left; exact Hsame|].
      right. split; [right; exact Hin|exact Hrest]. }
    destruct (statSync_isDirectory fs (filePath_of dirPath depth fileName)) as [[|]|e] eqn:Hs.
    + destruct (recurse _ _ out) as [[[[[tt tl] tf]|e] out1]|]; [| |discriminate].
      * destruct (IH _ _ _ _ _ _ _ _ _ Hl name) as [Hsame|(Hin & Hrest)].
        -- destruct (decide (fileName = name)) as [<-|Hne].
           ++ right. split; [left; reflexivity|]. split; [exact Hd|]. left.
              split; [exact Hs|]. exists tt. rewrite Hsame. apply lookup_insert_eq.
           ++ left. rewrite Hsame. apply lookup_assign_ne, Hne.
        -- right. split; [right; exact Hin|exact Hrest].
      * inversion Hl; subst. left. reflexivity.
    + destruct (0 <? depth) eqn:Hk.
      * apply Nat.ltb_lt in Hk.
        destruct (IH _ _ _ _ _ _ _ _ _ Hl name) as [Hsame|(Hin & Hrest)].
        -- destruct (decide (fileName = name)) as [<-|Hne].
           ++ destruct (decide (fileName = "__proto__")) as [->|Hp].
              ** left. rewrite Hsame, assign_false_proto. reflexivity.
              ** right. split; [left; reflexivity|]. split; [exact Hd|]. right.
                 split; [exact Hs|]. split; [exact Hk|]. split; [exact Hp|].
                 rewrite Hsame. apply lookup_assign_false. left. exact Hp.
           ++ left. rewrite Hsame. apply lookup_assign_ne, Hne.
        -- right. split; [right; exact Hin|exact Hrest].
      * destruct (IH _ _ _ _ _ _ _ _ _ Hl name) as [Hsame|(Hin & Hrest)];
          [left; exact Hsame|].
        right. split; [right; exact Hin|exact Hrest].
    + inversion Hl; subst. left. reflexivity.
Qed.

(** In a folder where [__proto__] is a file, the loop leaves the
    prototype of the tree as it was. *)
Lemma for_of_keeps_proto recurse (fs : Disk) dirPath depth names
    tree list_ files out tree' list' files' out' sig :
  statSync_isDirectory fs (filePath_of dirPath depth "__proto__") = Return false ->
  for_of recurse fs dirPath depth names tree list_ files out
    = Some ((tree', list', files'), out', sig) ->
  tree' !! "__proto__" = tree !! "__proto__".
Proof.
  intros Hs Hl.
  destruct (for_of_changes _ _ _ _ _ _ _ _ _ _ _ _ _ _ Hl "__proto__")
    as [Hsame|(_ & _ & [(Ht & _)|(_ & _ & Hp & _)])].
  - exact Hsame.
  - congruence.
  - contradiction.
Qed.

(** A folder keeps the tree of its scan: a later entry of the same name
    is the same path, and its scan gives the same tree. *)
Lemma for_of_keeps_sub recurse (fs : Disk) dirPath depth fileName subTree names :
  (forall o tt tl tf o1,
      recurse (filePath_of dirPath depth fileName) (depth + 1) o
        = Some (Return (tt, tl, tf), o1) -> tt = subTree) ->
  statSync_isDirectory fs (filePath_of dirPath depth fileName) = Return true ->
  forall tree list_ files out tree' list' files' out' sig,
    tree !! fileName = Some (JObject subTree) ->
    for_of recurse fs dirPath depth names tree list_ files out
      = Some ((tree', list', files'), out', sig) ->
    tree' !! fileName = Some (JObject subTree).
Proof.
  intros Hsub Hs.
  induction names as [|other names IH]; intros tree list_ files out tree' list' files' out' sig Ht Hl.
  - inversion Hl; subst. exact Ht.
  - simpl in Hl.
    destruct (starts_with_dot other); [exact (IH _ _ _ _ _ _ _ _ _ Ht Hl)|].
    destruct (statSync_isDirectory fs (filePath_of dirPath depth other)) as [[|]|e] eqn:Ho.
    + destruct (recurse _ _ out) as [[[[[tt tl] tf]|e] out1]|] eqn:Hr; [| |discriminate].
      * refine (IH _ _ _ _ _ _ _ _ _ _ Hl).
        destruct (decide (other = fileName)) as [->|Hne].
        -- rewrite (Hsub _ _ _ _ _ Hr). apply lookup_insert_eq.
        -- rewrite lookup_assign_ne; [exact Ht|exact Hne].
      * inversion Hl; subst. exact Ht.
    + destruct (0 <? depth); [|exact (IH _ _ _ _ _ _ _ _ _ Ht Hl)].
      refine (IH _ _ _ _ _ _ _ _ _ _ Hl).
      rewrite lookup_assign_ne; [exact Ht|]. intros ->. congruence.
    + inversion Hl; subst. exact Ht.
Qed.

(** A file that a scan at a depth above 0 comes to is in the entry list
    and in the file list when the scan ends, and in the tree unless its
    name is [__proto__]. *)
Lemma _listSubFolder_records_file fs n dirPath depth pre fileName post tree list_ files out :
  0 < depth ->
  nested_within fs n dirPath depth ->
  readdirSync fs dirPath = Return (pre ++ fileName :: post) ->
  stats_ok fs dirPath depth pre ->
  starts_with_dot fileName = false ->
  statSync_isDirectory fs (filePath_of dirPath depth fileName) = Return false ->
  exists tree' list' files' out',
    _listSubFolder n fs dirPath depth tree list_ files out
      = Some (Return (tree', list', files'), out')
    /\ In (Entry.make depth file fileName dirPath) list'
    /\ In (filePath_of dirPath depth fileName) files'
    /\ (fileName <> "__proto__" -> tree' !! fileName = Some JFalse)
    /\ (fileName = "__proto__" -> tree' !! fileName = tree !! fileName).
Proof.
  intros Hk Hnest Hn Hok Hd Hs.
  destruct (_listSubFolder_reaches fs n dirPath depth pre fileName post tree list_ files out
              Hnest Hn Hok) as (fuel & tree1 & list1 & files1 & out1 & -> & Hsub & Hpre & Hatt).
  rewrite for_of_file in Hatt by assumption.
  replace (0 <? depth) with true in Hatt by (symmetry; apply Nat.ltb_lt; exact Hk).
  destruct (for_of_rest_ends fs fuel dirPath depth post
              (fun name Hin => Hsub name (or_intror Hin))
              (assign fileName JFalse tree1)
              (list1 ++ [Entry.make depth file fileName dirPath])
              (files1 ++ [filePath_of dirPath depth fileName]) out1)
    as (tree' & list' & files' & out2 & sig & Hpost).
  rewrite Hpost in Hatt.
  exists tree', list', files', (match sig with Done => out2 | Raised err => out2 ++ [ConsoleError err] end).
  split; [rewrite _listSubFolder_step, Hatt; destruct sig; reflexivity|].
  edestruct for_of_appends as (after & af & Hl & Hf); [exact Hpost|].
  split; [rewrite Hl; apply in_or_app; left; apply in_or_app; right; left; reflexivity|].
  split; [rewrite Hf; apply in_or_app; left; apply in_or_app; right; left; reflexivity|].
  split.
  - intros Hp. eapply for_of_keeps_file; [exact Hs| |exact Hpost].
    apply lookup_assign_false. left. exact Hp.
  - intros ->. rewrite assign_false_proto in Hpost.
    rewrite (for_of_keeps_proto _ _ _ _ _ _ _ _ _ _ _ _ _ _ Hs Hpost).
    exact (for_of_keeps_proto _ _ _ _ _ _ _ _ _ _ _ _ _ _ Hs Hpre).
Qed.

End WalkerFacts.

Section WalkerClaims.

Context {Disk : Type} `{FileSystem Disk}.

(** The loop asks the disk and the recursion about the names that do not
    start with a dot, and about nothing else. *)
Lemma for_of_frame recurse recurse' (fs fs' : Disk) dirPath depth names :
  (forall fileName,
      In fileName names -> starts_with_dot fileName = false ->
      statSync_isDirectory fs (filePath_of dirPath depth fileName)
      = statSync_isDirectory fs' (filePath_of dirPath depth fileName)
      /\ forall o, recurse (filePath_of dirPath depth fileName) (depth + 1) o
                   = recurse' (filePath_of dirPath depth fileName) (depth + 1) o) ->
  forall tree list_ files out,
    for_of recurse fs dirPath depth names tree list_ files out
    = for_of recurse' fs' dirPath depth names tree list_ files out.
Proof.
  induction names as [|fileName names IH]; intros Hsame tree list_ files out; [reflexivity|].
  assert (forall n, In n names -> starts_with_dot n = false ->
            statSync_isDirectory fs (filePath_of dirPath depth n)
            = statSync_isDirectory fs' (filePath_of dirPath depth n)
            /\ forall o, recurse (filePath_of dirPath depth n) (depth + 1) o
                         = recurse' (filePath_of dirPath depth n) (depth + 1) o)
    as Hsame' by (intros n Hin; apply Hsame; right; exact Hin).
  simpl. destruct (starts_with_dot fileName) eqn:Hd; [apply IH, Hsame'|].
  destruct (Hsame fileName (or_introl eq_refl) Hd) as [<- Hrec].
  destruct (statSync_isDirectory fs (filePath_of dirPath depth fileName)) as [[|]|e];
    [| |reflexivity].
  - rewrite <- Hrec.
    destruct (recurse _ _ out) as [[[[[tt tl] tf]|e] out1]|];
      [apply IH, Hsame'|reflexivity|reflexivity].
  - destruct (0 <? depth); apply IH, Hsame'.
Qed.

(** C2. An entry whose name starts with a dot is passed over: the loop goes
    on with the tree, the entry list and the file list as they were, so a
    listing gives what the listing without such names gives; the result
    stays the same when the disk and the recursive call change at such
    names only (nothing is asked about them, a hidden folder is not
    entered); and a folder with such entries only gives the empty tree, the
    empty entry list and the empty file list. *)
Theorem hidden_entries_are_skipped (fs : Disk) (dirPath : string) (depth : nat) :
  (forall recurse fileName rest tree list_ files out,
      starts_with_dot fileName = true ->
      for_of recurse fs dirPath depth (fileName :: rest) tree list_ files out
      = for_of recurse fs dirPath depth rest tree list_ files out)
  /\ (forall recurse names tree list_ files out,
        for_of recurse fs dirPath depth names tree list_ files out
        = for_of recurse fs dirPath depth
            (List.filter (fun n => negb (starts_with_dot n)) names) tree list_ files out)
  /\ (forall recurse recurse' (fs' : Disk) names tree list_ files out,
        (forall fileName,
            In fileName names -> starts_with_dot fileName = false ->
            statSync_isDirectory fs (filePath_of dirPath depth fileName)
            = statSync_isDirectory fs' (filePath_of dirPath depth fileName)
            /\ forall o, recurse (filePath_of dirPath depth fileName) (depth + 1) o
                         = recurse' (filePath_of dirPath depth fileName) (depth + 1) o) ->
        for_of recurse fs dirPath depth names tree list_ files out
        = for_of recurse' fs' dirPath depth names tree list_ files out)
  /\ (forall fuel names out,
        readdirSync fs dirPath = Return names ->
        forallb starts_with_dot names = true ->
        _listSubFolder (S fuel) fs dirPath depth ∅ [] [] out
        = Some (Return (∅, [], []), out)).
Proof.
  split; [intros; apply for_of_hidden; assumption|].
  split; [intros; apply for_of_filter|].
  split; [intros; apply for_of_frame; assumption|].
  intros fuel names out Hn Hall.
  rewrite _listSubFolder_step. unfold attempt. rewrite Hn.
  rewrite for_of_all_hidden by exact Hall. reflexivity.
Qed.

(** C3. A scan whose loop comes to a folder ends, and its entry list is
    then: what it was given, what the names before the folder gave, the
    record of the folder, the whole entry list of the scan of that folder,
    one level deeper and in the order that scan gave it, and what the
    names after the folder give. *)
Theorem folder_record_then_its_entries (fs : Disk) (dirPath : string) (depth : nat)
    n pre fileName post tree list_ files out :
  nested_within fs n dirPath depth ->
  readdirSync fs dirPath = Return (pre ++ fileName :: post) ->
  stats_ok fs dirPath depth pre ->
  starts_with_dot fileName = false ->
  statSync_isDirectory fs (filePath_of dirPath depth fileName) = Return true ->
  exists fuel tree1 list1 files1 out1 before subTree subList subFiles out2 after
         tree' list' files' out' out3 sig,
    n = S fuel
    /\ for_of (descend fuel fs) fs dirPath depth pre tree list_ files out
       = Some ((tree1, list1, files1), out1, Done)
    /\ list1 = list_ ++ before
    /\ _listSubFolder fuel fs (filePath_of dirPath depth fileName) (depth + 1) ∅ [] [] out1
       = Some (Return (subTree, subList, subFiles), out2)
    /\ for_of (descend fuel fs) fs dirPath depth post
         (<[fileName := JObject subTree]> tree1)
         (list1 ++ Entry.make depth folder fileName dirPath :: subList)
         (files1 ++ subFiles) out2
       = Some ((tree', list', files'), out3, sig)
    /\ _listSubFolder n fs dirPath depth tree list_ files out
       = Some (Return (tree', list', files'), out')
    /\ list' = list_ ++ before ++ Entry.make depth folder fileName dirPath :: subList ++ after.
Proof.
  intros Hnest Hn Hok Hd Hs.
  destruct (_listSubFolder_reaches fs n dirPath depth pre fileName post tree list_ files out
              Hnest Hn Hok) as (fuel & tree1 & list1 & files1 & out1 & -> & Hsub & Hpre & Hatt).
  rewrite for_of_folder in Hatt by assumption. unfold descend at 1 in Hatt.
  destruct (_listSubFolder_returns _ _ _ _ (Hsub fileName (or_introl eq_refl) Hd Hs)
              ∅ [] [] out1) as ([[subTree subList] subFiles] & out2 & Hrun).
  rewrite Hrun in Hatt.
  destruct (for_of_rest_ends fs fuel dirPath depth post
              (fun name Hin => Hsub name (or_intror Hin))
              (<[fileName := JObject subTree]> tree1)
              (list1 ++ Entry.make depth folder fileName dirPath :: subList)
              (files1 ++ subFiles) out2)
    as (tree' & list' & files' & out3 & sig & Hpost).
  rewrite Hpost in Hatt.
  edestruct for_of_appends as (before & bf & Hb1 & Hb2); [exact Hpre|].
  edestruct for_of_appends as (after & af & Hl & _); [exact Hpost|].
  exists fuel, tree1, list1, files1, out1, before, subTree, subList, subFiles, out2, after,
    tree', list', files',
    (match sig with Done => out3 | Raised err => out3 ++ [ConsoleError err] end), out3, sig.
  split; [reflexivity|]. split; [exact Hpre|]. split; [exact Hb1|]. split; [exact Hrun|].
  split; [exact Hpost|].
  split; [rewrite _listSubFolder_step, Hatt; destruct sig; reflexivity|].
  rewrite Hl, Hb1, <- !app_assoc. reflexivity.
Qed.

(** C4. The walker never raises: it ends with the array of its three
    accumulators whenever the folders it enters nest finitely deep. When
    the folder it is given cannot be read, the error goes to the console
    and the accumulators come back as they were given; when a folder it
    meets inside cannot be read, that folder counts as empty and the loop
    goes on. *)
Theorem walker_never_raises (fs : Disk) :
  (forall fuel dirPath depth tree list_ files out e out',
      _listSubFolder fuel fs dirPath depth tree list_ files out <> Some (Throw e, out'))
  /\ (forall n dirPath depth tree list_ files out,
        nested_within fs n dirPath depth ->
        exists acc out',
          _listSubFolder n fs dirPath depth tree list_ files out = Some (Return acc, out'))
  /\ (forall fuel dirPath depth tree list_ files out e,
        readdirSync fs dirPath = Throw e ->
        _listSubFolder (S fuel) fs dirPath depth tree list_ files out
        = Some (Return (tree, list_, files), out ++ [ConsoleError e]))
  /\ (forall fuel dirPath depth fileName rest tree list_ files out e,
        starts_with_dot fileName = false ->
        statSync_isDirectory fs (filePath_of dirPath depth fileName) = Return true ->
        readdirSync fs (filePath_of dirPath depth fileName) = Throw e ->
        for_of (descend (S fuel) fs) fs dirPath depth (fileName :: rest) tree list_ files out
        = for_of (descend (S fuel) fs) fs dirPath depth rest
            (<[fileName := JObject ∅]> tree)
            (list_ ++ [Entry.make depth folder fileName dirPath])
            files (out ++ [ConsoleError e])).
Proof.
  split; [intros; apply _listSubFolder_no_throw|].
  split; [intros; apply _listSubFolder_returns; assumption|].
  split.
  - intros fuel dirPath depth tree list_ files out e He.
    rewrite _listSubFolder_step. unfold attempt. rewrite He. reflexivity.
  - intros fuel dirPath depth fileName rest tree list_ files out e Hd Hs He.
    rewrite for_of_folder by assumption.
    unfold descend at 1. rewrite _listSubFolder_step. unfold attempt. rewrite He.
    rewrite app_nil_r. reflexivity.
Qed.

(** C1. In a scan at depth 0 a file of the scanned folder is passed over:
    the loop goes on with the tree, the entry list and the file list as
    they were; the scan ends when folders nest finitely deep, and it
    writes no [false] into the tree, appends no file record of depth 0,
    and appends to the file list only paths that lie below a folder of the
    listing, so never the path of a file of the scanned folder. A scan at
    a depth above 0 ends, and a file that its
    loop comes to is then in the entry list, as the record
    [{depth, type:'file', name, path}], and in the file list, as its path;
    [tree[name]] is [false], except for the name [__proto__], for which the
    assignment writes nothing and the tree holds what it held. The same
    goes for a file one level below the scanned folder, so for a file at
    depth 1 of a scan at depth 0: its record and its path are in the lists
    of that scan, and the object that the tree holds for its folder has
    [false] under its name, or nothing when the name is [__proto__]. *)
Theorem files_only_below_depth_0 (fs : Disk) (dirPath : string) :
  (forall recurse fileName rest tree list_ files out,
      starts_with_dot fileName = false ->
      statSync_isDirectory fs (filePath_of dirPath 0 fileName) = Return false ->
      for_of recurse fs dirPath 0 (fileName :: rest) tree list_ files out
      = for_of recurse fs dirPath 0 rest tree list_ files out)
  /\ (forall fuel tree list_ files out tree' list' files' out',
        _listSubFolder fuel fs dirPath 0 tree list_ files out
          = Some (Return (tree', list', files'), out') ->
        (forall fileName, tree' !! fileName = Some JFalse -> tree !! fileName = Some JFalse)
        /\ exists added addedFiles,
             list' = list_ ++ added /\ files' = files ++ addedFiles
             /\ (forall name path, ~ In (Entry.make 0 file name path) added)
             /\ Forall (found_below fs dirPath 0) addedFiles
             /\ (forall fileName,
                   lacks "/" fileName = true ->
                   statSync_isDirectory fs (filePath_of dirPath 0 fileName) = Return false ->
                   ~ In (filePath_of dirPath 0 fileName) addedFiles))
  /\ (forall n tree list_ files out,
        nested_within fs n dirPath 0 ->
        exists acc out',
          _listSubFolder n fs dirPath 0 tree list_ files out = Some (Return acc, out'))
  /\ (forall n depth pre fileName post tree list_ files out,
        0 < depth ->
        nested_within fs n dirPath depth ->
        readdirSync fs dirPath = Return (pre ++ fileName :: post) ->
        stats_ok fs dirPath depth pre ->
        starts_with_dot fileName = false ->
        statSync_isDirectory fs (filePath_of dirPath depth fileName) = Return false ->
        exists tree' list' files' out',
          _listSubFolder n fs dirPath depth tree list_ files out
            = Some (Return (tree', list', files'), out')
          /\ In (Entry.make depth file fileName dirPath) list'
          /\ In (filePath_of dirPath depth fileName) files'
          /\ (fileName <> "__proto__" -> tree' !! fileName = Some JFalse)
          /\ (fileName = "__proto__" -> tree' !! fileName = tree !! fileName))
  /\ (forall n depth pre folderName post pre' fileName post' tree list_ files out,
        nested_within fs n dirPath depth ->
        readdirSync fs dirPath = Return (pre ++ folderName :: post) ->
        stats_ok fs dirPath depth pre ->
        starts_with_dot folderName = false ->
        statSync_isDirectory fs (filePath_of dirPath depth folderName) = Return true ->
        readdirSync fs (filePath_of dirPath depth folderName)
          = Return (pre' ++ fileName :: post') ->
        stats_ok fs (filePath_of dirPath depth folderName) (depth + 1) pre' ->
        starts_with_dot fileName = false ->
        statSync_isDirectory fs
          (filePath_of (filePath_of dirPath depth folderName) (depth + 1) fileName)
          = Return false ->
        exists tree' list' files' out' subTree,
          _listSubFolder n fs dirPath depth tree list_ files out
            = Some (Return (tree', list', files'), out')
          /\ In (Entry.make (depth + 1) file fileName (filePath_of dirPath depth folderName)) list'
          /\ In (filePath_of (filePath_of dirPath depth folderName) (depth + 1) fileName) files'
          /\ tree' !! folderName = Some (JObject subTree)
          /\ (fileName <> "__proto__" -> subTree !! fileName = Some JFalse)
          /\ (fileName = "__proto__" -> subTree !! fileName = None)).
Proof.
  split.
  { intros recurse fileName rest tree list_ files out Hd Hs.
    rewrite for_of_file by assumption. reflexivity. }
  split.
  { intros fuel tree list_ files out tree' list' files' out' Hr.
    destruct (_listSubFolder_records _ _ _ _ _ _ _ _ _ _ _ _ Hr) as (added & Hl & Hadded).
    destruct (_listSubFolder_paths _ _ _ _ _ _ _ _ _ _ _ _ Hr) as (addedFiles & Hf & Hpaths).
    split.
    - apply _listSubFolder_inv in Hr as (fuel' & acc & o1 & sig & _ & Hacc & Ha & _).
      injection Hacc as <-. unfold attempt in Ha.
      destruct (readdirSync fs dirPath) as [names|e].
      + intros fileName. eapply for_of_top_no_file; [reflexivity|exact Ha].
      + inversion Ha; subst. auto.
    - exists added, addedFiles.
      split; [exact Hl|]. split; [exact Hf|]. split; [|split; [exact Hpaths|]].
      + intros name path Hin.
        rewrite List.Forall_forall in Hadded.
        destruct (Hadded _ Hin) as [_ Hfolder]. discriminate (Hfolder eq_refl).
      + intros fileName Hlacks Hs Hin.
        rewrite List.Forall_forall in Hpaths.
        destruct (Hpaths _ Hin) as (names & _ & name & rest & _ & _ & Hp & Hzero).
        destruct (Hzero eq_refl) as (_ & rest' & ->).
        unfold filePath_of in Hp. simpl (0 <? 0) in Hp. cbv iota in Hp.
        rewrite !append_empty_r, append_assoc in Hp.
        apply append_inj_l in Hp. subst fileName.
        assert (lacks "/" (name +:+ String "/" rest') = false) as Hno.
        { apply lacks_count_false. rewrite count_slashes_append. simpl. lia. }
        congruence. }
  split.
  { intros n tree list_ files out Hnest. apply _listSubFolder_returns, Hnest. }
  split.
  { intros n depth pre fileName post tree list_ files out.
    apply _listSubFolder_records_file. }
  intros n depth pre folderName post pre' fileName post' tree list_ files out
    Hnest Hn Hok Hd Hs Hn' Hok' Hd' Hs'.
  destruct (_listSubFolder_reaches fs n dirPath depth pre folderName post tree list_ files out
              Hnest Hn Hok) as (fuel & tree1 & list1 & files1 & out1 & -> & Hsub & Hpre & Hatt).
  rewrite for_of_folder in Hatt by assumption. unfold descend at 1 in Hatt.
  destruct (_listSubFolder_records_file fs fuel (filePath_of dirPath depth folderName)
              (depth + 1) pre' fileName post' ∅ [] [] out1)
    as (subTree & subList & subFiles & out2 & Hrun & Hin & Hinf & Hfalse & Hproto);
    try assumption; [lia|exact (Hsub folderName (or_introl eq_refl) Hd Hs)|].
  rewrite Hrun in Hatt.
  destruct (for_of_rest_ends fs fuel dirPath depth post
              (fun name Hin => Hsub name (or_intror Hin))
              (<[folderName := JObject subTree]> tree1)
              (list1 ++ Entry.make depth folder folderName dirPath :: subList)
              (files1 ++ subFiles) out2)
    as (tree' & list' & files' & out3 & sig & Hpost).
  rewrite Hpost in Hatt.
  exists tree', list', files',
    (match sig with Done => out3 | Raised err => out3 ++ [ConsoleError err] end), subTree.
  split; [rewrite _listSubFolder_step, Hatt; destruct sig; reflexivity|].
  edestruct for_of_appends as (after & af & Hl & Hf); [exact Hpost|].
  split.
  { rewrite Hl. apply in_or_app. left. apply in_or_app. right. right. exact Hin. }
  split.
  { rewrite Hf. apply in_or_app. left. apply in_or_app. right. exact Hinf. }
  split.
  { eapply for_of_keeps_sub; [|exact Hs|apply lookup_insert_eq|exact Hpost].
    intros o tt tl tf o1 Ho. unfold descend in Ho.
    exact (_listSubFolder_same_tree _ _ _ _ _ _ _ _ _ _ _ _ _ _ Ho Hrun). }
  split; [exact Hfalse|].
  intros Hp. rewrite (Hproto Hp). apply lookup_empty.
Qed.

End WalkerClaims.

(** *** The walker on the small library *)

(** The names of a concrete listing, one by one: those that start with a
    dot and those that are files need no further scan. *)
Ltac each_entry Hin Hd Hs :=
  simpl in Hin;
  repeat (destruct Hin as [<-|Hin]);
  try contradiction;
  try discriminate Hd;
  try (vm_compute in Hs; discriminate Hs).

Lemma wiki_nested : nested_within Snapshot.wiki 3 "/w/library/" 0.
Proof.
  apply (nested_listing _ _ _ _ ["home-wiki.md"; ".git"; "01-intro"]); [reflexivity|].
  intros fileName Hin Hd Hs. each_entry Hin Hd Hs.
  apply (nested_listing _ _ _ _ ["001-start.md"; ".draft"; "img"]); [reflexivity|].
  intros fileName Hin Hd' Hs'. each_entry Hin Hd' Hs'.
  apply (nested_listing _ _ _ _ ["logo.png"]); [reflexivity|].
  intros fileName Hin Hd'' Hs''. each_entry Hin Hd'' Hs''.
Defined.

Lemma quirk_nested : nested_within Snapshot.quirk 2 "/q/library/" 0.
Proof.
  apply (nested_listing _ _ _ _ ["home-q.md"; "__proto__"; "01-a"]); [reflexivity|].
  intros fileName Hin Hd Hs. each_entry Hin Hd Hs.
  - apply (nested_listing _ _ _ _ ["y.md"]); [reflexivity|].
    intros fileName Hin Hd' Hs'. each_entry Hin Hd' Hs'.
  - apply (nested_listing _ _ _ _ ["__proto__"; "x.md"]); [reflexivity|].
    intros fileName Hin Hd' Hs'. each_entry Hin Hd' Hs'.
Defined.

(** [stat] answers for the names of a concrete listing. *)
Ltac each_stat :=
  let name := fresh "name" in
  let Hin := fresh "Hin" in
  intros name Hin _; simpl in Hin;
  repeat (destruct Hin as [<-|Hin]); try contradiction;
  eexists; vm_compute; reflexivity.

(** The library with entries named [__proto__], scanned at depth 0: the
    file [home-q.md] at the top is passed over and the tree holds no
    [false]; in the folder [01-a] the file [x.md] is recorded in all three
    results, and the file [__proto__] is in the entry list and in the file
    list, but the tree of [01-a] holds nothing under its name. *)
Lemma files_only_below_depth_0_witness :
  (forall fileName,
      tree_of (_listSubFolder 2 Snapshot.quirk "/q/library/" 0 ∅ [] [] []) !! fileName
      <> Some JFalse)
  /\ exists subTree,
       tree_of (_listSubFolder 2 Snapshot.quirk "/q/library/" 0 ∅ [] [] []) !! "01-a"
       = Some (JObject subTree)
       /\ subTree !! "__proto__" = None
       /\ In (Entry.make 1 file "__proto__" "/q/library/01-a")
            (list_of (_listSubFolder 2 Snapshot.quirk "/q/library/" 0 ∅ [] [] []))
       /\ In "/q/library/01-a/__proto__"
            (files_of (_listSubFolder 2 Snapshot.quirk "/q/library/" 0 ∅ [] [] []))
       /\ tree_of (_listSubFolder 1 Snapshot.quirk "/q/library/01-a" 1 ∅ [] [] []) !! "x.md"
          = Some JFalse
       /\ In (Entry.make 1 file "x.md" "/q/library/01-a")
            (list_of (_listSubFolder 1 Snapshot.quirk "/q/library/01-a" 1 ∅ [] [] [])).
Proof.
  destruct (files_only_below_depth_0 Snapshot.quirk "/q/library/")
    as (_ & Htop & _ & _ & Hbelow).
  destruct (files_only_below_depth_0 Snapshot.quirk "/q/library/01-a")
    as (_ & _ & _ & Hrec & _).
  split.
  - intros fileName Hf.
    set (r := _listSubFolder 2 Snapshot.quirk "/q/library/" 0 ∅ [] [] []) in *.
    destruct (Htop 2 ∅ [] [] [] (tree_of r) (list_of r) (files_of r) (console_of r))
      as [Hno _]; [vm_compute; reflexivity|].
    specialize (Hno fileName Hf). rewrite lookup_empty in Hno. discriminate.
  - destruct (Hbelow 2 0 ["home-q.md"; "__proto__"] "01-a" [] [] "__proto__" ["x.md"] ∅ [] [] [])
      as (tree' & list' & files' & out' & subTree & Hrun & Hin & Hinf & Hsub & _ & Hp);
      [exact quirk_nested|reflexivity|each_stat|reflexivity|reflexivity|reflexivity
      |each_stat|reflexivity|reflexivity|].
    destruct (Hrec 1 1 ["__proto__"] "x.md" [] ∅ [] [] [])
      as (tree2 & list2 & files2 & out2 & Hrun2 & Hin2 & _ & Hx & _);
      [lia| |reflexivity|each_stat|reflexivity|reflexivity|].
    { apply (nested_listing _ _ _ _ ["__proto__"; "x.md"]); [reflexivity|].
      intros fileName Hi Hd' Hs'. each_entry Hi Hd' Hs'. }
    rewrite Hrun, Hrun2. exists subTree.
    split; [exact Hsub|]. split; [exact (Hp eq_refl)|]. split; [exact Hin|].
    split; [exact Hinf|]. split; [apply Hx; discriminate|exact Hin2].
Defined.

(** The whole scan of that library. The tree of [01-a] holds [x.md]
    only; the tree of the folder [__proto__] is the prototype of the
    tree, which has [01-a] as its one own property. *)
Example scan_of_the_quirk_library :
  _listSubFolder 2 Snapshot.quirk "/q/library/" 0 ∅ [] [] []
  = Some (Return (<["01-a" := JObject {[ "x.md" := JFalse ]}]>
                    {[ "__proto__" := JObject {[ "y.md" := JFalse ]} ]},
                  [Entry.make 0 folder "__proto__" "/q/library/";
                   Entry.make 1 file "y.md" "/q/library/__proto__";
                   Entry.make 0 folder "01-a" "/q/library/";
                   Entry.make 1 file "__proto__" "/q/library/01-a";
                   Entry.make 1 file "x.md" "/q/library/01-a"],
                  ["/q/library/__proto__/y.md";
                   "/q/library/01-a/__proto__";
                   "/q/library/01-a/x.md"]), []).
Proof. vm_compute. reflexivity. Qed.

(** In the library [.git] is passed over, and a folder with hidden entries
    only gives three empty results. *)
Lemma hidden_entries_are_skipped_witness :
  for_of (descend 2 Snapshot.wiki) Snapshot.wiki "/w/library/" 0 [".git"; "01-intro"] ∅ [] [] []
  = for_of (descend 2 Snapshot.wiki) Snapshot.wiki "/w/library/" 0 ["01-intro"] ∅ [] [] []
  /\ for_of (descend 2 Snapshot.wiki) Snapshot.wiki "/w/library/" 0 [".git"; "01-intro"] ∅ [] [] []
     = for_of (descend 2 Snapshot.wiki_git_file) Snapshot.wiki_git_file "/w/library/" 0
         [".git"; "01-intro"] ∅ [] [] []
  /\ _listSubFolder 1 Snapshot.hidden_only "/h/" 0 ∅ [] [] [] = Some (Return (∅, [], []), []).
Proof.
  destruct (hidden_entries_are_skipped Snapshot.wiki "/w/library/" 0) as (Hstep & _ & Hframe & _).
  destruct (hidden_entries_are_skipped Snapshot.hidden_only "/h/" 0) as (_ & _ & _ & Hempty).
  split; [apply Hstep; reflexivity|]. split.
  - apply Hframe. intros fileName Hin Hd.
    simpl in Hin. destruct Hin as [<-|[<-|[]]]; [discriminate Hd|].
    split; [reflexivity|]. intros o. vm_compute. reflexivity.
  - apply (Hempty 0 [".git"; ".DS_Store"]); reflexivity.
Defined.

(** The scan of the small library at depth 0: the record of [01-intro],
    then the entries of [01-intro] as its own scan gives them, the record
    of [img] among them right before the entry of [img]. *)
Lemma folder_record_then_its_entries_witness :
  list_of (_listSubFolder 3 Snapshot.wiki "/w/library/" 0 ∅ [] [] [])
  = Entry.make 0 folder "01-intro" "/w/library/"
    :: list_of (_listSubFolder 2 Snapshot.wiki "/w/library/01-intro" 1 ∅ [] [] [])
  /\ list_of (_listSubFolder 2 Snapshot.wiki "/w/library/01-intro" 1 ∅ [] [] [])
     = [Entry.make 1 file "001-start.md" "/w/library/01-intro";
        Entry.make 1 folder "img" "/w/library/01-intro";
        Entry.make 2 file "logo.png" "/w/library/01-intro/img"].
Proof.
  destruct (folder_record_then_its_entries Snapshot.wiki "/w/library/" 0 3
              ["home-wiki.md"; ".git"] "01-intro" [] ∅ [] [] [])
    as (fuel & tree1 & list1 & files1 & out1 & before & subTree & subList & subFiles & out2
        & after & tree' & list' & files' & out' & out3 & sig
        & Hfuel & Hpre & Hb & Hsub & Hpost & Hrun & Hl);
    [exact wiki_nested|reflexivity|each_stat|reflexivity|reflexivity|].
  injection Hfuel as <-.
  vm_compute in Hpre. injection Hpre as <- <- <- <-.
  change (filePath_of "/w/library/" 0 "01-intro") with "/w/library/01-intro" in Hsub.
  change (0 + 1) with 1 in Hsub.
  simpl in Hpost. injection Hpost as _ Hlist _ _ _.
  rewrite Hrun, Hsub. simpl list_of.
  split; [symmetry; exact Hlist|].
  vm_compute in Hsub. injection Hsub as _ <- _ _. reflexivity.
Defined.

(** The scan of the small library comes back; a folder that may not be
    listed gives back what it was given and prints the error. *)
Lemma walker_never_raises_witness :
  (exists acc out', _listSubFolder 3 Snapshot.wiki "/w/library/" 0 ∅ [] [] [] = Some (Return acc, out'))
  /\ _listSubFolder 1 Snapshot.dangling "/d/sub" 1 ∅ [] [] []
     = Some (Return (∅, [], []), [ConsoleError (FsError "EACCES")]).
Proof.
  destruct (walker_never_raises Snapshot.wiki) as (_ & Hreturns & _).
  destruct (walker_never_raises Snapshot.dangling) as (_ & _ & Hread & _).
  split.
  - apply Hreturns. exact wiki_nested.
  - apply (Hread 0 "/d/sub" 1 ∅ [] [] [] (FsError "EACCES")). reflexivity.
Defined.

(** ** [readLibraryTree] *)

Section LibraryTree.

Context {Disk : Type} `{FileSystem Disk}.

Lemma literal_append needle rest : literal needle (needle +:+ rest) = Some rest.
Proof.
  induction needle as [|c needle IH]; [reflexivity|].
  rewrite append_cons. simpl. unfold is_char. rewrite Ascii.eqb_refl. exact IH.
Qed.

Lemma literal_some needle s rest : literal needle s = Some rest -> s = needle +:+ rest.
Proof.
  revert s. induction needle as [|c needle IH]; intros s Hs.
  - simpl in Hs. injection Hs as ->. reflexivity.
  - destruct s as [|d s]; [discriminate|]. simpl in Hs.
    destruct (is_char d c) eqn:Hc; [|discriminate].
    apply is_char_true in Hc. subst d. rewrite append_cons. f_equal. apply IH, Hs.
Qed.

Lemma test_step m s :
  test m s = match m s with
             | Some _ => true
             | None => match s with EmptyString => false | String _ r => test m r end
             end.
Proof. destruct s; reflexivity. Qed.

Lemma library_separator_end_some s rest :
  library_separator_end s = Some rest ->
  exists c, s = "library" +:+ String c "" /\ is_separator c = true.
Proof.
  unfold library_separator_end. intros Hs.
  destruct (literal "library" s) as [[|c [|d r]]|] eqn:Hl; try discriminate.
  destruct (is_separator c) eqn:Hc; [|discriminate].
  exists c. split; [exact (literal_some _ _ _ Hl)|exact Hc].
Qed.

(** [/library[\\\/]$/] accepts the paths that end with [library] and one
    separator. *)
Lemma test_library_separator_end s :
  test library_separator_end s = true <->
  exists pre c, s = pre +:+ "library" +:+ String c "" /\ is_separator c = true.
Proof.
  split.
  - induction s as [|x s IH]; rewrite test_step.
    + destruct (library_separator_end "") eqn:Hm; [|discriminate].
      intros _. destruct (library_separator_end_some _ _ Hm) as (c & Hs & Hc).
      exists "", c. split; [exact Hs|exact Hc].
    + destruct (library_separator_end (String x s)) eqn:Hm.
      * intros _. destruct (library_separator_end_some _ _ Hm) as (c & Hs & Hc).
        exists "", c. split; [exact Hs|exact Hc].
      * intros Ht. destruct (IH Ht) as (pre & c & -> & Hc).
        exists (String x pre), c. split; [reflexivity|exact Hc].
  - intros (pre & c & -> & Hc).
    induction pre as [|x pre IH]; rewrite test_step.
    + rewrite append_empty_l. unfold library_separator_end.
      rewrite literal_append, Hc. reflexivity.
    + rewrite append_cons.
      destruct (library_separator_end (String x (pre +:+ "library" +:+ String c ""))); [reflexivity|].
      exact IH.
Qed.

Lemma ends_with_separator_append s c :
  Spec.ends_with_separator (s +:+ String c "") = is_separator c.
Proof.
  induction s as [|d s IH]; [reflexivity|].
  rewrite append_cons. simpl.
  destruct (s +:+ String c "") eqn:Hs; [destruct s; discriminate|exact IH].
Qed.

Lemma library_path_ends_with_separator s :
  test library_separator_end s = true -> Spec.ends_with_separator s = true.
Proof.
  intros Ht. apply test_library_separator_end in Ht as (pre & c & -> & Hc).
  rewrite <- append_assoc, ends_with_separator_append. exact Hc.
Qed.

(** A home page is not named [__proto__], so [tree[fileName] = false]
    writes the key. *)
Lemma assign_home fileName (tree : gmap string node) :
  is_home_name fileName = true -> assign fileName JFalse tree = <[fileName := JFalse]> tree.
Proof. intros Hh. apply assign_false. intros ->. discriminate Hh. Qed.

(** The tree [readLibraryTree] starts from holds the first name of the
    listing that is a home page, and nothing else. *)
Lemma seed_home_first names :
  (seed_home names ∅ = ∅ /\ forall n, In n names -> is_home_name n = false)
  \/ exists pre n post,
       names = pre ++ n :: post /\ is_home_name n = true
       /\ (forall m, In m pre -> is_home_name m = false)
       /\ seed_home names ∅ = {[ n := JFalse ]}.
Proof.
  induction names as [|fileName names IH].
  - left. split; [reflexivity|]. intros n [].
  - simpl. fold (is_home_name fileName). destruct (is_home_name fileName) eqn:Hh.
    + right. exists [], fileName, names. repeat split; try assumption.
      * intros m [].
      * apply assign_home, Hh.
    + destruct IH as [[He Hall]|(pre & n & post & -> & Hn & Hpre & Hs)].
      * left. split; [exact He|]. intros n [<-|Hin]; [exact Hh|exact (Hall n Hin)].
      * right. exists (fileName :: pre), n, post. repeat split; try assumption.
        intros m [<-|Hin]; [exact Hh|exact (Hpre m Hin)].
Qed.

(** C6, as the code has it. [readLibraryTree] accepts the paths that end
    with the characters [library] and one separator, ['/'] or ['\'],
    whatever stands before them. For any other path it prints a warning
    and gives back the empty array. For a path it accepts, whose listing
    can be read, it starts from a tree that holds the first name of the
    listing that matches [/^home[-_].*?\.md$/] or is ["首页.md"], set to
    [false], or from the empty tree when no name does, and hands back
    what the walker gives at depth 0 from that tree. *)
Theorem readLibraryTree_spec (fuel : nat) (fs : Disk) (path : string) (out : console) :
  (test library_separator_end path = true <->
   exists pre c, path = pre +:+ "library" +:+ String c "" /\ is_separator c = true)
  /\ (test library_separator_end path = false ->
      readLibraryTree fuel fs path out
      = Some (Return EmptyArray, out ++ [ConsoleWarn "The path is not a library."]))
  /\ (forall names,
        test library_separator_end path = true ->
        readdirSync fs path = Return names ->
        readLibraryTree fuel fs path out
        = handed_on (_listSubFolder fuel fs path 0 (seed_home names ∅) [] [] out)
        /\ ((seed_home names ∅ = ∅ /\ forall n, In n names -> is_home_name n = false)
            \/ exists pre n post,
                 names = pre ++ n :: post /\ is_home_name n = true
                 /\ (forall m, In m pre -> is_home_name m = false)
                 /\ seed_home names ∅ = {[ n := JFalse ]})).
Proof.
  split; [apply test_library_separator_end|]. split.
  - intros Ht. unfold readLibraryTree. rewrite Ht. reflexivity.
  - intros names Ht Hn. split; [|apply seed_home_first].
    unfold readLibraryTree. rewrite Ht, Hn. simpl negb. cbv iota.
    destruct (_listSubFolder fuel fs path 0 (seed_home names ∅) [] [] out) as [[[r|e] o]|];
      reflexivity.
Qed.

(** C10. The path of an entry is the folder path and the name, with ['/']
    between them only at a depth above 0. A scan of a folder at a depth
    works with that path for each entry its loop comes to: when [stat]
    fails there, the scan ends with that error on the console; when a
    folder is there, the scan of that path, one level deeper, gives the
    entries that follow the record of the folder and the paths that are
    appended to the file list; when a file is there, at a depth above 0,
    that path is appended to the file list. At depth 0 the path names the
    entry of the folder exactly when the folder path ends with a
    separator; above depth 0 it always does. [readLibraryTree] hands the
    path it is given to the walker, at depth 0 and as it is, and only a
    path that ends with a separator. *)
Theorem child_path_needs_separator (fs : Disk) (dirPath : string) :
  (forall depth fileName,
      filePath_of dirPath depth fileName
      = if 0 <? depth then dirPath +:+ "/" +:+ fileName else dirPath +:+ fileName)
  /\ (forall n depth pre fileName post tree list_ files out,
        nested_within fs n dirPath depth ->
        readdirSync fs dirPath = Return (pre ++ fileName :: post) ->
        stats_ok fs dirPath depth pre ->
        starts_with_dot fileName = false ->
        exists fuel tree1 list1 files1 out1,
          n = S fuel
          /\ for_of (descend fuel fs) fs dirPath depth pre tree list_ files out
             = Some ((tree1, list1, files1), out1, Done)
          /\ (forall e,
                statSync_isDirectory fs (filePath_of dirPath depth fileName) = Throw e ->
                _listSubFolder n fs dirPath depth tree list_ files out
                = Some (Return (tree1, list1, files1), out1 ++ [ConsoleError e]))
          /\ (statSync_isDirectory fs (filePath_of dirPath depth fileName) = Return true ->
              exists subTree subList subFiles out2 tree' list' files' out' afterList afterFiles,
                _listSubFolder fuel fs (filePath_of dirPath depth fileName) (depth + 1)
                  ∅ [] [] out1
                = Some (Return (subTree, subList, subFiles), out2)
                /\ _listSubFolder n fs dirPath depth tree list_ files out
                   = Some (Return (tree', list', files'), out')
                /\ list' = list1 ++ Entry.make depth folder fileName dirPath
                                    :: subList ++ afterList
                /\ files' = files1 ++ subFiles ++ afterFiles)
          /\ (statSync_isDirectory fs (filePath_of dirPath depth fileName) = Return false ->
              0 < depth ->
              exists tree' list' files' out' afterList afterFiles,
                _listSubFolder n fs dirPath depth tree list_ files out
                = Some (Return (tree', list', files'), out')
                /\ list' = list1 ++ Entry.make depth file fileName dirPath :: afterList
                /\ files' = files1 ++ filePath_of dirPath depth fileName :: afterFiles))
  /\ (forall fileName,
        Spec.names_child dirPath fileName (filePath_of dirPath 0 fileName)
        <-> Spec.ends_with_separator dirPath = true)
  /\ (forall depth fileName,
        0 < depth -> Spec.names_child dirPath fileName (filePath_of dirPath depth fileName))
  /\ (forall fuel out names,
        test library_separator_end dirPath = true ->
        readdirSync fs dirPath = Return names ->
        readLibraryTree fuel fs dirPath out
        = handed_on (_listSubFolder fuel fs dirPath 0 (seed_home names ∅) [] [] out))
  /\ (forall fuel out r out',
        readLibraryTree fuel fs dirPath out = Some (Return (Scanned r), out') ->
        Spec.ends_with_separator dirPath = true).
Proof.
  split.
  { intros depth fileName. unfold filePath_of.
    destruct (0 <? depth); [apply append_assoc|rewrite append_empty_r; reflexivity]. }
  split.
  { intros n depth pre fileName post tree list_ files out Hnest Hn Hok Hd.
    destruct (_listSubFolder_reaches fs n dirPath depth pre fileName post tree list_ files out
                Hnest Hn Hok) as (fuel & tree1 & list1 & files1 & out1 & -> & Hsub & Hpre & Hatt).
    exists fuel, tree1, list1, files1, out1.
    split; [reflexivity|]. split; [exact Hpre|]. split; [|split].
    - intros e Hs.
      rewrite _listSubFolder_step, Hatt, (for_of_stat_fails _ _ _ _ _ _ _ _ _ _ e)
        by assumption. reflexivity.
    - intros Hs. rewrite for_of_folder in Hatt by assumption. unfold descend at 1 in Hatt.
      destruct (_listSubFolder_returns _ _ _ _ (Hsub fileName (or_introl eq_refl) Hd Hs)
                  ∅ [] [] out1) as ([[subTree subList] subFiles] & out2 & Hrun).
      rewrite Hrun in Hatt.
      destruct (for_of_rest_ends fs fuel dirPath depth post
                  (fun name Hin => Hsub name (or_intror Hin))
                  (<[fileName := JObject subTree]> tree1)
                  (list1 ++ Entry.make depth folder fileName dirPath :: subList)
                  (files1 ++ subFiles) out2)
        as (tree' & list' & files' & out3 & sig & Hpost).
      rewrite Hpost in Hatt.
      edestruct for_of_appends as (after & af & Hl & Hf); [exact Hpost|].
      exists subTree, subList, subFiles, out2, tree', list', files',
        (match sig with Done => out3 | Raised err => out3 ++ [ConsoleError err] end), after, af.
      split; [exact Hrun|].
      split; [rewrite _listSubFolder_step, Hatt; destruct sig; reflexivity|].
      split; [rewrite Hl, <- app_assoc; reflexivity|rewrite Hf, <- app_assoc; reflexivity].
    - intros Hs Hk. rewrite for_of_file in Hatt by assumption.
      replace (0 <? depth) with true in Hatt by (symmetry; apply Nat.ltb_lt; exact Hk).
      destruct (for_of_rest_ends fs fuel dirPath depth post
                  (fun name Hin => Hsub name (or_intror Hin))
                  (assign fileName JFalse tree1)
                  (list1 ++ [Entry.make depth file fileName dirPath])
                  (files1 ++ [filePath_of dirPath depth fileName]) out1)
        as (tree' & list' & files' & out3 & sig & Hpost).
      rewrite Hpost in Hatt.
      edestruct for_of_appends as (after & af & Hl & Hf); [exact Hpost|].
      exists tree', list', files',
        (match sig with Done => out3 | Raised err => out3 ++ [ConsoleError err] end), after, af.
      split; [rewrite _listSubFolder_step, Hatt; destruct sig; reflexivity|].
      split; [rewrite Hl, <- app_assoc; reflexivity|rewrite Hf, <- app_assoc; reflexivity]. }
  split.
  { intros fileName. unfold filePath_of. simpl (0 <? 0). cbv iota. rewrite append_empty_r.
    split.
    - intros [[He _]|(c & _ & Hp)]; [exact He|].
      apply (f_equal String.length) in Hp. rewrite !length_append in Hp. simpl in Hp. lia.
    - intros He. left. split; [exact He|reflexivity]. }
  split.
  { intros depth fileName Hk. right. exists "/"%char. split; [reflexivity|].
    unfold filePath_of.
    replace (0 <? depth) with true by (symmetry; apply Nat.ltb_lt; exact Hk).
    apply append_assoc. }
  split.
  { intros fuel out names Ht Hn. unfold readLibraryTree. rewrite Ht, Hn. simpl negb. cbv iota.
    destruct (_listSubFolder fuel fs dirPath 0 (seed_home names ∅) [] [] out) as [[[r|e] o]|];
      reflexivity. }
  intros fuel out r out' Hr.
  apply library_path_ends_with_separator.
  unfold readLibraryTree in Hr.
  destruct (test library_separator_end dirPath); [reflexivity|]. simpl in Hr. discriminate.
Qed.

End LibraryTree.

(** The library of the small disk is scanned from a tree that holds
    [home-wiki.md]; a path that does not end with [library/] is turned
    down. *)
Lemma readLibraryTree_spec_witness :
  readLibraryTree 3 Snapshot.wiki "/w/lib" []
  = Some (Return EmptyArray, [ConsoleWarn "The path is not a library."])
  /\ readLibraryTree 3 Snapshot.wiki "/w/library/" []
     = handed_on (_listSubFolder 3 Snapshot.wiki "/w/library/" 0 {[ "home-wiki.md" := JFalse ]} [] [] [])
  /\ exists pre c, "/w/library/" = pre +:+ "library" +:+ String c "" /\ is_separator c = true.
Proof.
  destruct (readLibraryTree_spec 3 Snapshot.wiki "/w/lib" []) as (_ & Hwarn & _).
  destruct (readLibraryTree_spec 3 Snapshot.wiki "/w/library/" []) as (Hiff & _ & Hscan).
  split; [apply Hwarn; reflexivity|]. split.
  - destruct (Hscan ["home-wiki.md"; ".git"; "01-intro"]) as [Hr _]; [reflexivity|reflexivity|].
    exact Hr.
  - apply Hiff. reflexivity.
Defined.

(** C6, as the specification states it, fails. The last segment of
    ["/mylibrary/"] is not [library], and the path is scanned all the same;
    ["/x/library/"] ends in the segment [library], and when that folder
    cannot be read the error is raised where the specification has a scan. *)
Lemma readLibraryTree_accepts_mylibrary :
  Spec.ends_in_library_segment "/mylibrary/" = false
  /\ readLibraryTree 1 Snapshot.dangling "/mylibrary/" [] = Some (Return (Scanned (∅, [], [])), [])
  /\ Spec.ends_in_library_segment "/x/library/" = true
  /\ readLibraryTree 1 Snapshot.dangling "/x/library/" [] = Some (Throw (FsError "ENOENT"), [])
  /\ _listSubFolder 1 Snapshot.dangling "/x/library/" 0 ∅ [] [] []
     = Some (Return (∅, [], []), [ConsoleError (FsError "ENOENT")]).
Proof. repeat split; vm_compute; reflexivity. Qed.

(** On the small disks: from the root ["/w/library/"] the folder
    [01-intro] is scanned as ["/w/library/01-intro"], and what that scan
    gives is in the results; from the root ["/d"], which has no separator
    at its end, the file [a.md] is looked for as ["/da.md"], which is not
    there, and the scan ends with that error. *)
Lemma child_path_needs_separator_witness :
  filePath_of "/w/library/" 0 "01-intro" = "/w/library/01-intro"
  /\ filePath_of "/d" 0 "a.md" = "/da.md"
  /\ Spec.names_child "/w/library/" "01-intro" (filePath_of "/w/library/" 0 "01-intro")
  /\ ~ Spec.names_child "/d" "a.md" (filePath_of "/d" 0 "a.md")
  /\ Spec.names_child "/w/library/01-intro" "img" (filePath_of "/w/library/01-intro" 1 "img")
  /\ _listSubFolder 1 Snapshot.dangling "/d" 0 ∅ [] [] []
     = Some (Return (∅, [], []), [ConsoleError (FsError "ENOENT")])
  /\ (exists afterFiles,
        files_of (_listSubFolder 3 Snapshot.wiki "/w/library/" 0 ∅ [] [] [])
        = files_of (_listSubFolder 2 Snapshot.wiki "/w/library/01-intro" 1 ∅ [] [] [])
          ++ afterFiles)
  /\ (exists afterFiles,
        files_of (_listSubFolder 2 Snapshot.wiki "/w/library/01-intro" 1 ∅ [] [] [])
        = "/w/library/01-intro/001-start.md" :: afterFiles)
  /\ readLibraryTree 3 Snapshot.wiki "/w/library/" []
     = handed_on (_listSubFolder 3 Snapshot.wiki "/w/library/" 0
                    (seed_home ["home-wiki.md"; ".git"; "01-intro"] ∅) [] [] [])
  /\ Spec.ends_with_separator "/w/library/" = true.
Proof.
  destruct (child_path_needs_separator Snapshot.wiki "/w/library/")
    as (Hp1 & Hwalk1 & Hc1 & _ & Hhand & Hlib).
  destruct (child_path_needs_separator Snapshot.dangling "/d") as (Hp2 & Hwalk2 & Hc2 & _).
  destruct (child_path_needs_separator Snapshot.wiki "/w/library/01-intro")
    as (_ & Hwalk3 & _ & Hc3 & _).
  split; [rewrite Hp1; reflexivity|].
  split; [rewrite Hp2; reflexivity|].
  split; [apply Hc1; reflexivity|].
  split; [intros Hn; apply Hc2 in Hn; discriminate Hn|].
  split; [apply Hc3; lia|].
  split.
  { destruct (Hwalk2 1 0 [] "a.md" ["ghost"; "b.md"] ∅ [] [] [])
      as (fuel & tree1 & list1 & files1 & out1 & _ & Hpre & Hthrow & _);
      [|reflexivity|each_stat|reflexivity|].
    - apply (nested_listing _ _ _ _ ["a.md"; "ghost"; "b.md"]); [reflexivity|].
      intros fileName Hin Hd Hs. each_entry Hin Hd Hs.
    - simpl in Hpre. injection Hpre as <- <- <- <-.
      apply (Hthrow (FsError "ENOENT")). reflexivity. }
  split.
  { destruct (Hwalk1 3 0 ["home-wiki.md"; ".git"] "01-intro" [] ∅ [] [] [])
      as (fuel & tree1 & list1 & files1 & out1 & Hfuel & Hpre & _ & Hfolder & _);
      [exact wiki_nested|reflexivity|each_stat|reflexivity|].
    injection Hfuel as <-.
    vm_compute in Hpre. injection Hpre as <- <- <- <-.
    destruct (Hfolder eq_refl)
      as (subTree & subList & subFiles & out2 & tree' & list' & files' & out' & afterList
          & afterFiles & Hsub & Hrun & _ & Hf).
    change (filePath_of "/w/library/" 0 "01-intro") with "/w/library/01-intro" in Hsub.
    change (0 + 1) with 1 in Hsub.
    rewrite Hrun, Hsub. exists afterFiles. exact Hf. }
  split.
  { destruct (Hwalk3 2 1 [] "001-start.md" [".draft"; "img"] ∅ [] [] [])
      as (fuel & tree1 & list1 & files1 & out1 & _ & Hpre & _ & _ & Hfile);
      [|reflexivity|each_stat|reflexivity|].
    - apply (nested_listing _ _ _ _ ["001-start.md"; ".draft"; "img"]); [reflexivity|].
      intros fileName Hin Hd Hs. each_entry Hin Hd Hs.
      apply (nested_listing _ _ _ _ ["logo.png"]); [reflexivity|].
      intros fileName Hin Hd' Hs'. each_entry Hin Hd' Hs'.
    - simpl in Hpre. injection Hpre as <- <- <- <-.
      destruct (Hfile eq_refl) as (tree' & list' & files' & out' & afterList & afterFiles
                                   & Hrun & _ & Hf); [lia|].
      rewrite Hrun. exists afterFiles. exact Hf. }
  split; [apply Hhand; reflexivity|].
  apply (Hlib 3 [] (tree_of (_listSubFolder 3 Snapshot.wiki "/w/library/" 0 {[ "home-wiki.md" := JFalse ]} [] [] []),
                    list_of (_listSubFolder 3 Snapshot.wiki "/w/library/" 0 {[ "home-wiki.md" := JFalse ]} [] [] []),
                    files_of (_listSubFolder 3 Snapshot.wiki "/w/library/" 0 {[ "home-wiki.md" := JFalse ]} [] [] []))
               []).
  vm_compute. reflexivity.
Defined.

(** ** [cleanFolder] and [createFolder] *)

Section Unguarded.

Context {Disk : Type} `{FileSystem Disk}.

Lemma clean_items_app recurse path pre rest (fs : Disk) :
  clean_items recurse path (pre ++ rest) fs =
  match clean_items recurse path pre fs with
  | Some (fs1, Return _) => clean_items recurse path rest fs1
  | other => other
  end.
Proof.
  revert fs. induction pre as [|item pre IH]; intros fs; [reflexivity|].
  simpl.
  destruct (statSync_isDirectory fs (replace separator_ampersand "/" path +:+ item))
    as [[|]|e]; [| |reflexivity].
  - destruct (negb (starts_with_dot item)); [|apply IH].
    destruct (recurse fs _) as [[fs1 [[]|e]]|]; [|reflexivity|reflexivity].
    destruct (rmdirSync fs1 _) as [fs2|e]; [apply IH|reflexivity].
  - destruct (unlinkSync fs _) as [fs1|e]; [apply IH|reflexivity].
Qed.

Lemma cleanFolder_step fuel (fs : Disk) path :
  cleanFolder (S fuel) fs path =
  match readdirSync fs path with
  | Throw e => Some (fs, Throw e)
  | Return items => clean_items (cleanFolder fuel) path items fs
  end.
Proof. reflexivity. Qed.

(** C5, as the code has it. In the walker the [try] block holds the [stat]
    calls too: a [stat] that fails ends the loop, the error is printed and
    the accumulators come back as the loop left them. Outside the walker
    nothing is guarded: in [cleanFolder] a failed [readdir], [stat],
    [unlink] or [rmdir], and in [createFolder] a failed [mkdir], is raised
    to the caller, through the recursive calls, with the disk as it was
    when the call failed. *)
Theorem only_the_walker_guards_its_calls (fs : Disk) :
  (forall fuel dirPath depth pre fileName post tree list_ files out acc1 out1 e,
      readdirSync fs dirPath = Return (pre ++ fileName :: post) ->
      for_of (descend fuel fs) fs dirPath depth pre tree list_ files out
        = Some (acc1, out1, Done) ->
      starts_with_dot fileName = false ->
      statSync_isDirectory fs (filePath_of dirPath depth fileName) = Throw e ->
      _listSubFolder (S fuel) fs dirPath depth tree list_ files out
      = Some (Return acc1, out1 ++ [ConsoleError e]))
  /\ (forall fuel path e,
        readdirSync fs path = Throw e -> cleanFolder (S fuel) fs path = Some (fs, Throw e))
  /\ (forall fuel path pre item post fs1 e,
        readdirSync fs path = Return (pre ++ item :: post) ->
        clean_items (cleanFolder fuel) path pre fs = Some (fs1, Return tt) ->
        (statSync_isDirectory fs1 (replace separator_ampersand "/" path +:+ item) = Throw e ->
         cleanFolder (S fuel) fs path = Some (fs1, Throw e))
        /\ (statSync_isDirectory fs1 (replace separator_ampersand "/" path +:+ item) = Return false ->
            unlinkSync fs1 (replace separator_ampersand "/" path +:+ item) = Throw e ->
            cleanFolder (S fuel) fs path = Some (fs1, Throw e))
        /\ (forall fs2,
            statSync_isDirectory fs1 (replace separator_ampersand "/" path +:+ item) = Return true ->
            starts_with_dot item = false ->
            cleanFolder fuel fs1 (replace separator_ampersand "/" path +:+ item)
              = Some (fs2, Return tt) ->
            rmdirSync fs2 (replace separator_ampersand "/" path +:+ item) = Throw e ->
            cleanFolder (S fuel) fs path = Some (fs2, Throw e))
        /\ (forall fs2,
            statSync_isDirectory fs1 (replace separator_ampersand "/" path +:+ item) = Return true ->
            starts_with_dot item = false ->
            cleanFolder fuel fs1 (replace separator_ampersand "/" path +:+ item)
              = Some (fs2, Throw e) ->
            cleanFolder (S fuel) fs path = Some (fs2, Throw e)))
  /\ (forall fuel p e,
        existsSync_of fs (getParentFolder p) = true ->
        existsSync fs p = false ->
        mkdirSync fs p = Throw e ->
        createFolder (S fuel) fs (Some p) = Some (fs, Throw e))
  /\ (forall fuel p fs1 e,
        existsSync_of fs (getParentFolder p) = false ->
        createFolder fuel fs (getParentFolder p) = Some (fs1, Throw e) ->
        createFolder (S fuel) fs (Some p) = Some (fs1, Throw e)).
Proof.
  split.
  { intros fuel dirPath depth pre fileName post tree list_ files out acc1 out1 e Hn Hpre Hd Hs.
    rewrite _listSubFolder_step. unfold attempt.
    rewrite Hn, for_of_app, Hpre. destruct acc1 as [[tree1 list1] files1].
    rewrite for_of_stat_fails with (e := e) by assumption. reflexivity. }
  split.
  { intros fuel path e He. rewrite cleanFolder_step, He. reflexivity. }
  split.
  { intros fuel path pre item post fs1 e Hn Hpre.
    repeat split.
    - intros Hs. rewrite cleanFolder_step, Hn, clean_items_app, Hpre. simpl. rewrite Hs. reflexivity.
    - intros Hs Hu. rewrite cleanFolder_step, Hn, clean_items_app, Hpre. simpl.
      rewrite Hs, Hu. reflexivity.
    - intros fs2 Hs Hd Hc Hr. rewrite cleanFolder_step, Hn, clean_items_app, Hpre. simpl.
      rewrite Hs, Hd, Hc. simpl. rewrite Hr. reflexivity.
    - intros fs2 Hs Hd Hc. rewrite cleanFolder_step, Hn, clean_items_app, Hpre. simpl.
      rewrite Hs, Hd, Hc. reflexivity. }
  split.
  { intros fuel p e Hparent Hp Hm. simpl. rewrite Hparent. simpl. rewrite Hp, Hm. reflexivity. }
  intros fuel p fs1 e Hparent Hc. simpl. rewrite Hparent. simpl. rewrite Hc. reflexivity.
Qed.

(** C9 fails on the code. [createFolder] asks [getParentFolder] for the
    parent and, when that parent does not exist, calls itself on it; the
    value [false] that [getParentFolder] gives for a path with at most one
    separator never exists, and the call on it raises a [TypeError]. So a
    call on such a path raises, whether the folder exists or not and with
    nothing written; and so does a call on a nested relative path whose
    first folder is missing. *)
Theorem createFolder_raises_at_the_top (fs : Disk) :
  (forall fuel p,
      getParentFolder p = None ->
      createFolder (S (S fuel)) fs (Some p)
      = Some (fs, Throw (TypeError "path.replace is not a function")))
  /\ (forall fuel,
        existsSync fs "out/a/" = false ->
        existsSync fs "out/" = false ->
        createFolder (S (S (S (S fuel)))) fs (Some "out/a/b/")
        = Some (fs, Throw (TypeError "path.replace is not a function"))).
Proof.
  split.
  - intros fuel p Hp.
    change (createFolder (S (S fuel)) fs (Some p))
      with (match getParentFolder_of (Some p) with
            | Throw e => Some (fs, Throw e)
            | Return parentPath =>
                if negb (existsSync_of fs parentPath) then
                  match createFolder (S fuel) fs parentPath with
                  | None => None
                  | Some (fs1, Throw e) => Some (fs1, Throw e)
                  | Some (fs1, Return _) => createFolder (S fuel) fs1 (Some p)
                  end
                else if negb (existsSync_of fs (Some p)) then
                  match mkdirSync fs p with
                  | Throw e => Some (fs, Throw e)
                  | Return fs1 => Some (fs1, Return tt)
                  end
                else Some (fs, Return tt)
            end).
    unfold getParentFolder_of. rewrite Hp. reflexivity.
  - intros fuel Ha Ho.
    change (createFolder (S (S (S (S fuel)))) fs (Some "out/a/b/"))
      with (if negb (existsSync fs "out/a/") then
              match (if negb (existsSync fs "out/") then
                       Some (fs, @Throw unit (TypeError "path.replace is not a function"))
                     else if negb (existsSync fs "out/a/") then
                       match mkdirSync fs "out/a/" with
                       | Throw e => Some (fs, Throw e)
                       | Return fs1 => Some (fs1, Return tt)
                       end
                     else Some (fs, Return tt)) with
              | None => None
              | Some (fs1, Throw e) => Some (fs1, Throw e)
              | Some (fs1, Return _) => createFolder (S (S (S fuel))) fs1 (Some "out/a/b/")
              end
            else if negb (existsSync fs "out/a/b/") then
              match mkdirSync fs "out/a/b/" with
              | Throw e => Some (fs, Throw e)
              | Return fs1 => Some (fs1, Return tt)
              end
            else Some (fs, Return tt)).
    rewrite Ha, Ho. reflexivity.
Qed.

End Unguarded.

(** ** [getLibraryFolder] and [getLevel1Id] *)

Section Level1.

Context {Disk : Type} `{FileSystem Disk}.

Lemma length_strip_trailing s :
  String.length (replace trailing_slash "" s) <= String.length s.
Proof.
  induction s as [|c s IH]; [simpl; lia|].
  rewrite replace_step. destruct s as [|d r].
  - simpl. destruct (is_char c "/"); simpl; lia.
  - change (trailing_slash (String c (String d r))) with (@None string).
    simpl String.length in *. lia.
Qed.

Lemma length_strip_last s :
  String.length (replace last_segment "/" s) <= String.length s.
Proof.
  induction s as [|c s IH]; [simpl; lia|].
  rewrite replace_step. destruct s as [|d r].
  - simpl. lia.
  - rewrite last_segment_cons.
    destruct (is_char c "/" && lacks "/" (String d r)); simpl String.length in *; lia.
Qed.

Lemma ends_with_slash_split s :
  Spec.ends_with_slash s = true -> exists s0, s = s0 +:+ "/".
Proof.
  induction s as [|c s IH]; [discriminate|].
  destruct s as [|d r].
  - simpl. intros Hc. apply is_char_true in Hc. subst c. exists "". reflexivity.
  - rewrite ends_with_slash_cons. intros Hs. destruct (IH Hs) as (s0 & ->).
    exists (String c s0). reflexivity.
Qed.

Lemma length_strip_last_lt s :
  1 <= count_slashes s -> Spec.ends_with_slash s = false ->
  String.length (replace last_segment "/" s) < String.length s.
Proof.
  induction s as [|c s IH]; [simpl; lia|].
  intros Hc He. rewrite replace_step. destruct s as [|d r].
  - simpl in Hc, He. rewrite He in Hc. simpl in Hc. lia.
  - rewrite last_segment_cons.
    destruct (is_char c "/" && lacks "/" (String d r)) eqn:Hm.
    + simpl. lia.
    + rewrite ends_with_slash_cons in He.
      assert (1 <= count_slashes (String d r)) as Hr.
      { apply andb_false_iff in Hm as [Hm|Hm].
        - rewrite count_slashes_cons, Hm in Hc. lia.
        - apply lacks_count_false. exact Hm. }
      specialize (IH Hr He). simpl String.length in *. lia.
Qed.

(** One step up gives a shorter path. *)
Lemma getParentFolder_shorter path parent :
  getParentFolder path = Some parent -> String.length parent < String.length path.
Proof.
  intros Hq. pose proof (getParentFolder_some_inv _ _ Hq) as Hc.
  rewrite (getParentFolder_some _ Hc) in Hq. injection Hq as <-.
  rewrite <- (length_replace_backslashes path).
  set (p := replace_backslashes path) in *.
  destruct (Spec.ends_with_slash p) eqn:He.
  - destruct (ends_with_slash_split _ He) as (s0 & Hp). rewrite Hp.
    rewrite strip_trailing_slash, length_append.
    pose proof (length_strip_last s0). simpl. lia.
  - rewrite strip_no_trailing_slash by exact He.
    apply length_strip_last_lt; [lia|exact He].
Qed.

(** The steps that [getLibraryFolder] allows are enough: more of them give
    the same result. *)
Lemma getLibraryFolder_up_enough (fs : Disk) n : forall m path,
  String.length path < n -> String.length path < m ->
  getLibraryFolder_up n fs (Some path) = getLibraryFolder_up m fs (Some path).
Proof.
  induction n as [|n IH]; intros m path Hn Hm; [lia|].
  destruct m as [|m]; [lia|].
  simpl. destruct (String.eqb path ""); [reflexivity|].
  assert (getLibraryFolder_up n fs (getParentFolder path)
          = getLibraryFolder_up m fs (getParentFolder path)) as Hup.
  { destruct (getParentFolder path) as [parent|] eqn:Hp.
    - apply getParentFolder_shorter in Hp. apply IH; lia.
    - destruct n, m; reflexivity. }
  rewrite Hup. reflexivity.
Qed.

(** C8 fails on the code. Called without [libPath] on a path that contains
    [library], [getLevel1Id] looks the library folder up into a variable of
    the block; when that folder is found and has 8 characters or more, the
    last line then reads the length of the parameter, which is [undefined],
    and a [TypeError] is raised where the specification has the first
    field of the rest of the path. The other cases are as the specification
    has them: the empty string for a path without [library] and when the
    folder is not found or shorter than 8 characters; and with [libPath]
    given, and not below 8 as a number, the first field of the path after
    as many characters as [libPath] has. *)
Theorem getLevel1Id_without_libPath (below_8 : string -> bool) (fs : Disk) (path : string) :
  (index_negative "library" path = true ->
   forall libPath, getLevel1Id below_8 fs path libPath = Return "")
  /\ (forall lib,
        index_negative "library" path = false ->
        getLibraryFolder fs (Some path) = Some lib ->
        8 <= String.length lib ->
        getLevel1Id below_8 fs path None
        = Throw (TypeError "Cannot read property 'length' of undefined"))
  /\ (index_negative "library" path = false ->
      (getLibraryFolder fs (Some path) = None
       \/ exists lib, getLibraryFolder fs (Some path) = Some lib /\ String.length lib < 8) ->
      getLevel1Id below_8 fs path None = Return "")
  /\ (forall lib,
        index_negative "library" path = false ->
        below_8 lib = false ->
        getLevel1Id below_8 fs path (Some lib)
        = Return (first_field (substr (String.length lib) path))).
Proof.
  split; [intros Hi libPath; unfold getLevel1Id; rewrite Hi; reflexivity|].
  split.
  { intros lib Hi Hl Hlen. unfold getLevel1Id. rewrite Hi, Hl. simpl.
    destruct lib as [|c lib]; [simpl in Hlen; lia|].
    simpl String.eqb. cbv iota.
    replace (String.length (String c lib) <? 8) with false
      by (symmetry; apply Nat.ltb_ge; exact Hlen).
    reflexivity. }
  split.
  { intros Hi [Hl|(lib & Hl & Hlen)]; unfold getLevel1Id; rewrite Hi, Hl.
    - reflexivity.
    - simpl. replace (String.length lib <? 8) with true
        by (symmetry; apply Nat.ltb_lt; exact Hlen).
      rewrite orb_true_r. reflexivity. }
  intros lib Hi Hb. unfold getLevel1Id. rewrite Hi, Hb. reflexivity.
Qed.

End Level1.

(** *** The unguarded calls on the small disks *)

(** C5, as the specification states it, fails: in ["/d"] the [stat] of
    [ghost] fails, and the walker gives back what it has and prints the
    error. *)
Lemma walker_catches_stat_failure :
  readdirSync Snapshot.dangling "/d" = Return ["a.md"; "ghost"; "b.md"]
  /\ statSync_isDirectory Snapshot.dangling "/d/ghost" = Throw (FsError "ENOENT")
  /\ _listSubFolder 1 Snapshot.dangling "/d" 1 ∅ [] [] []
     = Some (Return (<["a.md" := JFalse]> ∅,
                     [Entry.make 1 file "a.md" "/d"],
                     ["/d/a.md"]),
             [ConsoleError (FsError "ENOENT")])
  /\ forall e out', _listSubFolder 1 Snapshot.dangling "/d" 1 ∅ [] [] [] <> Some (Throw e, out').
Proof.
  split; [reflexivity|]. split; [reflexivity|]. split; [vm_compute; reflexivity|].
  intros e out'. vm_compute. discriminate.
Qed.

(** The medium of the small disks cannot be written: every [unlink],
    [rmdir] and [mkdir] fails there, and the failure reaches the caller. *)
Lemma only_the_walker_guards_its_calls_witness :
  _listSubFolder 1 Snapshot.dangling "/d" 1 ∅ [] [] []
  = Some (Return (<["a.md" := JFalse]> ∅, [Entry.make 1 file "a.md" "/d"], ["/d/a.md"]),
          [ConsoleError (FsError "ENOENT")])
  /\ cleanFolder 1 Snapshot.dangling "/nowhere/" = Some (Snapshot.dangling, Throw (FsError "ENOENT"))
  /\ cleanFolder 1 Snapshot.dangling "/d/" = Some (Snapshot.dangling, Throw (FsError "ENOENT"))
  /\ cleanFolder 1 Snapshot.wiki "/w/library/" = Some (Snapshot.wiki, Throw (FsError "EROFS"))
  /\ cleanFolder 2 Snapshot.shelves "/e/" = Some (Snapshot.shelves, Throw (FsError "EROFS"))
  /\ cleanFolder 2 Snapshot.shelves "/n/" = Some (Snapshot.shelves, Throw (FsError "ENOENT"))
  /\ createFolder 1 Snapshot.wiki (Some "/w/library/02-new/")
     = Some (Snapshot.wiki, Throw (FsError "EROFS"))
  /\ createFolder 2 Snapshot.wiki (Some "/w/library/02-new/img/")
     = Some (Snapshot.wiki, Throw (FsError "EROFS")).
Proof.
  destruct (only_the_walker_guards_its_calls Snapshot.dangling) as (Hwalk & Hread & Hclean & _).
  destruct (only_the_walker_guards_its_calls Snapshot.wiki) as (_ & _ & Hunlink & Hmkdir & Hup).
  destruct (only_the_walker_guards_its_calls Snapshot.shelves) as (_ & _ & Hrmdir & _).
  split.
  { apply (Hwalk 0 "/d" 1 ["a.md"] "ghost" ["b.md"] ∅ [] [] []
             (<["a.md" := JFalse]> ∅, [Entry.make 1 file "a.md" "/d"], ["/d/a.md"]) []
             (FsError "ENOENT")); reflexivity. }
  split; [apply Hread; reflexivity|].
  split.
  { destruct (Hclean 0 "/d/" [] "ghost" [] Snapshot.dangling (FsError "ENOENT") eq_refl eq_refl)
      as (Hs & _). apply Hs. reflexivity. }
  split.
  { destruct (Hunlink 0 "/w/library/" [] "home-wiki.md" [".git"; "01-intro"] Snapshot.wiki
                (FsError "EROFS") eq_refl eq_refl) as (_ & Hu & _).
    apply Hu; reflexivity. }
  split.
  { destruct (Hrmdir 1 "/e/" [] "sub" [] Snapshot.shelves (FsError "EROFS") eq_refl eq_refl)
      as (_ & _ & Hr & _).
    apply (Hr Snapshot.shelves); reflexivity. }
  split.
  { destruct (Hrmdir 1 "/n/" [] "sub" [] Snapshot.shelves (FsError "ENOENT") eq_refl eq_refl)
      as (_ & _ & _ & Hn).
    apply (Hn Snapshot.shelves); reflexivity. }
  split.
  { apply Hmkdir; reflexivity. }
  apply Hup; reflexivity.
Defined.

(** [createFolder("/a")] raises on any disk, and so does
    [createFolder("out/a/b/")] where there is no [out]. *)
Lemma createFolder_raises_at_the_top_witness :
  createFolder 2 Snapshot.wiki (Some "/a")
  = Some (Snapshot.wiki, Throw (TypeError "path.replace is not a function"))
  /\ createFolder 2 (<["/a" := Snapshot.Folder []]> Snapshot.wiki) (Some "/a")
     = Some (<["/a" := Snapshot.Folder []]> Snapshot.wiki,
             Throw (TypeError "path.replace is not a function"))
  /\ createFolder 4 Snapshot.wiki (Some "out/a/b/")
     = Some (Snapshot.wiki, Throw (TypeError "path.replace is not a function")).
Proof.
  destruct (createFolder_raises_at_the_top Snapshot.wiki) as (Hshort & Hrel).
  destruct (createFolder_raises_at_the_top (<["/a" := Snapshot.Folder []]> Snapshot.wiki))
    as (Hthere & _).
  split; [apply Hshort; reflexivity|].
  split; [apply Hthere; reflexivity|].
  apply Hrel; reflexivity.
Defined.

(** Without [libPath] the id of a page of the small library is not found:
    the call raises. With the library folder given it is ["01"]. *)
Lemma getLevel1Id_without_libPath_witness :
  getLibraryFolder Snapshot.wiki (Some "/w/library/01-intro/001-start.md") = Some "/w/library/"
  /\ getLevel1Id (fun _ => false) Snapshot.wiki "/w/library/01-intro/001-start.md" None
     = Throw (TypeError "Cannot read property 'length' of undefined")
  /\ getLevel1Id (fun _ => false) Snapshot.wiki "/w/library/01-intro/001-start.md"
       (Some "/w/library/")
     = Return "01"
  /\ getLevel1Id (fun _ => false) Snapshot.wiki "/w/docs/01-intro" None = Return ""
  /\ getLevel1Id (fun _ => false) Snapshot.wiki "library-notes" None = Return "".
Proof.
  destruct (getLevel1Id_without_libPath (fun _ => false) Snapshot.wiki
              "/w/library/01-intro/001-start.md") as (_ & Hthrow & _ & Hgiven).
  destruct (getLevel1Id_without_libPath (fun _ => false) Snapshot.wiki "/w/docs/01-intro")
    as (Hnone & _).
  destruct (getLevel1Id_without_libPath (fun _ => false) Snapshot.wiki "library-notes")
    as (_ & _ & Hmissing & _).
  split; [reflexivity|].
  split; [apply (Hthrow "/w/library/"); [reflexivity|reflexivity|simpl; lia]|].
  split; [rewrite (Hgiven "/w/library/") by reflexivity; reflexivity|].
  split; [apply Hnone; reflexivity|].
  apply Hmissing; [reflexivity|left; reflexivity].
Defined.

(** On a disk that can be written, [createFolder] on an absolute path makes
    the folders that are missing, from the top down, and a second call
    changes nothing. *)
Example createFolder_builds_the_ancestors :
  createFolder 8 Memory.bare (Some "/a/b/c/")
  = Some ([[]; ["a"]; ["a"; "b"]; ["a"; "b"; "c"]], Return tt).
Proof. vm_compute. reflexivity. Qed.

Example createFolder_twice :
  createFolder 8 [[]; ["a"]; ["a"; "b"]; ["a"; "b"; "c"]] (Some "/a/b/c/")
  = Some ([[]; ["a"]; ["a"; "b"]; ["a"; "b"; "c"]], Return tt).
Proof. vm_compute. reflexivity. Qed.

(** The same call on the folder ["/a"] that exists raises. *)
Example createFolder_on_existing_top_folder :
  existsSync ([[]; ["a"]] : Memory.t) "/a" = true
  /\ createFolder 8 ([[]; ["a"]] : Memory.t) (Some "/a")
     = Some ([[]; ["a"]], Throw (TypeError "path.replace is not a function")).
Proof. split; vm_compute; reflexivity. Qed.

(** The names [readLibraryTree] takes for the home page, on examples. *)
Example home_names :
  is_home_name "home-wiki.md" = true /\ is_home_name "home_.md" = true
  /\ is_home_name "首页.md" = true /\ is_home_name "home.md" = false
  /\ is_home_name "home-a.mdx" = false /\ is_home_name "my-home-a.md" = false.
Proof. repeat split; reflexivity. Qed.

(** * Further properties *)

(** ** [getBaseName] and the way up *)

Section BaseName.

Lemma exec_step m s :
  exec m s = match m s with
             | Some group => Some group
             | None => match s with EmptyString => None | String _ r => exec m r end
             end.
Proof. destruct s; reflexivity. Qed.

Lemma exec_slash_then_name pre name :
  lacks "/" name = true ->
  exec slash_then_name (pre +:+ String "/" name) = Some name.
Proof.
  intros Hl. induction pre as [|c pre IH].
  - rewrite append_empty_l, exec_step. simpl. rewrite Hl. reflexivity.
  - rewrite append_cons, exec_step. simpl slash_then_name.
    assert (lacks "/" (pre +:+ String "/" name) = false) as ->.
    { apply lacks_count_false. rewrite count_slashes_append. simpl. lia. }
    rewrite andb_false_r. exact IH.
Qed.

Lemma exec_slash_then_name_some s name :
  exec slash_then_name s = Some name ->
  lacks "/" name = true /\ exists pre, s = pre +:+ String "/" name.
Proof.
  induction s as [|c s IH]; [discriminate|].
  rewrite exec_step. simpl slash_then_name.
  destruct (is_char c "/" && lacks "/" s) eqn:Hm.
  - intros Hs. injection Hs as <-. apply andb_true_iff in Hm as [Hc Hl].
    apply is_char_true in Hc. subst c. split; [exact Hl|]. exists "". reflexivity.
  - intros Hs. destruct (IH Hs) as (Hl & pre & ->).
    split; [exact Hl|]. exists (String c pre). reflexivity.
Qed.

Lemma exec_slash_then_name_none s :
  exec slash_then_name s = None <-> lacks "/" s = true.
Proof.
  split.
  - induction s as [|c s IH]; [reflexivity|].
    rewrite exec_step. simpl slash_then_name.
    destruct (is_char c "/" && lacks "/" s) eqn:Hm; [discriminate|].
    intros Hs. specialize (IH Hs). rewrite IH, andb_true_r in Hm.
    simpl. rewrite Hm, IH. reflexivity.
  - intros Hl. destruct (exec slash_then_name s) as [name|] eqn:Hs; [|reflexivity].
    destruct (exec_slash_then_name_some _ _ Hs) as (_ & pre & ->).
    assert (lacks "/" (pre +:+ String "/" name) = false) as Hno.
    { apply lacks_count_false. rewrite count_slashes_append. simpl. lia. }
    congruence.
Qed.

Lemma ends_with_slash_has_slash s : Spec.ends_with_slash s = true -> lacks "/" s = false.
Proof.
  intros He. destruct (lacks "/" s) eqn:Hl; [|reflexivity].
  destruct s as [|c s]; [discriminate He|].
  rewrite ends_with_slash_lacks in He; [discriminate He|discriminate|exact Hl].
Qed.

(** [/\/[^\/]+$/] finds nothing in a path that ends with ['/']. *)
Lemma strip_last_segment_none s :
  Spec.ends_with_slash s = true -> replace last_segment "/" s = s.
Proof.
  induction s as [|c s IH]; [reflexivity|].
  intros He. rewrite replace_step. destruct s as [|d r]; [reflexivity|].
  rewrite last_segment_cons. rewrite ends_with_slash_cons in He.
  rewrite (ends_with_slash_has_slash _ He), andb_false_r, (IH He). reflexivity.
Qed.

Lemma getParentFolder_of_segment pre seg :
  seg <> "" -> lacks "/" seg = true -> lacks "\" seg = true ->
  getParentFolder (pre +:+ String "/" seg +:+ "/") = Some (replace_backslashes pre +:+ "/")
  /\ (1 <= count_slashes (replace_backslashes pre) ->
      getParentFolder (pre +:+ String "/" seg) = Some (replace_backslashes pre +:+ "/")).
Proof.
  intros Hne Hl Hb. split.
  - rewrite getParentFolder_some.
    + rewrite replace_backslashes_append. simpl replace_backslashes.
      rewrite replace_backslashes_append, (replace_backslashes_id seg Hb).
      change (String "/" (seg +:+ replace_backslashes "/")) with (String "/" seg +:+ "/").
      rewrite <- append_assoc, strip_trailing_slash, strip_last_segment by assumption.
      reflexivity.
    + rewrite replace_backslashes_append, count_slashes_append. simpl.
      rewrite replace_backslashes_append, count_slashes_append. simpl. lia.
  - intros Hc. rewrite getParentFolder_some.
    + rewrite replace_backslashes_append. simpl replace_backslashes.
      rewrite (replace_backslashes_id seg Hb), strip_no_trailing_slash.
      * rewrite strip_last_segment by assumption. reflexivity.
      * rewrite ends_with_slash_append. destruct seg as [|d r]; [congruence|].
        rewrite ends_with_slash_cons. apply ends_with_slash_lacks; [discriminate|exact Hl].
    + rewrite replace_backslashes_append, count_slashes_append. simpl. lia.
Qed.

End BaseName.

(** X1. [getBaseName] raises a [TypeError] exactly when the path, with its
    backslashes turned into slashes and one final ['/'] taken off, has no
    ['/'] left (a bare name, ["/"], the empty path). Otherwise it gives what
    follows the last ['/'], which has no ['/'] in it: the base name of
    [pre/seg] and of [pre/seg/] is [seg]. *)
Theorem getBaseName_spec :
  (forall path,
      (exists e, getBaseName path = Throw e)
      <-> lacks "/" (replace trailing_slash "" (replace_backslashes path)) = true)
  /\ (forall path name,
        getBaseName path = Return name ->
        lacks "/" name = true
        /\ exists pre,
             replace trailing_slash "" (replace_backslashes path) = pre +:+ String "/" name)
  /\ (forall pre seg,
        seg <> "" -> lacks "/" seg = true -> lacks "\" seg = true ->
        getBaseName (pre +:+ String "/" seg) = Return seg
        /\ getBaseName (pre +:+ String "/" seg +:+ "/") = Return seg).
Proof.
  split; [|split].
  - intros path. unfold getBaseName.
    destruct (exec slash_then_name _) as [name|] eqn:Hx.
    + split; [intros [e He]; discriminate He|].
      intros Hl. apply exec_slash_then_name_none in Hl. congruence.
    + split; [intros _; apply exec_slash_then_name_none; exact Hx|].
      intros _. eexists. reflexivity.
  - intros path name. unfold getBaseName.
    destruct (exec slash_then_name _) as [name'|] eqn:Hx; [|discriminate].
    intros Hr. injection Hr as <-. exact (exec_slash_then_name_some _ _ Hx).
  - intros pre seg Hne Hl Hb. unfold getBaseName. split.
    + rewrite replace_backslashes_append. simpl replace_backslashes.
      rewrite (replace_backslashes_id seg Hb), strip_no_trailing_slash.
      * rewrite exec_slash_then_name by exact Hl. reflexivity.
      * rewrite ends_with_slash_append. destruct seg as [|d r]; [congruence|].
        rewrite ends_with_slash_cons. apply ends_with_slash_lacks; [discriminate|exact Hl].
    + rewrite replace_backslashes_append. simpl replace_backslashes.
      rewrite replace_backslashes_append, (replace_backslashes_id seg Hb).
      change (String "/" (seg +:+ replace_backslashes "/")) with (String "/" seg +:+ "/").
      rewrite <- append_assoc, strip_trailing_slash.
      rewrite exec_slash_then_name by exact Hl. reflexivity.
Qed.

Lemma getBaseName_spec_witness :
  (exists e, getBaseName "readme.md" = Throw e)
  /\ lacks "/" "001-start.md" = true
  /\ getBaseName ("C:\wiki\library" +:+ String "/" "001-start.md") = Return "001-start.md"
  /\ getBaseName ("/w/library" +:+ String "/" "01-intro" +:+ "/") = Return "01-intro".
Proof.
  destruct getBaseName_spec as (Hthrow & Hname & Hseg).
  split; [apply Hthrow; reflexivity|].
  split; [apply (Hname "/w/library/01-intro/001-start.md"); reflexivity|].
  split.
  - apply (Hseg "C:\wiki\library" "001-start.md"); [discriminate|reflexivity|reflexivity].
  - apply (Hseg "/w/library" "01-intro"); [discriminate|reflexivity|reflexivity].
Defined.

(** X2. Where [getParentFolder] gives a parent, [getBaseName] gives a
    name, and the parent followed by the name is the path itself, with its
    backslashes turned into slashes and one final ['/'] taken off. *)
Theorem parent_then_base_name path parent :
  getParentFolder path = Some parent ->
  exists name,
    getBaseName path = Return name
    /\ parent +:+ name = replace trailing_slash "" (replace_backslashes path).
Proof.
  intros Hq. pose proof (getParentFolder_some_inv _ _ Hq) as Hc.
  rewrite (getParentFolder_some _ Hc) in Hq. injection Hq as <-.
  unfold getBaseName.
  set (t := replace trailing_slash "" (replace_backslashes path)).
  pose proof (count_slashes_strip (replace_backslashes path)) as Ht. fold t in Ht.
  destruct (exec slash_then_name t) as [name|] eqn:Hx.
  - exists name. split; [reflexivity|].
    destruct (exec_slash_then_name_some _ _ Hx) as (Hl & pre & Hpre).
    rewrite Hpre. destruct name as [|d r].
    + rewrite strip_last_segment_none, append_empty_r; [reflexivity|].
      rewrite ends_with_slash_append. reflexivity.
    + rewrite strip_last_segment by (try discriminate; exact Hl).
      rewrite append_assoc. reflexivity.
  - apply exec_slash_then_name_none, lacks_count in Hx. lia.
Qed.

Lemma parent_then_base_name_witness :
  exists name,
    getBaseName "C:\wiki\library\01-intro\" = Return name
    /\ "C:/wiki/library/" +:+ name = "C:/wiki/library/01-intro".
Proof. apply (parent_then_base_name "C:\wiki\library\01-intro\" "C:/wiki/library/"). reflexivity. Defined.

(** X3. A parent is shorter than the path it is the parent of; so going
    up from a path, parent after parent, comes to [false] after at most as
    many steps as the path has characters, and one more. *)
Theorem going_up_ends :
  (forall path parent,
      getParentFolder path = Some parent -> String.length parent < String.length path)
  /\ (forall path steps,
        String.length path < steps -> Spec.ascend steps (Some path) = None).
Proof.
  split; [exact getParentFolder_shorter|].
  intros path steps. revert path.
  induction steps as [|n IH]; intros path Hn; [lia|].
  simpl. destruct (getParentFolder path) as [parent|] eqn:Hp.
  - apply IH. apply getParentFolder_shorter in Hp. lia.
  - destruct n; reflexivity.
Qed.

Lemma going_up_ends_witness :
  String.length "/w/library/" < String.length "/w/library/01-intro/"
  /\ Spec.ascend 21 (Some "/w/library/01-intro/") = None.
Proof.
  destruct going_up_ends as (Hshort & Hend).
  split; [apply Hshort; reflexivity|].
  apply Hend. simpl. lia.
Defined.

(** ** [getLibraryFolder], [getProjectFolder] and [isAmWiki] *)

Section LibraryFolder.

Context {Disk : Type} `{FileSystem Disk}.

(** [/\/?$/] replaced by ['/']: the path gets a final ['/'] when it has
    none. *)
Lemma add_trailing_slash s :
  replace optional_trailing_slash "/" s
  = if Spec.ends_with_slash s then s else s +:+ "/".
Proof.
  induction s as [|c s IH]; [reflexivity|].
  rewrite replace_step. destruct s as [|d r].
  - simpl. destruct (is_char c "/") eqn:Hc; [|reflexivity].
    apply is_char_true in Hc. subst c. reflexivity.
  - change (optional_trailing_slash (String c (String d r))) with (@None string).
    rewrite IH, ends_with_slash_cons.
    destruct (Spec.ends_with_slash (String d r)); reflexivity.
Qed.

Lemma library_end_some s rest :
  library_end s = Some rest -> s = "library" \/ s = "library/".
Proof.
  unfold library_end.
  destruct (literal "library" s) as [r|] eqn:Hl; [|discriminate].
  apply literal_some in Hl. subst s.
  destruct r as [|c [|d r]]; simpl; try discriminate.
  - intros _. left. reflexivity.
  - destruct (is_char c "/") eqn:Hc; [|discriminate].
    apply is_char_true in Hc. subst c. intros _. right. reflexivity.
Qed.

(** [/library\/?$/] accepts the paths that end with [library] or with
    [library/]. *)
Lemma test_library_end s :
  test library_end s = true <->
  exists pre, s = pre +:+ "library" \/ s = pre +:+ "library/".
Proof.
  split.
  - induction s as [|x s IH]; rewrite test_step.
    + destruct (library_end "") eqn:Hm; [|discriminate]. discriminate Hm.
    + destruct (library_end (String x s)) eqn:Hm.
      * intros _. exists "". rewrite !append_empty_l. exact (library_end_some _ _ Hm).
      * intros Ht. destruct (IH Ht) as (pre & [->| ->]); exists (String x pre); auto.
  - intros (pre & Hs).
    induction pre as [|x pre IH] in s, Hs |- *; rewrite test_step.
    + rewrite !append_empty_l in Hs. destruct Hs as [->| ->]; reflexivity.
    + destruct (library_end s); [reflexivity|].
      destruct s as [|y s']; [destruct Hs as [Hs|Hs]; discriminate Hs|].
      apply IH. rewrite !append_cons in Hs.
      destruct Hs as [Hs|Hs]; injection Hs as _ Hs; auto.
Qed.

Lemma test_literal_append needle pre post :
  test (literal needle) (pre +:+ needle +:+ post) = true.
Proof.
  induction pre as [|c pre IH]; rewrite test_step.
  - rewrite append_empty_l, literal_append. reflexivity.
  - rewrite append_cons. destruct (literal needle _); [reflexivity|exact IH].
Qed.

Lemma append_not_empty s c t : (s +:+ String c t =? "")%string = false.
Proof. destruct s; reflexivity. Qed.

(** What [getLibraryFolder] gives ends with [library/]. *)
Lemma getLibraryFolder_up_shape (fs : Disk) steps : forall path lib,
  getLibraryFolder_up steps fs path = Some lib ->
  exists root, lib = root +:+ "library/".
Proof.
  induction steps as [|n IH]; intros [p|] lib; simpl; try discriminate.
  - destruct (String.eqb p ""); discriminate.
  - destruct (String.eqb p ""); [discriminate|].
    destruct (index_negative "library" p).
    + destruct (existsSync fs (p +:+ "/library/")); [|apply IH].
      intros Hl. injection Hl as <-.
      exists (replace trailing_slash "" p +:+ "/").
      rewrite append_assoc. reflexivity.
    + destruct (test library_end p) eqn:Ht; [|apply IH].
      intros Hl. injection Hl as <-. rewrite add_trailing_slash.
      apply test_library_end in Ht as (pre & [->| ->]).
      * rewrite ends_with_slash_append. simpl Spec.ends_with_slash.
        exists pre. rewrite append_assoc. reflexivity.
      * rewrite ends_with_slash_append. simpl Spec.ends_with_slash.
        exists pre. reflexivity.
Qed.

(** A path that ends with [library/] is its own library folder. *)
Lemma getLibraryFolder_at_library (fs : Disk) steps root :
  getLibraryFolder_up (S steps) fs (Some (root +:+ "library/")) = Some (root +:+ "library/").
Proof.
  simpl. rewrite append_not_empty.
  unfold index_negative.
  change (root +:+ "library/") with (root +:+ "library" +:+ "/") at 1.
  rewrite (test_literal_append "library" root "/"). simpl negb. cbv iota.
  assert (test library_end (root +:+ "library/") = true) as ->
    by (apply test_library_end; exists root; right; reflexivity).
  rewrite add_trailing_slash, ends_with_slash_append. reflexivity.
Qed.

(** [/library(\\|\/)?$/] replaced by nothing takes [library/] off the
    end. *)
Lemma strip_library root :
  replace library_any_separator_end "" (root +:+ "library/") = root.
Proof.
  induction root as [|c root IH]; [reflexivity|].
  rewrite append_cons, replace_step.
  assert (library_any_separator_end (String c (root +:+ "library/")) = None) as ->.
  { unfold library_any_separator_end.
    destruct (literal "library" (String c (root +:+ "library/"))) as [r|] eqn:Hl; [|reflexivity].
    apply literal_some in Hl. apply (f_equal String.length) in Hl.
    rewrite length_append in Hl. simpl in Hl. rewrite length_append in Hl. simpl in Hl.
    destruct r as [|x [|y r]]; simpl in Hl; try lia. reflexivity. }
  rewrite IH. reflexivity.
Qed.

Lemma getProjectFolder_some (fs : Disk) path lib :
  getLibraryFolder fs path = Some lib ->
  exists root, getProjectFolder fs path = Some root /\ root +:+ "library/" = lib.
Proof.
  intros Hl. unfold getProjectFolder. rewrite Hl.
  unfold getLibraryFolder in Hl.
  destruct (getLibraryFolder_up_shape _ _ _ _ Hl) as (root & ->).
  exists root. simpl falsy. rewrite append_not_empty. simpl negb. cbv iota.
  rewrite strip_library. split; reflexivity.
Qed.

Lemma getProjectFolder_some_inv (fs : Disk) path root :
  getProjectFolder fs path = Some root ->
  getLibraryFolder fs path = Some (root +:+ "library/").
Proof.
  intros Hp. destruct (getLibraryFolder fs path) as [lib|] eqn:Hl.
  - destruct (getProjectFolder_some _ _ _ Hl) as (root' & Hr & <-). congruence.
  - unfold getProjectFolder in Hp. rewrite Hl in Hp. discriminate.
Qed.

End LibraryFolder.

Section ProjectClaims.

Context {Disk : Type} `{FileSystem Disk}.

(** X4. What [getLibraryFolder] finds ends with [library/], so it is never
    empty and never shorter than 8 characters; and asked about what it
    found, it finds the same again. *)
Theorem getLibraryFolder_ends_with_library (fs : Disk) (path : option string) (lib : string) :
  getLibraryFolder fs path = Some lib ->
  (exists root, lib = root +:+ "library/")
  /\ 8 <= String.length lib
  /\ getLibraryFolder fs (Some lib) = Some lib.
Proof.
  intros Hl. unfold getLibraryFolder in Hl.
  destruct (getLibraryFolder_up_shape _ _ _ _ Hl) as (root & ->).
  split; [exists root; reflexivity|]. split.
  - rewrite length_append. simpl. lia.
  - apply getLibraryFolder_at_library.
Qed.

(** X5. [getProjectFolder] gives [false] exactly when [getLibraryFolder]
    does; otherwise it gives the library folder without its final
    [library/]: the project folder followed by [library/] is the library
    folder. *)
Theorem getProjectFolder_of_library (fs : Disk) (path : option string) :
  (getLibraryFolder fs path = None <-> getProjectFolder fs path = None)
  /\ (forall lib,
        getLibraryFolder fs path = Some lib ->
        exists root, getProjectFolder fs path = Some root /\ root +:+ "library/" = lib)
  /\ (forall root,
        getProjectFolder fs path = Some root ->
        getLibraryFolder fs path = Some (root +:+ "library/")).
Proof.
  split; [|split; [intros lib; apply getProjectFolder_some|intros root; apply getProjectFolder_some_inv]].
  split.
  - intros Hl. unfold getProjectFolder. rewrite Hl. reflexivity.
  - intros Hp. destruct (getLibraryFolder fs path) as [lib|] eqn:Hl; [|reflexivity].
    destruct (getProjectFolder_some _ _ _ Hl) as (root & Hr & _). congruence.
Qed.

(** X6. [isAmWiki] gives [false] for what is not a string. When it gives
    a path, the path is not empty, it is the project folder of some path,
    and [library/], [amWiki/], [config.json] and [index.html] all exist
    under it; so when one of the four is missing under a path, that path is
    not what [isAmWiki] gives. *)
Theorem isAmWiki_sound (fs : Disk) (path : option string) :
  isAmWiki fs None = None
  /\ (forall root,
        isAmWiki fs path = Some root ->
        root <> ""
        /\ (exists asked, getLibraryFolder fs (Some asked) = Some (root +:+ "library/"))
        /\ existsSync fs (root +:+ "library/") = true
        /\ existsSync fs (root +:+ "amWiki/") = true
        /\ existsSync fs (root +:+ "config.json") = true
        /\ existsSync fs (root +:+ "index.html") = true)
  /\ (forall root,
        existsSync fs (root +:+ "library/") = false
        \/ existsSync fs (root +:+ "amWiki/") = false
        \/ existsSync fs (root +:+ "config.json") = false
        \/ existsSync fs (root +:+ "index.html") = false ->
        isAmWiki fs path <> Some root).
Proof.
  assert (forall root,
            isAmWiki fs path = Some root ->
            root <> ""
            /\ (exists asked, getLibraryFolder fs (Some asked) = Some (root +:+ "library/"))
            /\ existsSync fs (root +:+ "library/") = true
            /\ existsSync fs (root +:+ "amWiki/") = true
            /\ existsSync fs (root +:+ "config.json") = true
            /\ existsSync fs (root +:+ "index.html") = true) as Hsound.
  { intros root. destruct path as [p|]; [|discriminate]. unfold isAmWiki.
    set (p1 := replace_backslashes p).
    set (p2 := if index_negative "config.json" p1 then p1 else before_first "config.json" p1).
    set (p3 := if index_negative "index.html" p2 then p2 else before_first "index.html" p2).
    destruct (getProjectFolder fs (Some p3)) as [r|] eqn:Hp; [|discriminate].
    simpl falsy. destruct (String.eqb r "") eqn:He; [discriminate|].
    simpl forallb.
    destruct (existsSync fs (r +:+ "library/")) eqn:H1; [|discriminate].
    destruct (existsSync fs (r +:+ "amWiki/")) eqn:H2; [|discriminate].
    destruct (existsSync fs (r +:+ "config.json")) eqn:H3; [|discriminate].
    destruct (existsSync fs (r +:+ "index.html")) eqn:H4; [|discriminate].
    simpl. intros Hr. injection Hr as <-.
    split; [apply String.eqb_neq; exact He|].
    split; [|repeat split; assumption].
    exists p3. exact (getProjectFolder_some_inv _ _ _ Hp). }
  split; [reflexivity|]. split; [exact Hsound|].
  intros root Hmissing Hr.
  destruct (Hsound root Hr) as (_ & _ & H1 & H2 & H3 & H4).
  destruct Hmissing as [Hm|[Hm|[Hm|Hm]]]; congruence.
Qed.

End ProjectClaims.

Lemma getLibraryFolder_ends_with_library_witness :
  getLibraryFolder Snapshot.wiki (Some "/w/library/01-intro/001-start.md") = Some "/w/library/"
  /\ (exists root, "/w/library/" = root +:+ "library/")
  /\ getLibraryFolder Snapshot.wiki (Some "/w/library/") = Some "/w/library/".
Proof.
  destruct (getLibraryFolder_ends_with_library Snapshot.wiki
              (Some "/w/library/01-intro/001-start.md") "/w/library/" eq_refl)
    as (Hroot & _ & Hagain).
  split; [reflexivity|]. split; [exact Hroot|exact Hagain].
Defined.

Lemma getProjectFolder_of_library_witness :
  getProjectFolder Snapshot.wiki (Some "/q/notes") = None
  /\ (exists root,
        getProjectFolder Snapshot.wiki (Some "/w/library/01-intro") = Some root
        /\ root +:+ "library/" = "/w/library/")
  /\ getLibraryFolder Snapshot.wiki (Some "/w") = Some ("/w/" +:+ "library/").
Proof.
  destruct (getProjectFolder_of_library Snapshot.wiki (Some "/q/notes")) as (Hnone & _).
  destruct (getProjectFolder_of_library Snapshot.wiki (Some "/w/library/01-intro"))
    as (_ & Hsome & _).
  destruct (getProjectFolder_of_library Snapshot.wiki (Some "/w")) as (_ & _ & Hinv).
  split; [apply Hnone; reflexivity|].
  split; [apply Hsome; reflexivity|].
  apply Hinv. reflexivity.
Defined.

(** The project ["/p/"] is one; the small library, which has no [amWiki/]
    beside it, is none. *)
Lemma isAmWiki_sound_witness :
  isAmWiki Snapshot.project (Some "/p/library/01-a/x.md") = Some "/p/"
  /\ existsSync Snapshot.project ("/p/" +:+ "amWiki/") = true
  /\ isAmWiki Snapshot.wiki (Some "/w/library/01-intro") <> Some "/w/".
Proof.
  destruct (isAmWiki_sound Snapshot.project (Some "/p/library/01-a/x.md")) as (_ & Hsound & _).
  destruct (isAmWiki_sound Snapshot.wiki (Some "/w/library/01-intro")) as (_ & _ & Hmissing).
  split; [reflexivity|]. split.
  - destruct (Hsound "/p/" eq_refl) as (_ & _ & _ & Hwiki & _). exact Hwiki.
  - apply Hmissing. right. left. reflexivity.
Defined.

(** ** From a page up to its library *)

Section FromBelow.

Context {Disk : Type} `{FileSystem Disk}.

Lemma library_end_accepts x :
  x = "library" \/ x = "library/" -> exists rest, library_end x = Some rest.
Proof. intros [->| ->]; eexists; reflexivity. Qed.

Lemma library_end_none x :
  x <> "library" -> x <> "library/" -> library_end x = None.
Proof.
  intros H1 H2. destruct (library_end x) as [rest|] eqn:Hx; [|reflexivity].
  destruct (library_end_some _ _ Hx); congruence.
Qed.

Lemma append_slash_inj s t : s +:+ "/" = t +:+ "/" -> s = t.
Proof.
  revert t. induction s as [|c s IH]; intros [|d t] Hs.
  - reflexivity.
  - rewrite append_cons in Hs. injection Hs as _ Hs. destruct t; discriminate Hs.
  - rewrite append_cons in Hs. injection Hs as _ Hs. destruct s; discriminate Hs.
  - rewrite !append_cons in Hs. injection Hs as -> Hs. f_equal. apply IH, Hs.
Qed.

(** For a name without ['/'], a ['/'] after it does not change whether it
    ends with [library]. *)
Lemma test_library_end_slash s :
  lacks "/" s = true -> test library_end (s +:+ "/") = test library_end s.
Proof.
  induction s as [|c s IH]; [reflexivity|].
  intros Hl. rewrite append_cons, (test_step _ (String c (s +:+ "/"))), (test_step _ (String c s)).
  rewrite <- append_cons.
  destruct (String.eqb (String c s) "library") eqn:He.
  - apply String.eqb_eq in He. rewrite He. reflexivity.
  - apply String.eqb_neq in He.
    rewrite (library_end_none (String c s)); [|exact He|].
    + rewrite (library_end_none (String c s +:+ "/")).
      * apply IH. simpl in Hl. apply andb_true_iff in Hl as [_ Hl]. exact Hl.
      * intros Hx. apply (f_equal count_slashes) in Hx.
        rewrite count_slashes_append in Hx. simpl in Hx. lia.
      * intros Hx. change "library/" with ("library" +:+ "/") in Hx.
        apply append_slash_inj in Hx. congruence.
    + intros Hx. rewrite Hx in Hl. discriminate Hl.
Qed.

Lemma library_end_two_slashes x : 2 <= count_slashes x -> library_end x = None.
Proof.
  intros Hc. apply library_end_none; intros ->; simpl in Hc; lia.
Qed.

(** A path whose last name does not end with [library] does not end with
    [library], nor with [library/]. *)
Lemma test_library_end_under a s :
  lacks "/" s = true -> test library_end s = false ->
  test library_end (a +:+ String "/" s +:+ "/") = false
  /\ (s <> "" -> test library_end (a +:+ String "/" s) = false).
Proof.
  intros Hl Hs. split.
  - induction a as [|c a IH].
    + rewrite append_empty_l, test_step.
      rewrite library_end_two_slashes
        by (change (String "/" s +:+ "/") with (String "/" (s +:+ "/"));
            rewrite count_slashes_cons, count_slashes_append; simpl; lia).
      change (String "/" s +:+ "/") with (String "/" (s +:+ "/")). cbv iota.
      rewrite test_library_end_slash by exact Hl. exact Hs.
    + rewrite append_cons, test_step.
      rewrite library_end_two_slashes; [exact IH|].
      rewrite count_slashes_cons, count_slashes_append.
      change (String "/" s +:+ "/") with (String "/" (s +:+ "/")).
      rewrite count_slashes_cons, count_slashes_append. simpl. lia.
  - intros Hne. induction a as [|c a IH].
    + rewrite append_empty_l, test_step.
      rewrite library_end_none; [exact Hs|discriminate|discriminate].
    + rewrite append_cons, test_step.
      rewrite library_end_none; [exact IH| |].
      * intros Hx. apply (f_equal count_slashes) in Hx.
        rewrite count_slashes_cons, count_slashes_append in Hx. simpl in Hx. lia.
      * intros Hx. apply (f_equal Spec.ends_with_slash) in Hx.
        rewrite <- append_cons, ends_with_slash_append in Hx.
        destruct s as [|d r]; [congruence|].
        rewrite ends_with_slash_cons, ends_with_slash_lacks in Hx;
          [discriminate Hx|discriminate|exact Hl].
Qed.

Lemma under_snoc folder names name :
  Spec.under folder (names ++ [name]) = Spec.under folder names +:+ String "/" name.
Proof. unfold Spec.under. rewrite fold_left_app. reflexivity. Qed.

Lemma under_starts folder names : exists rest, Spec.under folder names = folder +:+ rest.
Proof.
  induction names as [|name names IH] using rev_ind.
  - exists "". rewrite append_empty_r. reflexivity.
  - destruct IH as (rest & Hr). rewrite under_snoc, Hr.
    exists (rest +:+ String "/" name). rewrite append_assoc. reflexivity.
Qed.

Lemma lacks_append c s t : lacks c (s +:+ t) = lacks c s && lacks c t.
Proof.
  induction s as [|d s IH]; [reflexivity|].
  rewrite append_cons. simpl. rewrite IH, andb_assoc. reflexivity.
Qed.

Lemma under_lacks_backslash folder names :
  lacks "\" folder = true ->
  Forall (fun name => lacks "\" name = true) names ->
  lacks "\" (Spec.under folder names) = true.
Proof.
  intros Hf. induction names as [|name names IH] using rev_ind; intros Hall; [exact Hf|].
  apply Forall_app in Hall as [Hall Hname]. inversion Hname; subst.
  rewrite under_snoc, lacks_append, IH by exact Hall. simpl. assumption.
Qed.

Lemma under_count_slashes folder names :
  count_slashes folder <= count_slashes (Spec.under folder names).
Proof.
  destruct (under_starts folder names) as (rest & ->).
  rewrite count_slashes_append. lia.
Qed.

Lemma getLibraryFolder_climbs (fs : Disk) path parent :
  index_negative "library" path = false ->
  test library_end path = false ->
  getParentFolder path = Some parent ->
  getLibraryFolder fs (Some path) = getLibraryFolder fs (Some parent).
Proof.
  intros Hi Ht Hp. unfold getLibraryFolder at 1. simpl.
  destruct (String.eqb path "") eqn:He.
  { apply String.eqb_eq in He. subst path. discriminate Hp. }
  rewrite Hi, Ht, Hp.
  apply getLibraryFolder_up_enough.
  - apply getParentFolder_shorter in Hp. exact Hp.
  - lia.
Qed.

End FromBelow.

Section FromBelowClaim.

Context {Disk : Type} `{FileSystem Disk}.

(** X7. From a path below a folder [library], [getLibraryFolder] comes up
    to that folder, with a ['/'] at its end, whatever is on the disk: for
    [root/library], with at least one ['/'] in [root] and no backslash,
    followed by any names that are not empty, have no separator in them and
    do not end with [library], with or without a ['/'] after the last
    one. *)
Theorem getLibraryFolder_from_below (fs : Disk) (root : string) (names : list string) :
  lacks "\" root = true ->
  1 <= count_slashes root ->
  Forall (fun name => name <> "" /\ lacks "/" name = true /\ lacks "\" name = true
                      /\ test library_end name = false) names ->
  getLibraryFolder fs (Some (Spec.under (root +:+ "library") names))
  = Some (root +:+ "library/")
  /\ getLibraryFolder fs (Some (Spec.under (root +:+ "library") names +:+ "/"))
     = Some (root +:+ "library/").
Proof.
  intros Hroot Hcount.
  assert (forall rest, index_negative "library" (root +:+ "library" +:+ rest) = false) as Hhas.
  { intros rest. unfold index_negative. rewrite test_literal_append. reflexivity. }
  induction names as [|name names IH] using rev_ind; intros Hall.
  - assert (getLibraryFolder fs (Some (root +:+ "library/")) = Some (root +:+ "library/")) as Hat
      by apply getLibraryFolder_at_library.
    unfold Spec.under. simpl fold_left.
    split; [|rewrite append_assoc; exact Hat].
    unfold getLibraryFolder. simpl getLibraryFolder_up.
    rewrite append_not_empty.
    rewrite <- (append_empty_r (root +:+ "library")), append_assoc, Hhas, append_empty_r.
    assert (test library_end (root +:+ "library") = true) as ->
      by (apply test_library_end; exists root; left; reflexivity).
    rewrite add_trailing_slash, ends_with_slash_append. simpl Spec.ends_with_slash. cbv iota.
    rewrite append_assoc. reflexivity.
  - apply Forall_app in Hall as [Hall Hname].
    inversion Hname as [|? ? (Hne & Hslash & Hback & Hend) _]; subst.
    destruct (IH Hall) as (_ & IHslash).
    set (q := Spec.under (root +:+ "library") names) in *.
    assert (lacks "\" q = true) as Hq.
    { apply under_lacks_backslash.
      - rewrite lacks_append, Hroot. reflexivity.
      - eapply Forall_impl; [exact Hall|]. intros n (_ & _ & Hn & _). exact Hn. }
    assert (1 <= count_slashes q) as Hqc.
    { pose proof (under_count_slashes (root +:+ "library") names) as Hc. fold q in Hc.
      rewrite count_slashes_append in Hc. lia. }
    destruct (under_starts (root +:+ "library") names) as (rest & Hrest). fold q in Hrest.
    destruct (getParentFolder_of_segment q name Hne Hslash Hback) as (Hp1 & Hp2).
    rewrite (replace_backslashes_id q Hq) in Hp1, Hp2.
    destruct (test_library_end_under q name Hslash Hend) as (Ht1 & Ht2).
    rewrite under_snoc. fold q. split.
    + rewrite (getLibraryFolder_climbs fs _ (q +:+ "/")); [exact IHslash| |exact (Ht2 Hne)|exact (Hp2 Hqc)].
      rewrite Hrest, !append_assoc. apply Hhas.
    + rewrite append_assoc.
      rewrite (getLibraryFolder_climbs fs _ (q +:+ "/")); [exact IHslash| |exact Ht1|exact Hp1].
      rewrite Hrest, !append_assoc. apply Hhas.
Qed.

End FromBelowClaim.

Lemma getLibraryFolder_from_below_witness :
  getLibraryFolder Snapshot.hidden_only (Some "/w/library/01-intro/img/logo.png")
  = Some "/w/library/"
  /\ getLibraryFolder Snapshot.hidden_only (Some "/w/library/01-intro/img/")
     = Some "/w/library/".
Proof.
  destruct (getLibraryFolder_from_below Snapshot.hidden_only "/w/" ["01-intro"; "img"; "logo.png"])
    as (Hfile & _).
  - reflexivity.
  - simpl. lia.
  - repeat constructor; discriminate.
  - destruct (getLibraryFolder_from_below Snapshot.hidden_only "/w/" ["01-intro"; "img"])
      as (_ & Hfolder).
    + reflexivity.
    + simpl. lia.
    + repeat constructor; discriminate.
    + split; [exact Hfile|exact Hfolder].
Defined.

(** ** More on the walker *)

Section WalkerMore.

Context {Disk : Type} `{FileSystem Disk}.

Lemma for_of_given recurse (fs : Disk) dirPath depth names tree list_ files :
  forall t l f out,
    for_of recurse fs dirPath depth names (t ∪ tree) (list_ ++ l) (files ++ f) out
    = loop_given_to tree list_ files (for_of recurse fs dirPath depth names t l f out).
Proof.
  induction names as [|fileName names IH]; intros t l f out; [reflexivity|].
  simpl for_of.
  destruct (starts_with_dot fileName); [apply IH|].
  destruct (statSync_isDirectory fs (filePath_of dirPath depth fileName)) as [[|]|e];
    [| |reflexivity].
  - destruct (recurse _ _ out) as [[[[[tt tl] tf]|e] out1]|]; [|reflexivity|reflexivity].
    rewrite assign_union, <- !app_assoc. apply IH.
  - destruct (0 <? depth); [|apply IH].
    rewrite assign_union, <- !app_assoc. apply IH.
Qed.

Lemma for_of_recorded recurse (fs : Disk) dirPath depth names :
  (forall fileName o tt tl tf o1,
      recurse (filePath_of dirPath depth fileName) (depth + 1) o
        = Some (Return (tt, tl, tf), o1) ->
      Forall (recorded (filePath_of dirPath depth fileName) (depth + 1)) tl) ->
  forall tree list_ files out tree' list' files' out' sig,
    for_of recurse fs dirPath depth names tree list_ files out
      = Some ((tree', list', files'), out', sig) ->
    exists added, list' = list_ ++ added /\ Forall (recorded dirPath depth) added.
Proof.
  intros Hrec.
  induction names as [|fileName names IH]; intros tree list_ files out tree' list' files' out' sig Hl.
  - inversion Hl; subst. exists []. rewrite app_nil_r. auto.
  - simpl in Hl.
    destruct (starts_with_dot fileName) eqn:Hd; [exact (IH _ _ _ _ _ _ _ _ _ Hl)|].
    destruct (statSync_isDirectory fs (filePath_of dirPath depth fileName)) as [[|]|e].
    + destruct (recurse _ _ out) as [[[[[tt tl] tf]|e] out1]|] eqn:Hr; [| |discriminate].
      * destruct (IH _ _ _ _ _ _ _ _ _ Hl) as (a & -> & Ha).
        eexists. rewrite <- app_assoc. split; [reflexivity|].
        apply Forall_app. split; [|exact Ha].
        constructor.
        { repeat split; simpl; try lia; try assumption; try discriminate.
          exists "". rewrite append_empty_r. reflexivity. }
        specialize (Hrec _ _ _ _ _ _ Hr).
        eapply Forall_impl; [exact Hrec|].
        intros r (Hr1 & Hr2 & (rest & Hr3) & _ & Hr5).
        repeat split; try assumption; try lia.
        exists ((if 0 <? depth then "/" else "") +:+ fileName +:+ rest).
        rewrite Hr3. unfold filePath_of. rewrite !append_assoc. reflexivity.
      * inversion Hl; subst. exists []. rewrite app_nil_r. auto.
    + destruct (0 <? depth) eqn:Hk.
      * destruct (IH _ _ _ _ _ _ _ _ _ Hl) as (a & -> & Ha).
        eexists. rewrite <- app_assoc. split; [reflexivity|].
        apply Forall_app. split; [|exact Ha].
        constructor; [|constructor].
        apply Nat.ltb_lt in Hk.
        repeat split; simpl; try lia; try assumption.
        exists "". rewrite append_empty_r. reflexivity.
      * exact (IH _ _ _ _ _ _ _ _ _ Hl).
    + inversion Hl; subst. exists []. rewrite app_nil_r. auto.
Qed.

Lemma _listSubFolder_recorded fuel (fs : Disk) :
  forall dirPath depth tree list_ files out tree' list' files' out',
    _listSubFolder fuel fs dirPath depth tree list_ files out
      = Some (Return (tree', list', files'), out') ->
    exists added, list' = list_ ++ added /\ Forall (recorded dirPath depth) added.
Proof.
  induction fuel as [|fuel IH]; intros dirPath depth tree list_ files out tree' list' files' out' Hr;
    [discriminate|].
  apply _listSubFolder_inv in Hr as (fuel' & acc & out1 & sig & Hf & Hacc & Ha & _).
  injection Hf as <-. injection Hacc as <-.
  unfold attempt in Ha. destruct (readdirSync fs dirPath) as [names|e].
  - eapply for_of_recorded; [|exact Ha].
    intros fileName o tt tl tf o1 Hsub. unfold descend in Hsub.
    destruct (IH _ _ _ _ _ _ _ _ _ _ Hsub) as (a & -> & Hall). exact Hall.
  - inversion Ha; subst. exists []. rewrite app_nil_r. auto.
Qed.

Lemma file_paths_app l1 l2 : file_paths (l1 ++ l2) = file_paths l1 ++ file_paths l2.
Proof. unfold file_paths. rewrite List.filter_app, map_app. reflexivity. Qed.

Lemma for_of_file_paths recurse (fs : Disk) dirPath depth names :
  (forall p o tt tl tf o1,
      recurse p (depth + 1) o = Some (Return (tt, tl, tf), o1) -> tf = file_paths tl) ->
  forall tree list_ files out tree' list' files' out' sig,
    for_of recurse fs dirPath depth names tree list_ files out
      = Some ((tree', list', files'), out', sig) ->
    exists added, list' = list_ ++ added /\ files' = files ++ file_paths added.
Proof.
  intros Hrec.
  induction names as [|fileName names IH]; intros tree list_ files out tree' list' files' out' sig Hl.
  - inversion Hl; subst. exists []. rewrite !app_nil_r. auto.
  - simpl in Hl.
    destruct (starts_with_dot fileName); [exact (IH _ _ _ _ _ _ _ _ _ Hl)|].
    destruct (statSync_isDirectory fs (filePath_of dirPath depth fileName)) as [[|]|e].
    + destruct (recurse _ _ out) as [[[[[tt tl] tf]|e] out1]|] eqn:Hr; [| |discriminate].
      * destruct (IH _ _ _ _ _ _ _ _ _ Hl) as (a & -> & ->).
        rewrite (Hrec _ _ _ _ _ _ Hr).
        eexists. rewrite <- !app_assoc. split; [reflexivity|].
        f_equal. rewrite <- app_comm_cons. symmetry. apply (file_paths_app tl a).
      * inversion Hl; subst. exists []. rewrite !app_nil_r. auto.
    + destruct (0 <? depth) eqn:Hk.
      * destruct (IH _ _ _ _ _ _ _ _ _ Hl) as (a & -> & ->).
        eexists. rewrite <- !app_assoc. split; [reflexivity|].
        f_equal. rewrite <- app_comm_cons. unfold file_paths. simpl.
        unfold entry_file_path at 1. simpl.
        unfold filePath_of. rewrite Hk, append_assoc. reflexivity.
      * exact (IH _ _ _ _ _ _ _ _ _ Hl).
    + inversion Hl; subst. exists []. rewrite !app_nil_r. auto.
Qed.

(** A name recorded as a folder stays one. *)
Lemma for_of_keeps_folder recurse (fs : Disk) dirPath depth fileName names :
  statSync_isDirectory fs (filePath_of dirPath depth fileName) = Return true ->
  forall tree list_ files out tree' list' files' out' sig,
    (exists sub, tree !! fileName = Some (JObject sub)) ->
    for_of recurse fs dirPath depth names tree list_ files out
      = Some ((tree', list', files'), out', sig) ->
    exists sub, tree' !! fileName = Some (JObject sub).
Proof.
  intros Hs.
  induction names as [|other names IH]; intros tree list_ files out tree' list' files' out' sig Ht Hl.
  - inversion Hl; subst. exact Ht.
  - simpl in Hl.
    destruct (starts_with_dot other); [exact (IH _ _ _ _ _ _ _ _ _ Ht Hl)|].
    destruct (statSync_isDirectory fs (filePath_of dirPath depth other)) as [[|]|e] eqn:Ho.
    + destruct (recurse _ _ out) as [[[[[tt tl] tf]|e] out1]|]; [| |discriminate].
      * refine (IH _ _ _ _ _ _ _ _ _ _ Hl).
        destruct (decide (other = fileName)) as [->|Hne].
        -- eexists. apply lookup_insert_eq.
        -- rewrite lookup_assign_ne; [exact Ht|exact Hne].
      * inversion Hl; subst. exact Ht.
    + destruct (0 <? depth); [|exact (IH _ _ _ _ _ _ _ _ _ Ht Hl)].
      refine (IH _ _ _ _ _ _ _ _ _ _ Hl).
      rewrite lookup_assign_ne; [exact Ht|]. intros ->. congruence.
    + inversion Hl; subst. exact Ht.
Qed.

(** [object[name] = false] leaves the prototype as it is. *)
Lemma lookup_assign_false_proto name (object : gmap string node) :
  assign name JFalse object !! "__proto__" = object !! "__proto__".
Proof.
  destruct (decide (name = "__proto__")) as [->|Hne].
  - rewrite assign_false_proto. reflexivity.
  - apply lookup_assign_ne, Hne.
Qed.

(** What the tree held for a record stays true of a tree that was given
    one assignment earlier, when the assignment was to another name or was
    of [false]. *)
Lemma in_tree_earlier (given given' tree : gmap string node) r :
  (Entry.type r = file -> Entry.name r = "__proto__" ->
   given' !! "__proto__" = given !! "__proto__") ->
  in_tree given' tree r -> in_tree given tree r.
Proof.
  unfold in_tree. intros Hsame Ht.
  destruct (Entry.type r); [|exact Ht].
  destruct (String.eqb (Entry.name r) "__proto__") eqn:He; [|exact Ht].
  apply String.eqb_eq in He. rewrite Ht, He. exact (Hsame eq_refl He).
Qed.

Lemma for_of_in_tree recurse (fs : Disk) dirPath depth names :
  (forall p o tt tl tf o1,
      recurse p (depth + 1) o = Some (Return (tt, tl, tf), o1) ->
      Forall (below (depth + 1)) tl) ->
  forall tree list_ files out tree' list' files' out' sig,
    for_of recurse fs dirPath depth names tree list_ files out
      = Some ((tree', list', files'), out', sig) ->
    exists added,
      list' = list_ ++ added
      /\ (forall r, In r added -> Entry.depth r = depth ->
            in_tree tree tree' r
            /\ (Entry.type r = file ->
                statSync_isDirectory fs (filePath_of dirPath depth (Entry.name r))
                = Return false))
      /\ (forall name,
            tree' !! name = tree !! name
            \/ exists r, In r added /\ Entry.depth r = depth /\ Entry.name r = name).
Proof.
  intros Hrec.
  induction names as [|fileName names IH]; intros tree list_ files out tree' list' files' out' sig Hl.
  - inversion Hl; subst. exists []. rewrite app_nil_r.
    split; [reflexivity|]. split; [intros r []|]. intros name. left. reflexivity.
  - pose proof Hl as Hwhole. simpl in Hl.
    destruct (starts_with_dot fileName); [exact (IH _ _ _ _ _ _ _ _ _ Hl)|].
    destruct (statSync_isDirectory fs (filePath_of dirPath depth fileName)) as [[|]|e] eqn:Hs.
    + destruct (recurse _ _ out) as [[[[[tt tl] tf]|e] out1]|] eqn:Hr; [| |discriminate].
      * destruct (IH _ _ _ _ _ _ _ _ _ Hl) as (a & -> & Hin & Hkeys).
        specialize (Hrec _ _ _ _ _ _ Hr). rewrite List.Forall_forall in Hrec.
        eexists. rewrite <- app_assoc. split; [reflexivity|]. split.
        -- intros r [<-|Hr0] Hk.
           ++ split; [|discriminate]. unfold in_tree. simpl.
              eapply for_of_keeps_folder; [exact Hs| |exact Hl].
              eexists. apply lookup_insert_eq.
           ++ apply in_app_or in Hr0 as [Hr0|Hr0];
                [destruct (Hrec r Hr0) as [Hdeep _]; lia|].
              destruct (Hin r Hr0 Hk) as [Htree Hstat]. split; [|exact Hstat].
              apply (in_tree_earlier _ _ _ _ (fun Hf Hp =>
                lookup_assign_ne fileName (JObject tt) tree "__proto__"
                  (fun Heq => ltac:(specialize (Hstat Hf); congruence))) Htree).
        -- intros name. destruct (Hkeys name) as [Hsame|(r & Hr0 & Hk & Hn)].
           ++ destruct (decide (fileName = name)) as [<-|Hne].
              ** right. eexists. split; [left; reflexivity|]. split; reflexivity.
              ** left. rewrite Hsame. apply lookup_assign_ne. exact Hne.
           ++ right. exists r. split; [|split; assumption].
              right. apply in_or_app. right. exact Hr0.
      * inversion Hl; subst. exists []. rewrite app_nil_r.
        split; [reflexivity|]. split; [intros r []|]. intros name. left. reflexivity.
    + destruct (0 <? depth) eqn:Hk0.
      * destruct (IH _ _ _ _ _ _ _ _ _ Hl) as (a & -> & Hin & Hkeys).
        eexists. rewrite <- app_assoc. split; [reflexivity|]. split.
        -- intros r [<-|Hr0] Hk.
           ++ split; [|intros _; exact Hs]. unfold in_tree. simpl.
              destruct (String.eqb fileName "__proto__") eqn:He.
              ** apply String.eqb_eq in He. subst fileName.
                 exact (for_of_keeps_proto _ _ _ _ _ _ _ _ _ _ _ _ _ _ Hs Hwhole).
              ** apply String.eqb_neq in He.
                 eapply for_of_keeps_file; [exact Hs| |exact Hl].
                 apply lookup_assign_false. left. exact He.
           ++ destruct (Hin r Hr0 Hk) as [Htree Hstat]. split; [|exact Hstat].
              exact (in_tree_earlier _ _ _ _ (fun _ _ => lookup_assign_false_proto fileName tree)
                       Htree).
        -- intros name. destruct (Hkeys name) as [Hsame|(r & Hr0 & Hk & Hn)].
           ++ destruct (decide (fileName = name)) as [<-|Hne].
              ** right. eexists. split; [left; reflexivity|]. split; reflexivity.
              ** left. rewrite Hsame. apply lookup_assign_ne. exact Hne.
           ++ right. exists r. split; [|split; assumption]. right. exact Hr0.
      * exact (IH _ _ _ _ _ _ _ _ _ Hl).
    + inversion Hl; subst. exists []. rewrite app_nil_r.
      split; [reflexivity|]. split; [intros r []|]. intros name. left. reflexivity.
Qed.


End WalkerMore.

Section WalkerMoreClaims.

Context {Disk : Type} `{FileSystem Disk}.

(** X8. What the walker gives from given accumulators is what it gives
    from empty ones, put onto the given ones: the keys it writes go over
    the given tree, its entries and its paths come after the given ones,
    and the console is the same. *)
Theorem walker_adds_to_what_it_is_given fuel (fs : Disk) dirPath depth tree list_ files out :
  _listSubFolder fuel fs dirPath depth tree list_ files out
  = given_to tree list_ files (_listSubFolder fuel fs dirPath depth ∅ [] [] out).
Proof.
  destruct fuel as [|fuel]; [reflexivity|].
  rewrite !_listSubFolder_step. unfold attempt.
  destruct (readdirSync fs dirPath) as [names|e].
  - pose proof (for_of_given (descend fuel fs) fs dirPath depth names tree list_ files ∅ [] [] out)
      as Hg.
    rewrite (left_id_L ∅ (∪)), !app_nil_r in Hg. rewrite Hg.
    destruct (for_of (descend fuel fs) fs dirPath depth names ∅ [] [] out)
      as [[[[[t l] f] o] [|err]]|]; reflexivity.
  - simpl. rewrite (left_id_L ∅ (∪)), !app_nil_r. reflexivity.
Qed.

(** X9. Every entry record a scan of [dirPath] at depth [k] appends has a
    depth of [k] or more, a name that does not start with a dot and a path
    that starts with [dirPath], which is [dirPath] itself at depth [k]; a
    file record has a depth of 1 or more. *)
Theorem entry_records_are_well_formed fuel (fs : Disk) dirPath depth tree list_ files out
    tree' list' files' out' :
  _listSubFolder fuel fs dirPath depth tree list_ files out
    = Some (Return (tree', list', files'), out') ->
  exists added,
    list' = list_ ++ added
    /\ forall r, In r added ->
         depth <= Entry.depth r
         /\ starts_with_dot (Entry.name r) = false
         /\ (exists rest, Entry.path r = dirPath +:+ rest)
         /\ (Entry.depth r = depth -> Entry.path r = dirPath)
         /\ (Entry.type r = file -> 1 <= Entry.depth r).
Proof.
  intros Hr. destruct (_listSubFolder_recorded _ _ _ _ _ _ _ _ _ _ _ _ Hr) as (added & Hl & Hall).
  exists added. split; [exact Hl|].
  rewrite List.Forall_forall in Hall. exact Hall.
Qed.

(** X10. The file list is the entry list read again: the paths a scan
    appends are, in the same order, [path + '/' + name] of the file
    records it appends. *)
Theorem file_list_follows_entry_list fuel (fs : Disk) dirPath depth tree list_ files out
    tree' list' files' out' :
  _listSubFolder fuel fs dirPath depth tree list_ files out
    = Some (Return (tree', list', files'), out') ->
  exists added, list' = list_ ++ added /\ files' = files ++ file_paths added.
Proof.
  revert dirPath depth tree list_ files out tree' list' files' out'.
  induction fuel as [|fuel IH]; intros dirPath depth tree list_ files out tree' list' files' out' Hr;
    [discriminate|].
  apply _listSubFolder_inv in Hr as (fuel' & acc & out1 & sig & Hf & Hacc & Ha & _).
  injection Hf as <-. injection Hacc as <-.
  unfold attempt in Ha. destruct (readdirSync fs dirPath) as [names|e].
  - eapply for_of_file_paths; [|exact Ha].
    intros p o tt tl tf o1 Hsub. unfold descend in Hsub.
    destruct (IH _ _ _ _ _ _ _ _ _ _ Hsub) as (a & Hl & Hfl).
    rewrite app_nil_l in Hl, Hfl. subst. reflexivity.
  - inversion Ha; subst. exists []. rewrite !app_nil_r. auto.
Qed.

(** X11. The tree and the entry list agree at the level of the scan. For
    each record of depth [k] that a scan at depth [k] appends: under the
    name of a folder record the tree holds an object, as an own property
    or, for the name [__proto__], as its prototype; under the name of a
    file record it holds [false], except that for a file record named
    [__proto__] it holds what the given tree held, since that assignment
    writes nothing. And a name whose value the scan changed is the name of
    such a record. *)
Theorem tree_follows_entry_list fuel (fs : Disk) dirPath depth tree list_ files out
    tree' list' files' out' :
  _listSubFolder fuel fs dirPath depth tree list_ files out
    = Some (Return (tree', list', files'), out') ->
  exists added,
    list' = list_ ++ added
    /\ (forall r, In r added -> Entry.depth r = depth ->
          match Entry.type r with
          | folder => exists sub, tree' !! Entry.name r = Some (JObject sub)
          | file =>
              if String.eqb (Entry.name r) "__proto__"
              then tree' !! Entry.name r = tree !! Entry.name r
              else tree' !! Entry.name r = Some JFalse
          end)
    /\ (forall name,
          tree' !! name = tree !! name
          \/ exists r, In r added /\ Entry.depth r = depth /\ Entry.name r = name).
Proof.
  intros Hr.
  apply _listSubFolder_inv in Hr as (fuel' & acc & out1 & sig & Hf & Hacc & Ha & _).
  injection Hacc as <-.
  unfold attempt in Ha. destruct (readdirSync fs dirPath) as [names|e].
  - edestruct (for_of_in_tree (descend fuel' fs) fs dirPath depth names)
      as (added & Hl & Hin & Hkeys); [|exact Ha|].
    + intros p o tt tl tf o1 Hsub. unfold descend in Hsub.
      destruct (_listSubFolder_records _ _ _ _ _ _ _ _ _ _ _ _ Hsub) as (a & Hl & Hall).
      rewrite app_nil_l in Hl. subst a. exact Hall.
    + exists added. split; [exact Hl|]. split; [|exact Hkeys].
      intros r Hr Hk. exact (proj1 (Hin r Hr Hk)).
  - inversion Ha; subst. exists []. rewrite app_nil_r.
    split; [reflexivity|]. split; [intros r []|]. intros name. left. reflexivity.
Qed.


End WalkerMoreClaims.

(** *** On the small library *)

Lemma entry_records_are_well_formed_witness :
  exists added,
    list_of (_listSubFolder 3 Snapshot.wiki "/w/library/" 0 ∅ [] [] []) = [] ++ added
    /\ forall r, In r added ->
         0 <= Entry.depth r
         /\ starts_with_dot (Entry.name r) = false
         /\ (exists rest, Entry.path r = "/w/library/" +:+ rest)
         /\ (Entry.depth r = 0 -> Entry.path r = "/w/library/")
         /\ (Entry.type r = file -> 1 <= Entry.depth r).
Proof.
  set (r := _listSubFolder 3 Snapshot.wiki "/w/library/" 0 ∅ [] [] []).
  apply (entry_records_are_well_formed 3 Snapshot.wiki "/w/library/" 0 ∅ [] [] []
           (tree_of r) (list_of r) (files_of r) (console_of r)).
  vm_compute. reflexivity.
Defined.

Lemma file_list_follows_entry_list_witness :
  exists added,
    list_of (_listSubFolder 3 Snapshot.wiki "/w/library/" 0 ∅ [] [] []) = [] ++ added
    /\ files_of (_listSubFolder 3 Snapshot.wiki "/w/library/" 0 ∅ [] [] [])
       = [] ++ file_paths added.
Proof.
  set (r := _listSubFolder 3 Snapshot.wiki "/w/library/" 0 ∅ [] [] []).
  apply (file_list_follows_entry_list 3 Snapshot.wiki "/w/library/" 0 ∅ [] [] []
           (tree_of r) (list_of r) (files_of r) (console_of r)).
  vm_compute. reflexivity.
Defined.

(** The folder [01-a] of the library with entries named [__proto__]: the
    tree holds [false] under [x.md], and for the file [__proto__] what the
    empty tree held, nothing. *)
Lemma tree_follows_entry_list_witness :
  exists added,
    list_of (_listSubFolder 1 Snapshot.quirk "/q/library/01-a" 1 ∅ [] [] []) = [] ++ added
    /\ (forall r, In r added -> Entry.depth r = 1 ->
          match Entry.type r with
          | folder =>
              exists sub,
                tree_of (_listSubFolder 1 Snapshot.quirk "/q/library/01-a" 1 ∅ [] [] [])
                  !! Entry.name r = Some (JObject sub)
          | file =>
              if String.eqb (Entry.name r) "__proto__"
              then tree_of (_listSubFolder 1 Snapshot.quirk "/q/library/01-a" 1 ∅ [] [] [])
                     !! Entry.name r = (∅ : gmap string node) !! Entry.name r
              else tree_of (_listSubFolder 1 Snapshot.quirk "/q/library/01-a" 1 ∅ [] [] [])
                     !! Entry.name r = Some JFalse
          end)
    /\ (forall name,
          tree_of (_listSubFolder 1 Snapshot.quirk "/q/library/01-a" 1 ∅ [] [] []) !! name
          = (∅ : gmap string node) !! name
          \/ exists r, In r added /\ Entry.depth r = 1 /\ Entry.name r = name).
Proof.
  set (r := _listSubFolder 1 Snapshot.quirk "/q/library/01-a" 1 ∅ [] [] []).
  apply (tree_follows_entry_list 1 Snapshot.quirk "/q/library/01-a" 1 ∅ [] [] []
           (tree_of r) (list_of r) (files_of r) (console_of r)).
  vm_compute. reflexivity.
Defined.


(** ** [getLevel1Id] with the library folder given *)

Section Level1Given.

Context {Disk : Type} `{FileSystem Disk}.

Lemma substr_append a b : substr (String.length a) (a +:+ b) = b.
Proof. induction a as [|c a IH]; [destruct b; reflexivity|exact IH]. Qed.

Lemma first_field_stops id c rest :
  lacks "-" id = true -> lacks "_" id = true ->
  is_char c "-" || is_char c "_" = true ->
  first_field (id +:+ String c rest) = id.
Proof.
  intros H1 H2 Hc. induction id as [|d id IH].
  - simpl. rewrite Hc. reflexivity.
  - rewrite append_cons. simpl in *.
    apply andb_true_iff in H1 as [Hd1 H1]. apply andb_true_iff in H2 as [Hd2 H2].
    apply negb_true_iff in Hd1, Hd2. rewrite Hd1, Hd2. simpl.
    rewrite IH by assumption. reflexivity.
Qed.

Lemma first_field_whole id :
  lacks "-" id = true -> lacks "_" id = true -> first_field id = id.
Proof.
  intros H1 H2. induction id as [|d id IH]; [reflexivity|].
  simpl in *.
  apply andb_true_iff in H1 as [Hd1 H1]. apply andb_true_iff in H2 as [Hd2 H2].
  apply negb_true_iff in Hd1, Hd2. rewrite Hd1, Hd2. simpl.
  rewrite IH by assumption. reflexivity.
Qed.

Lemma literal_more needle s rest t :
  literal needle s = Some rest -> literal needle (s +:+ t) = Some (rest +:+ t).
Proof.
  intros Hl. apply literal_some in Hl. subst s.
  rewrite append_assoc. apply literal_append.
Qed.

Lemma test_literal_more needle s t :
  test (literal needle) s = true -> test (literal needle) (s +:+ t) = true.
Proof.
  induction s as [|c s IH]; rewrite test_step.
  - destruct (literal needle "") as [r|] eqn:Hl; [|discriminate].
    intros _. rewrite test_step, (literal_more _ _ _ t Hl). reflexivity.
  - destruct (literal needle (String c s)) as [r|] eqn:Hl.
    + intros _. rewrite test_step, (literal_more _ _ _ t Hl). reflexivity.
    + intros Ht. rewrite append_cons, test_step.
      destruct (literal needle (String c (s +:+ t))); [reflexivity|]. exact (IH Ht).
Qed.

(** X13. With the library folder given as [libPath], [getLevel1Id] of a
    path made of [libPath], an id without ['-'] and ['_'], and then
    nothing or a ['-'] or ['_'] and the rest, is the id. *)
Theorem getLevel1Id_with_libPath (below_8 : string -> bool) (fs : Disk)
    (lib id : string) (c : ascii) (rest : string) :
  index_negative "library" lib = false ->
  below_8 lib = false ->
  lacks "-" id = true -> lacks "_" id = true ->
  is_char c "-" || is_char c "_" = true ->
  getLevel1Id below_8 fs (lib +:+ id +:+ String c rest) (Some lib) = Return id
  /\ getLevel1Id below_8 fs (lib +:+ id) (Some lib) = Return id.
Proof.
  intros Hlib Hb H1 H2 Hc.
  assert (forall t, index_negative "library" (lib +:+ t) = false) as Hhas.
  { intros t. unfold index_negative in *. apply negb_false_iff in Hlib.
    rewrite (test_literal_more _ _ t Hlib). reflexivity. }
  unfold getLevel1Id. rewrite !Hhas, Hb, !substr_append. split.
  - rewrite first_field_stops by assumption. reflexivity.
  - rewrite first_field_whole by assumption. reflexivity.
Qed.

End Level1Given.

Lemma getLevel1Id_with_libPath_witness :
  getLevel1Id (fun _ => false) Snapshot.wiki
    ("/w/library/" +:+ "01" +:+ String "-" "intro/001-start.md") (Some "/w/library/")
  = Return "01"
  /\ getLevel1Id (fun _ => false) Snapshot.wiki ("/w/library/" +:+ "01") (Some "/w/library/")
     = Return "01".
Proof.
  apply (getLevel1Id_with_libPath (fun _ => false) Snapshot.wiki "/w/library/" "01" "-"
           "intro/001-start.md"); reflexivity.
Defined.

(** ** The paths [cleanFolder] works on *)

Section CleanPaths.

Context {Disk : Type} `{FileSystem Disk}.

Lemma separator_ampersand_step c s :
  separator_ampersand (String c s) =
  match s with
  | String d r =>
      if is_separator c && is_char d "&" then Some r
      else if is_char c "&" then Some s else None
  | EmptyString => if is_char c "&" then Some EmptyString else None
  end.
Proof. destruct s; reflexivity. Qed.

(** [/[\\\/]?&/] finds nothing in a path without ['&']. *)
Lemma no_ampersand s : lacks "&" s = true -> replace separator_ampersand "/" s = s.
Proof.
  induction s as [|c s IH]; [reflexivity|].
  intros Hl. simpl in Hl. apply andb_true_iff in Hl as [Hc Hl]. apply negb_true_iff in Hc.
  rewrite replace_step, separator_ampersand_step, Hc.
  destruct s as [|d r].
  - reflexivity.
  - simpl in Hl. apply andb_true_iff in Hl as [Hd Hr]. apply negb_true_iff in Hd.
    rewrite Hd, andb_false_r, IH; [reflexivity|].
    simpl. rewrite Hd, Hr. reflexivity.
Qed.

(** In a path with an ['&'], the first one becomes a ['/']. *)
Lemma first_ampersand pre post :
  lacks "&" pre = true -> Spec.ends_with_separator pre = false ->
  replace separator_ampersand "/" (pre +:+ String "&" post) = pre +:+ String "/" post.
Proof.
  intros Hl He. induction pre as [|c pre IH].
  - rewrite !append_empty_l, replace_step, separator_ampersand_step.
    destruct post as [|d r]; reflexivity.
  - simpl in Hl. apply andb_true_iff in Hl as [Hc Hl]. apply negb_true_iff in Hc.
    rewrite !append_cons, replace_step, separator_ampersand_step, Hc.
    destruct pre as [|d pre].
    + rewrite append_empty_l. simpl in He. rewrite He. simpl.
      destruct post; reflexivity.
    + rewrite append_cons.
      simpl in Hl. apply andb_true_iff in Hl as [Hd Hl']. apply negb_true_iff in Hd.
      rewrite Hd, andb_false_r.
      rewrite <- append_cons, IH; [reflexivity| |exact He].
      simpl. rewrite Hd, Hl'. reflexivity.
Qed.

(** X14. [cleanFolder] puts no separator between the folder path and a
    name: for a path without ['&'] the entry is looked for at [path +
    item], so an entry [name] of a folder [item] that it enters is looked
    for at [path + item + name], and when that [stat] fails the call
    raises with nothing removed. For a path with an ['&'] after a
    character that is not a separator, the folder listed is [path] and
    the entries are looked for, and a file among them is unlinked, under
    the path with its first ['&'] turned into ['/']. *)
Theorem cleanFolder_child_paths (fs : Disk) :
  (forall path item,
      lacks "&" path = true ->
      replace separator_ampersand "/" path +:+ item = path +:+ item)
  /\ (forall fuel path item rest name rest' e,
        lacks "&" path = true -> lacks "&" item = true ->
        readdirSync fs path = Return (item :: rest) ->
        statSync_isDirectory fs (path +:+ item) = Return true ->
        starts_with_dot item = false ->
        readdirSync fs (path +:+ item) = Return (name :: rest') ->
        statSync_isDirectory fs ((path +:+ item) +:+ name) = Throw e ->
        cleanFolder (S (S fuel)) fs path = Some (fs, Throw e))
  /\ (forall fuel pre post item rest fs1,
        lacks "&" pre = true -> Spec.ends_with_separator pre = false ->
        readdirSync fs (pre +:+ String "&" post) = Return (item :: rest) ->
        statSync_isDirectory fs ((pre +:+ String "/" post) +:+ item) = Return false ->
        unlinkSync fs ((pre +:+ String "/" post) +:+ item) = Return fs1 ->
        cleanFolder (S fuel) fs (pre +:+ String "&" post)
        = clean_items (cleanFolder fuel) (pre +:+ String "&" post) rest fs1).
Proof.
  split; [intros path item Hl; rewrite no_ampersand by exact Hl; reflexivity|].
  split.
  - intros fuel path item rest name rest' e Hp Hi Hn Hs Hd Hn' Hs'.
    rewrite cleanFolder_step, Hn. simpl clean_items.
    rewrite (no_ampersand path Hp), Hs, Hd. simpl negb. cbv iota.
    rewrite Hn'. simpl clean_items.
    rewrite no_ampersand, Hs'; [reflexivity|].
    rewrite lacks_append, Hp, Hi. reflexivity.
  - intros fuel pre post item rest fs1 Hl He Hn Hs Hu.
    rewrite cleanFolder_step, Hn. simpl clean_items.
    rewrite (first_ampersand pre post Hl He), Hs, Hu. reflexivity.
Qed.

End CleanPaths.

(** In ["/n/"] the entry [x] of [sub] is looked for at ["/n/subx"]; and
    cleaning ["/tmp/a&b/"] unlinks the file ["/tmp/a/b/f"]. *)
Lemma cleanFolder_child_paths_witness :
  replace separator_ampersand "/" "/n/" +:+ "sub" = "/n/sub"
  /\ cleanFolder 2 Snapshot.shelves "/n/" = Some (Snapshot.shelves, Throw (FsError "ENOENT"))
  /\ cleanFolder 1 Table.ampersand ("/tmp/a" +:+ String "&" "b/")
     = Some (Table.Disk (delete "/tmp/a/b/f" (Table.table Table.ampersand)), Return tt).
Proof.
  destruct (cleanFolder_child_paths Snapshot.shelves) as (Hplain & Hnested & _).
  destruct (cleanFolder_child_paths Table.ampersand) as (_ & _ & Hamp).
  split; [apply Hplain; reflexivity|]. split.
  - apply (Hnested 0 "/n/" "sub" [] "x" [] (FsError "ENOENT")); reflexivity.
  - rewrite (Hamp 0 "/tmp/a" "b/" "f" []
               (Table.Disk (delete "/tmp/a/b/f" (Table.table Table.ampersand))));
      reflexivity.
Defined.

(** ** [createFolder] on a disk where [mkdir] works *)

Section CreateChain.

Context {Disk : Type} `{FileSystem Disk}.

(** [mkdir] makes the path exist, leaves what exists, and goes through for
    a path that is not there under a parent that is. *)
Hypothesis mkdir_makes : forall (fs fs' : Disk) p,
  mkdirSync fs p = Return fs' -> existsSync fs' p = true.
Hypothesis mkdir_keeps : forall (fs fs' : Disk) p q,
  mkdirSync fs p = Return fs' -> existsSync fs q = true -> existsSync fs' q = true.
Hypothesis mkdir_works : forall (fs : Disk) p,
  existsSync_of fs (getParentFolder p) = true -> existsSync fs p = false ->
  exists fs', mkdirSync fs p = Return fs'.

Lemma createFolder_under_parent (fs : Disk) fuel path :
  existsSync_of fs (getParentFolder path) = true ->
  exists fs',
    createFolder (S fuel) fs (Some path) = Some (fs', Return tt)
    /\ existsSync fs' path = true
    /\ (existsSync fs path = true -> fs' = fs)
    /\ forall q, existsSync fs q = true -> existsSync fs' q = true.
Proof.
  intros Hparent. simpl. rewrite Hparent. simpl.
  destruct (existsSync fs path) eqn:Hp; simpl.
  - exists fs. auto.
  - destruct (mkdir_works fs path Hparent Hp) as (fs' & Hm). rewrite Hm.
    exists fs'. split; [reflexivity|]. split; [exact (mkdir_makes _ _ _ Hm)|].
    split; [discriminate|]. intros q. exact (mkdir_keeps _ _ _ q Hm).
Qed.

(** X15. On a disk where [mkdir] makes its path exist, removes nothing and
    goes through under a parent that exists: when, going up from a path,
    a folder that exists is met after [n] missing ones, [createFolder]
    ends without an error, the path exists afterwards and so does all that
    existed before; and when the path and its parent exist already, the
    disk is left as it is. *)
Theorem createFolder_makes_the_path (fs : Disk) (n : nat) (path : string) :
  missing fs n path ->
  forall fuel, n < fuel ->
  exists fs',
    createFolder fuel fs (Some path) = Some (fs', Return tt)
    /\ existsSync fs' path = true
    /\ (forall q, existsSync fs q = true -> existsSync fs' q = true)
    /\ (n = 0 -> existsSync fs path = true -> fs' = fs).
Proof.
  induction 1 as [path Hparent | n path parent Hp He Hmissing IH]; intros fuel Hfuel.
  - destruct fuel as [|fuel]; [lia|].
    destruct (createFolder_under_parent fs fuel path Hparent) as (fs' & Hc & He & Hsame & Hk).
    exists fs'. repeat split; auto.
  - destruct fuel as [|fuel]; [lia|].
    destruct (IH fuel ltac:(lia)) as (fs1 & Hc1 & He1 & Hk1 & _).
    destruct fuel as [|fuel]; [lia|].
    assert (existsSync_of fs1 (getParentFolder path) = true) as Hparent1
      by (rewrite Hp; exact He1).
    destruct (createFolder_under_parent fs1 fuel path Hparent1) as (fs2 & Hc2 & He2 & _ & Hk2).
    exists fs2. split; [|split; [exact He2|split; [|lia]]].
    + change (createFolder (S (S fuel)) fs (Some path))
        with (match getParentFolder_of (Some path) with
              | Throw e => Some (fs, Throw e)
              | Return parentPath =>
                  if negb (existsSync_of fs parentPath) then
                    match createFolder (S fuel) fs parentPath with
                    | None => None
                    | Some (fs1, Throw e) => Some (fs1, Throw e)
                    | Some (fs1, Return _) => createFolder (S fuel) fs1 (Some path)
                    end
                  else if negb (existsSync_of fs (Some path)) then
                    match mkdirSync fs path with
                    | Throw e => Some (fs, Throw e)
                    | Return fs1 => Some (fs1, Return tt)
                    end
                  else Some (fs, Return tt)
              end).
      unfold getParentFolder_of. rewrite Hp. simpl existsSync_of. rewrite He. simpl negb. cbv iota.
      rewrite Hc1. exact Hc2.
    + intros q Hq. apply Hk2, Hk1, Hq.
Qed.

End CreateChain.

(** On the disk that keeps the paths made, from ["/"] alone. *)
Lemma createFolder_makes_the_path_witness :
  exists fs',
    createFolder 3 (["/"] : Flat.t) (Some "/a/b/c/") = Some (fs', Return tt)
    /\ existsSync fs' "/a/b/c/" = true
    /\ (forall q, existsSync (["/"] : Flat.t) q = true -> existsSync fs' q = true)
    /\ (2 = 0 -> existsSync (["/"] : Flat.t) "/a/b/c/" = true -> fs' = ["/"]).
Proof.
  apply (createFolder_makes_the_path (Disk := Flat.t)) with (n := 2).
  - intros fs fs' p Hm. simpl in *. unfold Flat.mkdir in Hm.
    destruct (Flat.has fs p); [discriminate|]. injection Hm as <-.
    apply bool_decide_eq_true. left.
  - intros fs fs' p q Hm Hq. simpl in *. unfold Flat.mkdir in Hm.
    destruct (Flat.has fs p); [discriminate|]. injection Hm as <-.
    apply bool_decide_eq_true. right. apply bool_decide_eq_true in Hq. exact Hq.
  - intros fs p _ Hp. simpl in *. unfold Flat.mkdir. rewrite Hp. eexists. reflexivity.
  - apply (missing_parent _ 1 "/a/b/c/" "/a/b/"); [reflexivity|reflexivity|].
    apply (missing_parent _ 0 "/a/b/" "/a/"); [reflexivity|reflexivity|].
    apply missing_none. reflexivity.
  - lia.
Defined.

(** ** Backslashes *)

Section Backslashes.

Lemma replace_backslashes_twice s :
  replace_backslashes (replace_backslashes s) = replace_backslashes s.
Proof.
  induction s as [|c s IH]; [reflexivity|].
  simpl. rewrite IH. destruct (is_char c "\") eqn:Hc; [reflexivity|]. rewrite Hc. reflexivity.
Qed.

Lemma replace_backslashes_lacks s : lacks "\" (replace_backslashes s) = true.
Proof.
  induction s as [|c s IH]; [reflexivity|].
  simpl. rewrite IH. destruct (is_char c "\") eqn:Hc; [reflexivity|]. rewrite Hc. reflexivity.
Qed.

Lemma strip_trailing_lacks c s :
  lacks c s = true -> lacks c (replace trailing_slash "" s) = true.
Proof.
  induction s as [|d s IH]; [reflexivity|].
  intros Hl. rewrite replace_step. simpl in Hl. apply andb_true_iff in Hl as [Hd Hl].
  destruct s as [|e r].
  - simpl. destruct (is_char d "/"); [reflexivity|]. simpl. rewrite Hd. reflexivity.
  - change (trailing_slash (String d (String e r))) with (@None string). cbv iota.
    change (lacks c (String d (replace trailing_slash "" (String e r))))
      with (negb (is_char d c) && lacks c (replace trailing_slash "" (String e r))).
    rewrite Hd, IH by exact Hl. reflexivity.
Qed.

Lemma strip_last_lacks s :
  lacks "\" s = true -> lacks "\" (replace last_segment "/" s) = true.
Proof.
  induction s as [|d s IH]; [reflexivity|].
  intros Hl. rewrite replace_step. simpl in Hl. apply andb_true_iff in Hl as [Hd Hl].
  destruct s as [|e r].
  - simpl. rewrite Hd. reflexivity.
  - rewrite last_segment_cons.
    destruct (is_char d "/" && lacks "/" (String e r)); [reflexivity|].
    change (lacks "\" (String d (replace last_segment "/" (String e r))))
      with (negb (is_char d "\") && lacks "\" (replace last_segment "/" (String e r))).
    rewrite Hd, IH by exact Hl. reflexivity.
Qed.

End Backslashes.

(** X16. [getParentFolder] and [getBaseName] take ['\'] for ['/']: a path
    and the same path with its backslashes turned into slashes give the
    same; and what they give has no backslash in it. *)
Theorem backslashes_count_as_slashes (path : string) :
  getParentFolder (replace_backslashes path) = getParentFolder path
  /\ getBaseName (replace_backslashes path) = getBaseName path
  /\ (forall parent, getParentFolder path = Some parent -> lacks "\" parent = true)
  /\ (forall name, getBaseName path = Return name -> lacks "\" name = true).
Proof.
  split; [unfold getParentFolder; rewrite replace_backslashes_twice; reflexivity|].
  split; [unfold getBaseName; rewrite replace_backslashes_twice; reflexivity|].
  split.
  - intros parent Hp. pose proof (getParentFolder_some_inv _ _ Hp) as Hc.
    rewrite (getParentFolder_some _ Hc) in Hp. injection Hp as <-.
    apply strip_last_lacks, strip_trailing_lacks, replace_backslashes_lacks.
  - intros name. unfold getBaseName.
    destruct (exec slash_then_name _) as [n|] eqn:Hx; [|discriminate].
    intros Hn. injection Hn as <-.
    destruct (exec_slash_then_name_some _ _ Hx) as (_ & pre & Hpre).
    pose proof (strip_trailing_lacks "\" _ (replace_backslashes_lacks path)) as Hl.
    rewrite Hpre, lacks_append in Hl. apply andb_true_iff in Hl as [_ Hl].
    simpl in Hl. exact Hl.
Qed.

Lemma backslashes_count_as_slashes_witness :
  getParentFolder "C:\wiki\library\01-intro" = Some "C:/wiki/library/"
  /\ lacks "\" "C:/wiki/library/" = true
  /\ lacks "\" "01-intro" = true.
Proof.
  destruct (backslashes_count_as_slashes "C:\wiki\library\01-intro") as (_ & _ & Hp & Hn).
  split; [reflexivity|]. split; [apply Hp; reflexivity|apply Hn; reflexivity].
Defined.

(** ** Hidden entries in [cleanFolder] *)

Section CleanHidden.

Context {Disk : Type} `{FileSystem Disk}.

(** X17. [cleanFolder] passes over a folder whose name starts with a dot:
    the disk stays as it is and the folder is not entered, so the result
    does not depend on what a call on such a folder would do. A file whose
    name starts with a dot is unlinked like any other file. *)
Theorem cleanFolder_hidden_entries (fs : Disk) (path : string) :
  (forall recurse item rest,
      starts_with_dot item = true ->
      statSync_isDirectory fs (replace separator_ampersand "/" path +:+ item) = Return true ->
      clean_items recurse path (item :: rest) fs = clean_items recurse path rest fs)
  /\ (forall recurse item rest fs1,
        starts_with_dot item = true ->
        statSync_isDirectory fs (replace separator_ampersand "/" path +:+ item) = Return false ->
        unlinkSync fs (replace separator_ampersand "/" path +:+ item) = Return fs1 ->
        clean_items recurse path (item :: rest) fs = clean_items recurse path rest fs1)
  /\ (forall recurse recurse' items,
        (forall fs0 item,
            In item items -> starts_with_dot item = false ->
            recurse fs0 (replace separator_ampersand "/" path +:+ item)
            = recurse' fs0 (replace separator_ampersand "/" path +:+ item)) ->
        forall fs0, clean_items recurse path items fs0 = clean_items recurse' path items fs0).
Proof.
  split; [intros recurse item rest Hd Hs; simpl; rewrite Hs, Hd; reflexivity|].
  split; [intros recurse item rest fs1 Hd Hs Hu; simpl; rewrite Hs, Hu; reflexivity|].
  intros recurse recurse' items.
  induction items as [|item items IH]; intros Hsame fs0; [reflexivity|].
  assert (forall fs1 i, In i items -> starts_with_dot i = false ->
            recurse fs1 (replace separator_ampersand "/" path +:+ i)
            = recurse' fs1 (replace separator_ampersand "/" path +:+ i)) as Hsame'
    by (intros fs1 i Hin; apply Hsame; right; exact Hin).
  simpl.
  destruct (statSync_isDirectory fs0 (replace separator_ampersand "/" path +:+ item))
    as [[|]|e]; [| |reflexivity].
  - destruct (starts_with_dot item) eqn:Hd; simpl negb; cbv iota; [apply IH, Hsame'|].
    rewrite <- (Hsame fs0 item (or_introl eq_refl) Hd).
    destruct (recurse fs0 _) as [[fs1 [[]|e]]|]; [|reflexivity|reflexivity].
    destruct (rmdirSync fs1 _) as [fs2|e]; [apply IH, Hsame'|reflexivity].
  - destruct (unlinkSync fs0 _) as [fs1|e]; [apply IH, Hsame'|reflexivity].
Qed.

End CleanHidden.

(** Cleaning ["/r/"] leaves [.git] and what is in it, and takes
    [.gitignore] and [a.md] away. *)
Lemma cleanFolder_hidden_entries_witness :
  cleanFolder 1 Table.repository "/r/"
  = Some (Table.Disk (delete "/r/a.md" (delete "/r/.gitignore" (Table.table Table.repository))),
          Return tt)
  /\ clean_items (cleanFolder 0) "/r/" [".git"; ".gitignore"; "a.md"] Table.repository
     = clean_items (fun _ _ => None) "/r/" [".gitignore"; "a.md"] Table.repository.
Proof.
  destruct (cleanFolder_hidden_entries Table.repository "/r/") as (Hfolder & Hfile & Hframe).
  assert (clean_items (cleanFolder 0) "/r/" [".git"; ".gitignore"; "a.md"] Table.repository
          = clean_items (fun _ _ => None) "/r/" [".gitignore"; "a.md"] Table.repository) as Hskip.
  { rewrite Hfolder by reflexivity.
    apply Hframe. intros fs0 item Hin Hd.
    simpl in Hin. destruct Hin as [<-|[<-|[]]]; [discriminate Hd|reflexivity]. }
  split; [|exact Hskip].
  rewrite cleanFolder_step.
  change (readdirSync Table.repository "/r/") with (Return [".git"; ".gitignore"; "a.md"]).
  cbv iota. rewrite Hskip.
  rewrite (Hfile _ ".gitignore" ["a.md"]
             (Table.Disk (delete "/r/.gitignore" (Table.table Table.repository))));
    reflexivity.
Defined.
